(** * indian-rail-api: the response decoders of [train_api/utils.py]

    A shallow embedding of the five decoders and of the day-index helper of
    [train_api/utils.py], with the Python operations they rely on
    ([str.split], [str.replace], [str.strip], slicing, list indexing, dict
    assignment, [try]/[except]) written out as Rocq functions.

    Conventions.
    - A Python [str] is a list of Unicode code points ([N]).
    - A Python value that ends up in a response is a [value]; a [dict] is an
      association list in insertion order, as Python dicts are.
    - Code that may raise runs in the [result] monad; a [try]/[except] is
      [try_except], which lets the exceptions of other classes through.
      [print] is diagnostic only and is left out.
    - The text handed to a decoder is a [str], as the annotations of the
      source say.
    - [_current_timestamp_ms()] reads the clock; the reading is the argument
      [now] of every decoder.
    - The six views of [train_api/views.py] follow the decoders.  What a
      view takes from outside the repository (the query parameters, the
      HTTP client, the user-agent library, the HTML parser, the clock) is
      the record [Env]; the routing table of [train_api/urls.py] only names
      the views and is not modelled. *)

From Stdlib Require Import String Ascii.
From Stdlib Require Import List ZArith NArith Bool Arith Lia.
Import ListNotations.

Local Open Scope list_scope.

(** ** Python strings *)

Definition char := N.
Definition str := list char.

(** A literal of the source, as code points. *)
Definition lit (x : string) : str := map N_of_ascii (list_ascii_of_string x).
Arguments lit x%_string.

Fixpoint str_eqb (a b : str) : bool :=
  match a, b with
  | [], [] => true
  | x :: a', y :: b' => N.eqb x y && str_eqb a' b'
  | _, _ => false
  end.

(** [t.startswith(p)] *)
Fixpoint startswith (p t : str) : bool :=
  match p, t with
  | [], _ => true
  | x :: p', y :: t' => N.eqb x y && startswith p' t'
  | _ :: _, [] => false
  end.

(** [p in t] for strings. *)
Fixpoint contains (p t : str) : bool :=
  startswith p t ||
  match t with
  | [] => false
  | _ :: t' => contains p t'
  end.

(** [t.find(sep)] as a cut: the text before the leftmost occurrence of
    [sep] and the text after it. *)
Fixpoint partition (sep t : str) : option (str * str) :=
  if startswith sep t then Some ([], skipn (List.length sep) t)
  else match t with
       | [] => None
       | c :: t' =>
           match partition sep t' with
           | Some (b, a) => Some (c :: b, a)
           | None => None
           end
       end.

(** [t.split(sep)] for a non-empty [sep]: one left-to-right scan; [skip]
    counts the characters of a separator just matched that are still to be
    passed over, so occurrences never overlap.  The head of the result is the
    piece under construction.  [split_unfold] below relates it to
    [partition]. *)
Fixpoint split_from (sep t : str) (skip : nat) : list str :=
  match t with
  | [] => [[]]
  | c :: t' =>
      match skip with
      | S k => split_from sep t' k
      | O =>
          if startswith sep t
          then [] :: split_from sep t' (List.length sep - 1)
          else match split_from sep t' 0 with
               | p :: ps => (c :: p) :: ps
               | [] => [[c]]
               end
      end
  end.

Definition split (sep t : str) : list str := split_from sep t 0.

(** [sep.join(l)] *)
Fixpoint join (sep : str) (l : list str) : str :=
  match l with
  | [] => []
  | [x] => x
  | x :: rest => x ++ sep ++ join sep rest
  end.

(** [t.replace(old, new)] for a non-empty [old]. *)
Definition replace (old new t : str) : str := join new (split old t).

(** [str.isspace] on one character, the set [str.strip()] and the regular
    expression class [\s] use. *)
Definition is_space (c : char) : bool :=
  ((9 <=? c) && (c <=? 13) || (28 <=? c) && (c <=? 32) ||
   (c =? 133) || (c =? 160) || (c =? 5760) ||
   (8192 <=? c) && (c <=? 8202) || (c =? 8232) || (c =? 8233) ||
   (c =? 8239) || (c =? 8287) || (c =? 12288))%N.

Fixpoint lstrip (t : str) : str :=
  match t with
  | [] => []
  | c :: t' => if is_space c then lstrip t' else t
  end.

Definition rstrip (t : str) : str := rev (lstrip (rev t)).

(** [t.strip()] *)
Definition strip (t : str) : str := rstrip (lstrip t).

(** [[el for el in l if el]] on a list of strings. *)
Definition nonempty (s : str) : bool :=
  match s with [] => false | _ :: _ => true end.

Definition drop_empty (l : list str) : list str := filter nonempty l.

(** [x in l] for a list of strings. *)
Definition in_list (x : str) (l : list str) : bool := existsb (str_eqb x) l.

(** ** Exceptions *)

Inductive exc_class :=
| Exception | IndexError | ValueError | JSONDecodeError | OverflowError
| RecursionError.

(** The part of Python's class hierarchy the handlers of the source see:
    [json.JSONDecodeError] derives from [ValueError], everything from
    [Exception]. *)
Definition issubclass (c d : exc_class) : bool :=
  match d, c with
  | Exception, _ => true
  | IndexError, IndexError => true
  | ValueError, (ValueError | JSONDecodeError) => true
  | JSONDecodeError, JSONDecodeError => true
  | OverflowError, OverflowError => true
  | RecursionError, RecursionError => true
  | _, _ => false
  end.

Record exception := mkExc { exc_class_of : exc_class; exc_msg : str }.

Inductive result (A : Type) :=
| Ret (a : A)
| Raise (e : exception).
Arguments Ret {A} a.
Arguments Raise {A} e.

Definition bind {A B} (m : result A) (k : A -> result B) : result B :=
  match m with
  | Ret a => k a
  | Raise e => Raise e
  end.

Notation "x <- m ;; k" := (bind m (fun x => k))
  (at level 61, m at next level, right associativity).

(** [try: body / except cls as e: handler(e)]: an exception of another
    class leaves the statement. *)
Definition try_except {A} (body : result A) (cls : exc_class)
  (handler : exception -> result A) : result A :=
  match body with
  | Ret a => Ret a
  | Raise e => if issubclass (exc_class_of e) cls then handler e else Raise e
  end.

(** The same with two [except] clauses, tried in order. *)
Definition try_except2 {A} (body : result A)
  (cls1 : exc_class) (handler1 : exception -> result A)
  (cls2 : exc_class) (handler2 : exception -> result A) : result A :=
  match body with
  | Ret a => Ret a
  | Raise e =>
      if issubclass (exc_class_of e) cls1 then handler1 e
      else if issubclass (exc_class_of e) cls2 then handler2 e
      else Raise e
  end.

(** [l[i]] for a literal index [i >= 0]. *)
Definition getitem {A} (l : list A) (i : nat) : result A :=
  match nth_error l i with
  | Some x => Ret x
  | None => Raise (mkExc IndexError (lit "list index out of range"))
  end.

(** [l.pop(0)], keeping the list that remains. *)
Definition pop0 {A} (l : list A) : result (list A) :=
  match l with
  | [] => Raise (mkExc IndexError (lit "pop from empty list"))
  | _ :: t => Ret t
  end.

(** ** Values and dicts *)

#[local] Set Warnings "-register-all".

Inductive value :=
| VNone
| VBool (b : bool)
| VInt (z : Z)
| VFloat (bits : N)
| VStr (s : str)
| VList (l : list value)
| VDict (d : list (str * value)).

Definition dict := list (str * value).

(** [d[k] = v] *)
Fixpoint setitem (d : dict) (k : str) (v : value) : dict :=
  match d with
  | [] => [(k, v)]
  | (k', v') :: d' =>
      if str_eqb k k' then (k, v) :: d' else (k', v') :: setitem d' k v
  end.

(** [d.get(k)] *)
Fixpoint get (d : dict) (k : str) : option value :=
  match d with
  | [] => None
  | (k', v) :: d' => if str_eqb k k' then Some v else get d' k
  end.

(** [d.get(k, default)] *)
Definition get_default (d : dict) (k : str) (default : value) : value :=
  match get d k with Some v => v | None => default end.

(** Python truthiness. *)
Definition truthy (v : value) : bool :=
  match v with
  | VNone => false
  | VBool b => b
  | VInt z => negb (Z.eqb z 0)
  | VFloat b => negb (N.eqb b 0 || N.eqb b (2 ^ 63))
  | VStr s => nonempty s
  | VList l => match l with [] => false | _ => true end
  | VDict d => match d with [] => false | _ => true end
  end.

Definition keys (d : dict) : list str := map fst d.

(** Truthiness of a list of strings ([if not data_segments]). *)
Definition nonempty_list {A} (l : list A) : bool :=
  match l with [] => false | _ :: _ => true end.

(** ** The result envelope

    Every decoder answers with a dict of three entries, written either as a
    dict display or by three assignments to [retval]; both give the same
    dict. *)

Definition k_success := lit "success".
Definition k_time_stamp := lit "time_stamp".
Definition k_data := lit "data".

Definition envelope (retval : dict) (success : bool) (now : Z) (data : value)
  : value :=
  VDict (setitem (setitem (setitem retval k_success (VBool success))
                          k_time_stamp (VInt now))
                 k_data data).

(** The [except] clauses format the exception with [str(e)]. *)
Definition str_of_exc (e : exception) : str := exc_msg e.

(** ** [between_station_logic] *)

Definition SENTINEL := lit "~~~~~~~~".
Definition TILDE := lit "~".
Definition TILDE_CARET := lit "~^".
Definition Y : char := 89%N.

Definition potential_error_messages : list str :=
  [ lit "~~~~~Please try again after some time.";
    lit "~~~~~From station not found";
    lit "~~~~~To station not found" ].

(** [[1 if day_char == 'Y' else 0 for day_char in raw]] *)
Definition parse_running_days (raw : str) : list value :=
  map (fun day_char => VInt (if N.eqb day_char Y then 1 else 0)) raw.

(** The two branches of [if len(parsed_running_days) == 7], shared by
    [between_station_logic] and [check_train_logic]. *)
Definition set_running_days (obj : dict) (raw : str) : dict :=
  let parsed_running_days := parse_running_days raw in
  if List.length parsed_running_days =? 7
  then setitem (setitem obj (lit "running_days_str") (VStr raw))
               (lit "running_days") (VList parsed_running_days)
  else setitem (setitem obj (lit "running_days_str") (VStr raw))
               (lit "running_days") (VList []).

(** The "No direct trains found" check; [Some v] is an early [return v].
    The inner [try] swallows an [IndexError] and nothing else. *)
Definition no_direct_check (now : Z) (retval : dict) (api_response_text : str)
  : result (option value) :=
  if contains (lit "No direct trains found") api_response_text then
    first_part_for_no_direct <- getitem (split SENTINEL api_response_text) 0 ;;
    let attempt : result (option value) :=
      let nore_check_parts := split TILDE first_part_for_no_direct in
      if 5 <? List.length nore_check_parts then
        p5 <- getitem nore_check_parts 5 ;;
        message_part <- getitem (split (lit "<") p5) 0 ;;
        if str_eqb message_part (lit "No direct trains found")
        then Ret (Some (envelope retval false now (VStr message_part)))
        else Ret None
      else Ret None in
    try_except attempt IndexError (fun _ => Ret None)
  else Ret None.

(** One turn of [for segment in data_segments]; [arr] is the list the loop
    appends to. *)
Definition between_station_segment (segment : str) (arr : list value)
  : result (list value) :=
  let parts := split TILDE_CARET segment in
  if List.length parts =? 2 then
    train_data_str <- getitem parts 1 ;;
    let train_details := drop_empty (split TILDE train_data_str) in
    if 14 <=? List.length train_details then
      f0 <- getitem train_details 0 ;;
      f1 <- getitem train_details 1 ;;
      f2 <- getitem train_details 2 ;;
      f3 <- getitem train_details 3 ;;
      f4 <- getitem train_details 4 ;;
      f5 <- getitem train_details 5 ;;
      f6 <- getitem train_details 6 ;;
      f7 <- getitem train_details 7 ;;
      f8 <- getitem train_details 8 ;;
      f9 <- getitem train_details 9 ;;
      f10 <- getitem train_details 10 ;;
      f11 <- getitem train_details 11 ;;
      f12 <- getitem train_details 12 ;;
      let obj : dict :=
        [ (lit "train_no", VStr f0);
          (lit "train_name", VStr f1);
          (lit "source_stn_name", VStr f2);
          (lit "source_stn_code", VStr f3);
          (lit "dstn_stn_name", VStr f4);
          (lit "dstn_stn_code", VStr f5);
          (lit "from_stn_name", VStr f6);
          (lit "from_stn_code", VStr f7);
          (lit "to_stn_name", VStr f8);
          (lit "to_stn_code", VStr f9);
          (lit "from_time", VStr f10);
          (lit "to_time", VStr f11);
          (lit "travel_time", VStr f12) ] in
      raw_running_days <- getitem train_details 13 ;;
      let obj := set_running_days obj raw_running_days in
      let train_base_obj := VDict [ (lit "train_base", VDict obj) ] in
      Ret (arr ++ [train_base_obj])
    else Ret arr
  else Ret arr.

Fixpoint between_station_loop (data_segments : list str) (arr : list value)
  : result (list value) :=
  match data_segments with
  | [] => Ret arr
  | segment :: rest =>
      arr' <- between_station_segment segment arr ;;
      between_station_loop rest arr'
  end.

(** The body of the outer [try]. *)
Definition between_station_body (now : Z) (api_response_text : str)
  : result value :=
  let retval : dict := [] in
  let arr : list value := [] in
  early <- no_direct_check now retval api_response_text ;;
  match early with
  | Some v => Ret v
  | None =>
      first_segment_error_check <-
        getitem (split SENTINEL api_response_text) 0 ;;
      if in_list first_segment_error_check potential_error_messages then
        Ret (envelope retval false now
               (VStr (replace TILDE [] first_segment_error_check)))
      else
        let data_segments := split SENTINEL api_response_text in
        let data_segments := drop_empty data_segments in
        if negb (nonempty_list data_segments) && negb (truthy (VDict retval))
        then
          Ret (envelope retval false now
                 (VStr (lit "Unknown error or empty response from API.")))
        else
          arr <- between_station_loop data_segments arr ;;
          if negb (truthy (VList arr)) &&
             negb (truthy (get_default retval k_success (VBool true)))
          then
            Ret (envelope retval false now
                   (VStr (lit "No train data could be parsed.")))
          else if negb (truthy (VList arr)) &&
                  truthy (get_default retval k_success (VBool true))
          then
            Ret (envelope retval false now
                   (VStr (lit "No direct trains found or data format issue.")))
          else
            Ret (envelope retval true now (VList arr))
  end.

Definition between_station_logic (now : Z) (api_response_text : str)
  : result value :=
  try_except (between_station_body now api_response_text) Exception
    (fun e =>
       Ret (envelope [] false now
              (VStr (lit "An error occurred during data processing: "
                     ++ str_of_exc e)))).

(** ** [get_day_on_date_logic]

    [int(s)] on a string, base 10, as CPython reads it: characters below 127
    stand for themselves, a Unicode space counts as a blank, a Unicode
    decimal digit as its ASCII digit, anything else is rejected; around the
    number ASCII blanks are skipped; one sign may precede the digits and
    single underscores may separate them.  The table of decimal digits
    outside ASCII belongs to the interpreter's Unicode database and is the
    parameter [unicode_decimal].  A number of more than
    [int_max_str_digits] digits is refused with a [ValueError], leading
    zeros counted, sign, blanks and underscores not: the interpreter checks
    this when the run of digits ends, before it looks at what follows. *)

Definition is_ascii_digit (c : char) : bool := ((48 <=? c) && (c <=? 57))%N.
Definition digit_value (c : char) : Z := Z.of_N (c - 48).
Definition is_c_space (c : char) : bool :=
  ((9 <=? c) && (c <=? 13) || (c =? 32))%N.

Definition value_error (msg : string) : exception :=
  mkExc ValueError (lit msg).

(** [str(n)] for an integer. *)
Fixpoint decimal_digits (fuel : nat) (n : N) (acc : str) : str :=
  match fuel with
  | O => acc
  | S fuel' =>
      let acc' := (48 + n mod 10)%N :: acc in
      if (n / 10 =? 0)%N then acc' else decimal_digits fuel' (n / 10)%N acc'
  end.

Definition str_of_N (n : N) : str := decimal_digits (S (N.size_nat n)) n [].

Definition str_of_Z (z : Z) : str :=
  if (z <? 0)%Z then 45%N :: str_of_N (Z.to_N (- z)) else str_of_N (Z.to_N z).

(** [sys.get_int_max_str_digits()], as the interpreter starts. *)
Definition int_max_str_digits : N := 4300.

Definition digits_limit_error (digits : N) : exception :=
  mkExc ValueError
    (lit "Exceeds the limit (" ++ str_of_N int_max_str_digits
     ++ lit " digits) for integer string conversion: value has "
     ++ str_of_N digits
     ++ lit " digits; use sys.set_int_max_str_digits() to increase the limit").

Section IntOfStr.
Variable unicode_decimal : char -> option N.

Definition int_normalize (c : char) : char :=
  if (c <? 127)%N then c
  else if is_space c then 32%N
  else match unicode_decimal c with
       | Some d => (48 + d)%N
       | None => 63%N
       end.

Fixpoint skip_c_space (t : str) : str :=
  match t with
  | [] => []
  | c :: t' => if is_c_space c then skip_c_space t' else t
  end.

(** The run of digits after a first digit, each further digit possibly
    preceded by one underscore: the number read, the count of its digits
    and the text after the run. *)
Fixpoint int_digits (t : str) (acc : Z) (digits : N)
  : option (Z * N * str) :=
  match t with
  | [] => Some (acc, digits, [])
  | c :: t' =>
      if is_ascii_digit c
      then int_digits t' (acc * 10 + digit_value c) (digits + 1)
      else if (c =? 95)%N then
        match t' with
        | d :: t'' =>
            if is_ascii_digit d
            then int_digits t'' (acc * 10 + digit_value d) (digits + 1)
            else None
        | [] => None
        end
      else Some (acc, digits, t)
  end.

Definition invalid_literal : exception :=
  value_error "invalid literal for int() with base 10".

Definition int_unsigned (t : str) : result Z :=
  match t with
  | d :: t' =>
      if is_ascii_digit d then
        match int_digits t' (digit_value d) 1 with
        | Some (z, digits, rest) =>
            if (int_max_str_digits <? digits)%N
            then Raise (digits_limit_error digits)
            else if forallb is_c_space rest then Ret z
            else Raise invalid_literal
        | None => Raise invalid_literal
        end
      else Raise invalid_literal
  | [] => Raise invalid_literal
  end.

Definition int (s : str) : result Z :=
  let t := skip_c_space (map int_normalize s) in
  match t with
  | c :: t' =>
      if (c =? 43)%N then int_unsigned t'
      else if (c =? 45)%N then z <- int_unsigned t' ;; Ret (- z)%Z
      else int_unsigned t
  | [] => Raise invalid_literal
  end.
End IntOfStr.

(** [datetime(year, month, day)] of CPython: each argument is first
    converted to a C [int], which raises [OverflowError] outside its range;
    the calendar checks raise [ValueError].  The source never reads the
    text of these exceptions. *)

Record date := mkDate { year : Z; month : Z; day : Z }.

Definition INT_MIN : Z := -2147483648.
Definition INT_MAX : Z := 2147483647.
Definition LONG_MIN : Z := -9223372036854775808.
Definition LONG_MAX : Z := 9223372036854775807.
Definition MINYEAR : Z := 1.
Definition MAXYEAR : Z := 9999.

Definition fits_c_int (z : Z) : bool := (INT_MIN <=? z)%Z && (z <=? INT_MAX)%Z.

Definition is_leap (y : Z) : bool :=
  ((y mod 4 =? 0) && (negb (y mod 100 =? 0) || (y mod 400 =? 0)))%Z.

Definition days_in_month (y m : Z) : Z :=
  if (m =? 2)%Z then (if is_leap y then 29 else 28)%Z
  else if ((m =? 4) || (m =? 6) || (m =? 9) || (m =? 11))%Z then 30%Z
  else 31%Z.

Definition valid_date (y m d : Z) : bool :=
  ((MINYEAR <=? y) && (y <=? MAXYEAR) && (1 <=? m) && (m <=? 12) &&
   (1 <=? d) && (d <=? days_in_month y m))%Z.

(** An argument converted to a C [int], as the constructor's argument
    parser does, one argument after the other. *)
Definition c_int (z : Z) : result Z :=
  if negb ((LONG_MIN <=? z) && (z <=? LONG_MAX))%Z then
    Raise (mkExc OverflowError
             (lit "Python int too large to convert to C long"))
  else if (INT_MAX <? z)%Z then
    Raise (mkExc OverflowError (lit "signed integer is greater than maximum"))
  else if (z <? INT_MIN)%Z then
    Raise (mkExc OverflowError (lit "signed integer is less than minimum"))
  else Ret z.

Definition datetime (yyyy mm dd : Z) : result date :=
  yyyy <- c_int yyyy ;;
  mm <- c_int mm ;;
  dd <- c_int dd ;;
  if negb ((MINYEAR <=? yyyy) && (yyyy <=? MAXYEAR))%Z then
    Raise (value_error "year is out of range")
  else if negb ((1 <=? mm) && (mm <=? 12))%Z then
    Raise (value_error "month must be in 1..12")
  else if negb ((1 <=? dd) && (dd <=? days_in_month yyyy mm))%Z then
    Raise (value_error "day is out of range for month")
  else Ret (mkDate yyyy mm dd).

Definition days_before_year (y : Z) : Z :=
  let y := (y - 1)%Z in (y * 365 + y / 4 - y / 100 + y / 400)%Z.

Definition days_before_month_table : list Z :=
  [0; 0; 31; 59; 90; 120; 151; 181; 212; 243; 273; 304; 334]%Z.

Definition days_before_month (y m : Z) : Z :=
  (nth (Z.to_nat m) days_before_month_table 0
   + (if (2 <? m) && is_leap y then 1 else 0))%Z.

Definition ymd_to_ord (y m d : Z) : Z :=
  (days_before_year y + days_before_month y m + d)%Z.

(** [date_obj.weekday()]: Monday is 0, Sunday is 6. *)
Definition weekday (dt : date) : Z :=
  ((ymd_to_ord (year dt) (month dt) (day dt) + 6) mod 7)%Z.

Section DayOnDate.
Variable unicode_decimal : char -> option N.

Definition get_day_on_date_body (dd_str mm_str yyyy_str : str) : result Z :=
  dd <- int unicode_decimal dd_str ;;
  mm <- int unicode_decimal mm_str ;;
  yyyy <- int unicode_decimal yyyy_str ;;
  date_obj <- datetime yyyy mm dd ;;
  let py_weekday := weekday date_obj in
  let mapped_day_index := ((py_weekday + 5) mod 7)%Z in
  Ret mapped_day_index.

(** [except ValueError: return -1]; any other exception leaves the
    function. *)
Definition get_day_on_date_logic (dd_str mm_str yyyy_str : str) : result Z :=
  try_except (get_day_on_date_body dd_str mm_str yyyy_str) ValueError
    (fun _ => Ret (-1)%Z).
End DayOnDate.

(** ** [get_route_logic] *)

Definition failure (now : Z) (msg : str) : value :=
  envelope [] false now (VStr msg).

Definition get_route_segment (segment : str) (arr : list value)
  : result (list value) :=
  let details := drop_empty (split TILDE segment) in
  if 9 <? List.length details then
    d2 <- getitem details 2 ;;
    d1 <- getitem details 1 ;;
    d3 <- getitem details 3 ;;
    d4 <- getitem details 4 ;;
    d6 <- getitem details 6 ;;
    d7 <- getitem details 7 ;;
    d9 <- getitem details 9 ;;
    let obj : dict :=
      [ (lit "source_stn_name", VStr d2);
        (lit "source_stn_code", VStr d1);
        (lit "arrive", VStr d3);
        (lit "depart", VStr d4);
        (lit "distance", VStr d6);
        (lit "day", VStr d7);
        (lit "zone", VStr d9) ] in
    Ret (arr ++ [VDict obj])
  else Ret arr.

Fixpoint get_route_loop (data_segments : list str) (arr : list value)
  : result (list value) :=
  match data_segments with
  | [] => Ret arr
  | segment :: rest =>
      arr' <- get_route_segment segment arr ;;
      get_route_loop rest arr'
  end.

Definition get_route_body (now : Z) (api_response_text : str) : result value :=
  let retval : dict := [] in
  let arr : list value := [] in
  let data_segments := split TILDE_CARET api_response_text in
  let data_segments := drop_empty data_segments in
  if negb (nonempty_list data_segments) then
    Ret (failure now (lit "No route data found in response."))
  else
    arr <- get_route_loop data_segments arr ;;
    if negb (truthy (VList arr)) then
      Ret (failure now (lit "Could not parse route details from segments."))
    else
      Ret (envelope retval true now (VList arr)).

Definition get_route_logic (now : Z) (api_response_text : str)
  : result value :=
  try_except (get_route_body now api_response_text) Exception
    (fun e => Ret (failure now (lit "An error occurred: " ++ str_of_exc e))).

(** ** [check_train_logic]

    [str.isdigit] consults the interpreter's Unicode database; outside ASCII
    the digit property is the parameter [unicode_isdigit]. *)

Definition error_messages : list str :=
  [ lit "~~~~~Please try again after some time.";
    lit "~~~~~Train not found" ].

Definition CARET := lit "^".

Section CheckTrain.
Variable unicode_isdigit : char -> bool.

Definition isdigit_char (c : char) : bool :=
  if (c <? 128)%N then is_ascii_digit c else unicode_isdigit c.

(** [s.isdigit()] *)
Definition isdigit (s : str) : bool := nonempty s && forallb isdigit_char s.

(** The conditional [pop(0)] on [details_part1]; [and] evaluates its right
    operand only when the left one holds. *)
Definition shift_first_part (details_part1 : list str) : result (list str) :=
  outer <-
    (if nonempty_list details_part1 then
       if 1 <? List.length details_part1 then
         x1 <- getitem details_part1 1 ;;
         Ret (6 <? List.length x1)
       else Ret false
     else Ret false) ;;
  if (outer : bool) then
    x0 <- getitem details_part1 0 ;;
    if str_eqb x0 CARET then pop0 details_part1
    else
      inner <-
        (x0 <- getitem details_part1 0 ;;
         if 6 <? List.length x0 then
           if 1 <? List.length details_part1 then
             x0 <- getitem details_part1 0 ;;
             Ret (negb (isdigit x0))
           else Ret false
         else Ret false) ;;
      if (inner : bool) then pop0 details_part1 else Ret details_part1
  else Ret details_part1.

Definition check_train_body (now : Z) (api_response_text : str)
  : result value :=
  let retval : dict := [] in
  first_segment_error_check <-
    getitem (split SENTINEL api_response_text) 0 ;;
  if in_list first_segment_error_check error_messages then
    Ret (envelope retval false now
           (VStr (replace TILDE [] first_segment_error_check)))
  else
    let data_segments := split SENTINEL api_response_text in
    if List.length data_segments <? 2 then
      Ret (failure now (lit "Invalid data format for train details."))
    else
      details_part1_str <- getitem data_segments 0 ;;
      let details_part1 := drop_empty (split TILDE details_part1_str) in
      details_part1 <- shift_first_part details_part1 ;;
      if List.length details_part1 <? 15 then
        Ret (failure now
               (lit "Not enough data in the first part of train details."))
      else
        f0 <- getitem details_part1 0 ;;
        f1 <- getitem details_part1 1 ;;
        f2 <- getitem details_part1 2 ;;
        f3 <- getitem details_part1 3 ;;
        f4 <- getitem details_part1 4 ;;
        f5 <- getitem details_part1 5 ;;
        f10 <- getitem details_part1 10 ;;
        f11 <- getitem details_part1 11 ;;
        f12 <- getitem details_part1 12 ;;
        let obj : dict :=
          [ (lit "train_no", VStr (replace CARET [] f0));
            (lit "train_name", VStr f1);
            (lit "from_stn_name", VStr f2);
            (lit "from_stn_code", VStr f3);
            (lit "to_stn_name", VStr f4);
            (lit "to_stn_code", VStr f5);
            (lit "from_time", VStr f10);
            (lit "to_time", VStr f11);
            (lit "travel_time", VStr f12) ] in
        raw_running_days_ct <- getitem details_part1 13 ;;
        let obj := set_running_days obj raw_running_days_ct in
        details_part2_str <- getitem data_segments 1 ;;
        let details_part2 := drop_empty (split TILDE details_part2_str) in
        if List.length details_part2 <? 20 then
          Ret (failure now
                 (lit "Not enough data in the second part of train details."))
        else
          g11 <- getitem details_part2 11 ;;
          let obj := setitem obj (lit "type") (VStr g11) in
          g12 <- getitem details_part2 12 ;;
          let obj := setitem obj (lit "train_id") (VStr g12) in
          g18 <- getitem details_part2 18 ;;
          let obj := setitem obj (lit "distance_from_to") (VStr g18) in
          g19 <- getitem details_part2 19 ;;
          let obj := setitem obj (lit "average_speed") (VStr g19) in
          Ret (envelope retval true now (VDict obj)).

Definition check_train_logic (now : Z) (api_response_text : str)
  : result value :=
  try_except2 (check_train_body now api_response_text)
    IndexError
    (fun e =>
       Ret (failure now
              (lit "Data parsing error (index out of bounds): "
               ++ str_of_exc e)))
    Exception
    (fun e => Ret (failure now (lit "An error occurred: " ++ str_of_exc e))).
End CheckTrain.

(** ** [pnr_status_logic]

    [re.search(r"data\s*=\s*({.*?});", html_string, re.DOTALL)], written as
    the scan the expression denotes: at a start position the word [data],
    the whole run of blanks (the next thing must be [=], which is no blank,
    so the greedy star cannot give any back), [=], blanks, an opening brace,
    and then the shortest text after which [};] follows; the leftmost start
    position that matches wins.  The result is group 1, braces included.
    [json.loads] belongs to the standard library and is a parameter. *)

Definition strip_prefix (p t : str) : option str :=
  if startswith p t then Some (skipn (List.length p) t) else None.

(** The text after the opening brace, when [t] starts with the head of the
    pattern. *)
Definition re_match_open (t : str) : option str :=
  match strip_prefix (lit "data") t with
  | None => None
  | Some t1 =>
      match strip_prefix (lit "=") (lstrip t1) with
      | None => None
      | Some t2 => strip_prefix (lit "{") (lstrip t2)
      end
  end.

Definition re_match_here (t : str) : option str :=
  match re_match_open t with
  | None => None
  | Some t3 =>
      match partition (lit "};") t3 with
      | None => None
      | Some (body, _) => Some (lit "{" ++ body ++ lit "}")
      end
  end.

Fixpoint re_search (t : str) : option str :=
  match re_match_here t with
  | Some g => Some g
  | None =>
      match t with
      | [] => None
      | _ :: t' => re_search t'
      end
  end.

Section Pnr.
Variable json_loads : str -> result value.

Definition pnr_status_body (now : Z) (html_string : str) : result value :=
  let retval : dict := [] in
  let matched := re_search html_string in
  match matched with
  | Some json_data_string =>
      parsed_data <- json_loads json_data_string ;;
      Ret (envelope retval true now parsed_data)
  | None =>
      Ret (envelope retval false now
             (VStr (lit "Could not find PNR data in the page.")))
  end.

Definition pnr_status_logic (now : Z) (html_string : str) : result value :=
  try_except2 (pnr_status_body now html_string)
    JSONDecodeError
    (fun _ => Ret (failure now (lit "Failed to parse PNR data from page.")))
    Exception
    (fun e => Ret (failure now (lit "An error occurred: " ++ str_of_exc e))).
End Pnr.

(** ** [live_station_logic]

    The document is a BeautifulSoup object; the four operations the decoder
    calls on it form the interface [Soup].  [get_text] is
    [get_text(strip=True)]; a tag is always truthy, so [if next_div:] tests
    for [None]. *)

Class Soup (Document Tag : Type) := {
  select : Document -> str -> list Tag;
  get_text : Tag -> str;
  find_next_sibling : Tag -> str -> option Tag;
  find_parent : Tag -> str -> option Tag
}.

Definition ARROW : str := [8594%N].

Section LiveStation.
Context {Document Tag : Type} `{Soup Document Tag}.

(** One turn of [for item_name_el in soup.select('.name')]. *)
Definition live_station_row (item_name_el : Tag) : result value :=
  let obj : dict := [] in
  let full_train_text := get_text item_name_el in
  let obj := setitem obj (lit "train_no") (VStr (firstn 5 full_train_text)) in
  let obj := setitem obj (lit "train_name")
               (VStr (strip (skipn 5 full_train_text))) in
  let next_div := find_next_sibling item_name_el (lit "div") in
  obj <-
    match next_div with
    | Some next_div =>
        let div_text := get_text next_div in
        let source_dest_parts := split ARROW div_text in
        src <- (if 0 <? List.length source_dest_parts
                then p <- getitem source_dest_parts 0 ;; Ret (strip p)
                else Ret []) ;;
        let obj := setitem obj (lit "source_stn_name") (VStr src) in
        dst <- (if 1 <? List.length source_dest_parts
                then p <- getitem source_dest_parts 1 ;; Ret (strip p)
                else Ret []) ;;
        Ret (setitem obj (lit "dstn_stn_name") (VStr dst))
    | None =>
        let obj := setitem obj (lit "source_stn_name") (VStr []) in
        Ret (setitem obj (lit "dstn_stn_name") (VStr []))
    end ;;
  let parent_td := find_parent item_name_el (lit "td") in
  let obj :=
    match parent_td with
    | Some parent_td =>
        let next_status_td := find_next_sibling parent_td (lit "td") in
        match next_status_td with
        | Some next_status_td =>
            let status_text := get_text next_status_td in
            let obj := setitem obj (lit "time_at")
                         (VStr (firstn 5 status_text)) in
            setitem obj (lit "detail") (VStr (strip (skipn 5 status_text)))
        | None =>
            let obj := setitem obj (lit "time_at") (VStr []) in
            setitem obj (lit "detail") (VStr [])
        end
    | None =>
        let obj := setitem obj (lit "time_at") (VStr []) in
        setitem obj (lit "detail") (VStr [])
    end in
  Ret (VDict obj).

Fixpoint live_station_loop (items : list Tag) (arr : list value)
  : result (list value) :=
  match items with
  | [] => Ret arr
  | item_name_el :: rest =>
      obj <- live_station_row item_name_el ;;
      live_station_loop rest (arr ++ [obj])
  end.

Definition live_station_body (now : Z) (soup : Document) : result value :=
  let arr : list value := [] in
  let retval : dict := [] in
  arr <- live_station_loop (select soup (lit ".name")) arr ;;
  Ret (envelope retval true now (VList arr)).

Definition live_station_logic (now : Z) (soup : Document) : result value :=
  try_except (live_station_body now soup) Exception
    (fun e =>
       Ret (failure now
              (lit "An error occurred during HTML parsing: "
               ++ str_of_exc e))).
End LiveStation.

(** ** A document tree implementing [Soup]

    Elements carry a name and classes; a tag is an element together with
    its position: the siblings before it (nearest first), the siblings
    after it, and the chain of enclosing elements. *)

Inductive node :=
| Text (s : str)
| Element (name : str) (classes : list str) (children : list node).

Record frame := mkFrame {
  f_name : str;
  f_classes : list str;
  f_before : list node;
  f_after : list node
}.

Record tag := mkTag {
  t_name : str;
  t_classes : list str;
  t_children : list node;
  t_before : list node;
  t_after : list node;
  t_up : list frame
}.

(** The strings below a node, in document order. *)
Fixpoint strings (n : node) : list str :=
  match n with
  | Text s => [s]
  | Element _ _ children =>
      (fix go (l : list node) : list str :=
         match l with
         | [] => []
         | c :: rest => strings c ++ go rest
         end) children
  end.

(** [tag.get_text(strip=True)]: every string stripped, the empty ones left
    out, the rest joined without a separator. *)
Definition dom_get_text (t : tag) : str :=
  concat (drop_empty (map strip (strings
    (Element (t_name t) (t_classes t) (t_children t))))).

(** The elements of class [cls] at or below [n], in document order. *)
Fixpoint select_class (cls : str) (n : node) (before after : list node)
  (up : list frame) : list tag :=
  match n with
  | Text _ => []
  | Element nm cl ch =>
      (if in_list cls cl then [mkTag nm cl ch before after up] else []) ++
      (fix go (left ch : list node) : list tag :=
         match ch with
         | [] => []
         | c :: rest =>
             select_class cls c left rest (mkFrame nm cl before after :: up)
             ++ go (c :: left) rest
         end) [] ch
  end.

Fixpoint select_top (cls : str) (left doc : list node) : list tag :=
  match doc with
  | [] => []
  | c :: rest =>
      select_class cls c left rest [] ++ select_top cls (c :: left) rest
  end.

(** [soup.select(selector)] for a class selector [.cls]. *)
Definition dom_select (doc : list node) (selector : str) : list tag :=
  match selector with
  | c :: cls => if (c =? 46)%N then select_top cls [] doc else []
  | [] => []
  end.

Fixpoint next_sibling_named (nm : str) (before after : list node)
  (up : list frame) : option tag :=
  match after with
  | [] => None
  | Element nm' cl ch :: rest =>
      if str_eqb nm nm' then Some (mkTag nm' cl ch before rest up)
      else next_sibling_named nm (Element nm' cl ch :: before) rest up
  | Text s :: rest => next_sibling_named nm (Text s :: before) rest up
  end.

Definition dom_find_next_sibling (t : tag) (nm : str) : option tag :=
  next_sibling_named nm
    (Element (t_name t) (t_classes t) (t_children t) :: t_before t)
    (t_after t) (t_up t).

Fixpoint parent_named (nm : str) (cur : node) (before after : list node)
  (up : list frame) : option tag :=
  match up with
  | [] => None
  | f :: up' =>
      let children := rev before ++ cur :: after in
      if str_eqb nm (f_name f)
      then Some (mkTag (f_name f) (f_classes f) children
                       (f_before f) (f_after f) up')
      else parent_named nm (Element (f_name f) (f_classes f) children)
                        (f_before f) (f_after f) up'
  end.

Definition dom_find_parent (t : tag) (nm : str) : option tag :=
  parent_named nm (Element (t_name t) (t_classes t) (t_children t))
    (t_before t) (t_after t) (t_up t).

#[export] Instance dom_soup : Soup (list node) tag := {
  select := dom_select;
  get_text := dom_get_text;
  find_next_sibling := dom_find_next_sibling;
  find_parent := dom_find_parent
}.

(** A table row of a live-station page:
    [<tr><td><div class="name">12345 Rajdhani</div><div>NDLS → BCT</div></td>
     <td>16:05 On time</td></tr>], and a second row whose texts are short. *)
Definition row (train route status : str) : node :=
  Element (lit "tr") []
    [ Element (lit "td") []
        [ Element (lit "div") [lit "name"] [Text train];
          Element (lit "div") [] [Text route] ];
      Element (lit "td") [] [Text status] ].

Definition sample_page : list node :=
  [ Element (lit "table") []
      [ row (lit " 12345 Rajdhani ")
            (lit "NDLS " ++ ARROW ++ lit " BCT")
            (lit "16:05 On time");
        row (lit "123") (lit "NDLS") (lit "16") ] ].

Definition empty_page : list node :=
  [ Element (lit "p") [lit "note"] [Text (lit "No trains")] ].

(** ** A reader for a fragment of JSON

    [json_loads_fragment] reads objects, arrays, strings without escapes,
    integers, [true], [false] and [null].  As [json.loads] does, it hands
    the digits of an integer to the interpreter's conversion, which raises
    its [ValueError] for more than [int_max_str_digits] digits; it raises
    [JSONDecodeError] on anything else.  It stands in for [json.loads] in
    the examples; the theorems about [pnr_status_logic] hold for every
    [json_loads]. *)

Definition is_json_ws (c : char) : bool :=
  ((c =? 32) || (c =? 9) || (c =? 10) || (c =? 13))%N.

Fixpoint skip_json_ws (t : str) : str :=
  match t with
  | [] => []
  | c :: t' => if is_json_ws c then skip_json_ws t' else t
  end.

(** The characters of a string up to its closing quote. *)
Fixpoint json_string (t : str) : option (str * str) :=
  match t with
  | [] => None
  | c :: t' =>
      if (c =? 34)%N then Some ([], t')
      else if ((c =? 92) || (c <? 32))%N then None
      else match json_string t' with
           | Some (s, r) => Some (c :: s, r)
           | None => None
           end
  end.

Fixpoint json_digits (t : str) (acc : Z) (digits : N) : Z * N * str :=
  match t with
  | c :: t' =>
      if is_ascii_digit c
      then json_digits t' (acc * 10 + digit_value c) (digits + 1)
      else (acc, digits, t)
  | [] => (acc, digits, [])
  end.

Definition expecting_value : exception :=
  mkExc JSONDecodeError (lit "Expecting value").

(** An integer; a leading zero is followed by no further digit, and a
    fraction or an exponent is outside the fragment. *)
Definition json_integer (t : str) : result (Z * str) :=
  match t with
  | d :: t' =>
      if is_ascii_digit d then
        let '(z, digits, r) :=
          if (d =? 48)%N then (0%Z, 1%N, t')
          else json_digits t' (digit_value d) 1 in
        let outside :=
          match r with
          | c :: _ =>
              is_ascii_digit c || (c =? 46)%N || (c =? 101)%N || (c =? 69)%N
          | [] => false
          end in
        if outside then Raise expecting_value
        else if (int_max_str_digits <? digits)%N
        then Raise (digits_limit_error digits)
        else Ret (z, r)
      else Raise expecting_value
  | [] => Raise expecting_value
  end.

Fixpoint json_value (fuel : nat) (t : str) : result (value * str) :=
  match fuel with
  | O => Raise expecting_value
  | S fuel' =>
      let t := skip_json_ws t in
      match t with
      | [] => Raise expecting_value
      | c :: r =>
          if (c =? 123)%N then
            match skip_json_ws r with
            | c' :: r' =>
                if (c' =? 125)%N then Ret (VDict [], r')
                else json_members fuel' (c' :: r') []
            | [] => Raise expecting_value
            end
          else if (c =? 91)%N then
            match skip_json_ws r with
            | c' :: r' =>
                if (c' =? 93)%N then Ret (VList [], r')
                else json_elements fuel' (c' :: r') []
            | [] => Raise expecting_value
            end
          else if (c =? 34)%N then
            match json_string r with
            | Some (s, r') => Ret (VStr s, r')
            | None => Raise expecting_value
            end
          else if (c =? 45)%N then
            match json_integer r with
            | Ret (z, r') => Ret (VInt (- z), r')
            | Raise e => Raise e
            end
          else if startswith (lit "true") t then Ret (VBool true, skipn 4 t)
          else if startswith (lit "false") t then Ret (VBool false, skipn 5 t)
          else if startswith (lit "null") t then Ret (VNone, skipn 4 t)
          else match json_integer t with
               | Ret (z, r') => Ret (VInt z, r')
               | Raise e => Raise e
               end
      end
  end
with json_elements (fuel : nat) (t : str) (acc : list value)
  : result (value * str) :=
  match fuel with
  | O => Raise expecting_value
  | S fuel' =>
      match json_value fuel' t with
      | Ret (v, r) =>
          match skip_json_ws r with
          | c :: r' =>
              if (c =? 44)%N then json_elements fuel' r' (acc ++ [v])
              else if (c =? 93)%N then Ret (VList (acc ++ [v]), r')
              else Raise expecting_value
          | [] => Raise expecting_value
          end
      | Raise e => Raise e
      end
  end
with json_members (fuel : nat) (t : str) (acc : dict)
  : result (value * str) :=
  match fuel with
  | O => Raise expecting_value
  | S fuel' =>
      match skip_json_ws t with
      | q :: r0 =>
          if (q =? 34)%N then
            match json_string r0 with
            | Some (k, r1) =>
                match skip_json_ws r1 with
                | c :: r2 =>
                    if (c =? 58)%N then
                      match json_value fuel' r2 with
                      | Ret (v, r3) =>
                          match skip_json_ws r3 with
                          | c' :: r4 =>
                              if (c' =? 44)%N
                              then json_members fuel' r4 (setitem acc k v)
                              else if (c' =? 125)%N
                              then Ret (VDict (setitem acc k v), r4)
                              else Raise expecting_value
                          | [] => Raise expecting_value
                          end
                      | Raise e => Raise e
                      end
                    else Raise expecting_value
                | [] => Raise expecting_value
                end
            | None => Raise expecting_value
            end
          else Raise expecting_value
      | [] => Raise expecting_value
      end
  end.

Definition json_loads_fragment (s : str) : result value :=
  match json_value (S (List.length s)) s with
  | Ret (v, r) =>
      match skip_json_ws r with
      | [] => Ret v
      | _ :: _ => Raise (mkExc JSONDecodeError (lit "Extra data"))
      end
  | Raise e => Raise e
  end.

(** ** The views of [train_api/views.py]

    A view reads its parameters from the request, fetches a page, hands the
    text to a decoder and wraps the answer in a [JsonResponse].  What lies
    outside the repository is the environment [Env]: the query parameters,
    the HTTP client (one [fetch] stands for [client.get], [raise_for_status]
    and [.text]), the user-agent library, the HTML parser and the clock.
    The exceptions of the HTTP client have handlers of their own, so code
    inside the [try] of a view runs in [outcome]. *)

Record response := mkResponse { content : value; status_code : Z }.

(** [JsonResponse(data, status=status)]: only a dict is accepted, and
    then only a status from 100 to 599; the values of this development all
    serialize. *)
Definition JsonResponse (data : value) (status : Z) : result response :=
  match data with
  | VDict _ =>
      if ((100 <=? status) && (status <=? 599))%Z
      then Ret (mkResponse data status)
      else
        Raise (mkExc ValueError
                 (lit "HTTP status code must be an integer from 100 to 599."))
  | _ =>
      Raise (mkExc Exception
               (lit "In order to allow non-dict objects to be serialized"
                ++ lit " set the safe parameter to False."))
  end.

(** [v.get(k, default)], [v[k]], [len(v)], [v[i]], [v == 1] and
    [isinstance(v, list)] on values; an operation a value does not have
    raises. *)
Definition value_get (v : value) (k : str) (default : value) : result value :=
  match v with
  | VDict d => Ret (get_default d k default)
  | _ => Raise (mkExc Exception (lit "object has no attribute 'get'"))
  end.

Definition value_getitem (v : value) (k : str) : result value :=
  match v with
  | VDict d =>
      match get d k with
      | Some x => Ret x
      | None => Raise (mkExc Exception k)
      end
  | _ => Raise (mkExc Exception (lit "indices must be integers"))
  end.

Definition value_len (v : value) : result nat :=
  match v with
  | VList l => Ret (List.length l)
  | VStr s => Ret (List.length s)
  | VDict d => Ret (List.length d)
  | _ => Raise (mkExc Exception (lit "object has no len()"))
  end.

Definition value_index (v : value) (i : Z) : result value :=
  match v with
  | VList l =>
      let i := if (i <? 0)%Z then (i + Z.of_nat (List.length l))%Z else i in
      if (i <? 0)%Z
      then Raise (mkExc IndexError (lit "list index out of range"))
      else getitem l (Z.to_nat i)
  | _ => Raise (mkExc Exception (lit "object is not subscriptable"))
  end.

Definition equals_one (v : value) : bool :=
  match v with
  | VInt z => (z =? 1)%Z
  | VBool b => b
  | VFloat bits => (bits =? 4607182418800017408)%N
  | _ => false
  end.

Definition isinstance_list (v : value) : bool :=
  match v with VList _ => true | _ => false end.

(** [if not x] on a query parameter: absent or empty. *)
Definition given (x : option str) : bool :=
  match x with Some (_ :: _) => true | _ => false end.

(** A query parameter inside an f-string. *)
Definition format_param (x : option str) : str :=
  match x with Some s => s | None => lit "None" end.

Inductive raised :=
| HTTPStatusError (code : Z) (text : str)
| RequestError (message : str)
| Unexpected (e : exception).

Inductive outcome (A : Type) :=
| Done (a : A)
| Failed (r : raised).
Arguments Done {A} a.
Arguments Failed {A} r.

Definition outcome_bind {A B} (m : outcome A) (k : A -> outcome B)
  : outcome B :=
  match m with
  | Done a => k a
  | Failed r => Failed r
  end.

Notation "x <~ m ;; k" := (outcome_bind m (fun x => k))
  (at level 61, m at next level, right associativity).

Definition lift {A} (m : result A) : outcome A :=
  match m with
  | Ret a => Done a
  | Raise e => Failed (Unexpected e)
  end.

Record Env (Document : Type) := mkEnv {
  GET : str -> option str;
  fetch : str -> option str -> Z -> outcome str;
  user_agent_str : result str;
  user_agent_toString : result str;
  BeautifulSoup : str -> result Document;
  clock : Z;
  time_ms : Z;
  env_isdigit : char -> bool;
  env_decimal : char -> option N;
  env_json_loads : str -> result value;
  str_of_value : value -> str
}.
Arguments GET {Document} e _.
Arguments fetch {Document} e _ _ _.
Arguments user_agent_str {Document} e.
Arguments user_agent_toString {Document} e.
Arguments BeautifulSoup {Document} e _.
Arguments clock {Document} e.
Arguments time_ms {Document} e.
Arguments env_isdigit {Document} e _.
Arguments env_decimal {Document} e _.
Arguments env_json_loads {Document} e _.
Arguments str_of_value {Document} e _.

(** A value inside an f-string. *)
Definition format_value {Document} (env : Env Document) (v : value) : str :=
  match v with
  | VStr s => s
  | _ => str_of_value env v
  end.

Definition error_body (msg : str) : value :=
  VDict [ (lit "success", VBool false); (lit "error", VStr msg) ].

(** The [except] clauses every view ends with; [unexpected] is the clause
    for [Exception]. *)
Definition view_except (body : outcome response)
  (unexpected : exception -> result response) : result response :=
  match body with
  | Done r => Ret r
  | Failed (HTTPStatusError code text) =>
      JsonResponse
        (error_body (lit "HTTP error: " ++ str_of_Z code ++ lit " - " ++ text))
        code
  | Failed (RequestError message) =>
      JsonResponse (error_body (lit "Request failed: " ++ message)) 500
  | Failed (Unexpected e) =>
      if issubclass (exc_class_of e) Exception then unexpected e else Raise e
  end.

Definition unexpected_error (e : exception) : result response :=
  JsonResponse (error_body (lit "An unexpected error occurred.")) 500.

Section Views.
Context {Document Tag : Type} `{Soup Document Tag}.
Variable env : Env Document.

(** The address both [get_train_view] and [get_route_view] build from
    [trainNo]. *)
Definition train_url (train_no : option str) : str :=
  lit "https://erail.in/rail/getTrains.aspx?TrainNo="
  ++ format_param train_no ++ lit "&DataSource=0&Language=0&Cache=true".

Definition get_train_view : result response :=
  let train_no := GET env (lit "trainNo") in
  if negb (given train_no) then
    JsonResponse (error_body (lit "trainNo parameter is required")) 400
  else
    let url_train := train_url train_no in
    view_except
      (data_text <~ fetch env url_train None 10 ;;
       lift (json_response_data <-
               check_train_logic (env_isdigit env) (clock env) data_text ;;
             JsonResponse json_response_data 200))
      (fun e => JsonResponse (error_body (str_of_exc e)) 500).

Definition trains_url (station_from station_to : option str) : str :=
  lit "https://erail.in/rail/getTrains.aspx?Station_From="
  ++ format_param station_from ++ lit "&Station_To=" ++ format_param station_to
  ++ lit "&DataSource=0&Language=0&Cache=true".

Definition between_stations_view : result response :=
  let station_from := GET env (lit "from") in
  let station_to := GET env (lit "to") in
  if negb (given station_from) || negb (given station_to) then
    JsonResponse
      (error_body (lit "Both from and to parameters are required")) 400
  else
    let url_trains := trains_url station_from station_to in
    view_except
      (user_agent_string <~ lift (user_agent_str env) ;;
       let headers := Some user_agent_string in
       data_text <~ fetch env url_trains headers 10 ;;
       lift (json_response_data <-
               between_station_logic (clock env) data_text ;;
             JsonResponse json_response_data 200))
      unexpected_error.

(** [running_days = train_details.get("train_base", {}).get("running_days", [])]
    and the test of the day. *)
Definition runs_on (day_index : Z) (train_details : value) : result bool :=
  train_base <- value_get train_details (lit "train_base") (VDict []) ;;
  running_days <- value_get train_base (lit "running_days") (VList []) ;;
  if (0 <=? day_index)%Z then
    n <- value_len running_days ;;
    if (day_index <? Z.of_nat n)%Z then
      x <- value_index running_days day_index ;;
      Ret (equals_one x)
    else Ret false
  else Ret false.

Fixpoint filter_trains (day_index : Z) (trains filtered_trains : list value)
  : result (list value) :=
  match trains with
  | [] => Ret filtered_trains
  | train_details :: rest =>
      keep <- runs_on day_index train_details ;;
      filter_trains day_index rest
        (if (keep : bool) then filtered_trains ++ [train_details]
         else filtered_trains)
  end.

(** The statements of [get_train_on_view] that follow the fetch, inside
    its [try]. *)
Definition get_train_on_decoded (dd mm yyyy data_text : str)
  : result response :=
  let retval : dict := [] in
  initial_json <- between_station_logic (clock env) data_text ;;
  ok <- value_get initial_json (lit "success") VNone ;;
  if negb (truthy ok) then JsonResponse initial_json 200
  else
    day_index <- get_day_on_date_logic (env_decimal env) dd mm yyyy ;;
    if (day_index =? -1)%Z then
      JsonResponse
        (envelope [] false (time_ms env)
           (VStr (lit "Invalid date provided for processing.")))
        400
    else
      let filtered_trains : list value := [] in
      data <- value_get initial_json (lit "data") VNone ;;
      filtered_trains <-
        (if truthy data then
           data' <- value_getitem initial_json (lit "data") ;;
           if isinstance_list data' then
             match data' with
             | VList trains => filter_trains day_index trains filtered_trains
             | _ => Ret filtered_trains
             end
           else Ret filtered_trains
         else Ret filtered_trains) ;;
      JsonResponse
        (envelope retval true (time_ms env) (VList filtered_trains)) 200.

Definition get_train_on_view : result response :=
  let station_from := GET env (lit "from") in
  let station_to := GET env (lit "to") in
  let date_str := GET env (lit "date") in
  if negb (given station_from && given station_to && given date_str) then
    JsonResponse
      (envelope [] false (time_ms env)
         (VStr (lit "Parameters 'from', 'to', and 'date' are required.")))
      400
  else
    match split (lit "-") (format_param date_str) with
    | [dd; mm; yyyy] =>
        let url_trains := trains_url station_from station_to in
        view_except
          (user_agent_string <~ lift (user_agent_toString env) ;;
           let headers := Some user_agent_string in
           data_text <~ fetch env url_trains headers 10 ;;
           lift (get_train_on_decoded dd mm yyyy data_text))
          unexpected_error
    | _ =>
        JsonResponse
          (envelope [] false (time_ms env)
             (VStr (lit "Invalid date format. Please use DD-MM-YYYY.")))
          400
    end.

Definition route_url (train_id : str) : str :=
  lit "https://erail.in/data.aspx?Action=TRAINROUTE&Password=2012"
  ++ lit "&Data1=" ++ train_id ++ lit "&Data2=0&Cache=true".

(** The statements of [get_route_view] that follow the first fetch, inside
    its [try]. *)
Definition get_route_decoded (details_text : str) : outcome response :=
  train_info_json <~
    lift (check_train_logic (env_isdigit env) (clock env) details_text) ;;
  ok <~ lift (value_get train_info_json (lit "success") VNone) ;;
  stop <~
    (if negb (truthy ok) then Done true
     else
       data <~ lift (value_get train_info_json (lit "data") VNone) ;;
       Done (negb (truthy data))) ;;
  if (stop : bool) then lift (JsonResponse train_info_json 200)
  else
    data <~ lift (value_getitem train_info_json (lit "data")) ;;
    train_id <~ lift (value_get data (lit "train_id") VNone) ;;
    if negb (truthy train_id) then
      lift (JsonResponse
              (error_body
                 (lit "Could not extract train_id from initial train data."))
              500)
    else
      let url_route := route_url (format_value env train_id) in
      route_text <~ fetch env url_route None 10 ;;
      lift (route_json <- get_route_logic (clock env) route_text ;;
            JsonResponse route_json 200).

Definition get_route_view : result response :=
  let train_no := GET env (lit "trainNo") in
  if negb (given train_no) then
    JsonResponse (error_body (lit "trainNo parameter is required")) 400
  else
    let url_train_details := train_url train_no in
    view_except
      (details_text <~ fetch env url_train_details None 10 ;;
       get_route_decoded details_text)
      unexpected_error.

Definition live_url (station_code : option str) : str :=
  lit "https://erail.in/station-live/" ++ format_param station_code
  ++ lit "?DataSource=0&Language=0&Cache=true".

Definition station_live_view : result response :=
  let station_code := GET env (lit "code") in
  if negb (given station_code) then
    JsonResponse
      (error_body (lit "code parameter (station code) is required")) 400
  else
    let url_live := live_url station_code in
    view_except
      (html_data <~ fetch env url_live None 10 ;;
       lift (soup <- BeautifulSoup env html_data ;;
             json_response_data <- live_station_logic (clock env) soup ;;
             JsonResponse json_response_data 200))
      unexpected_error.

Definition pnr_url (pnr_number : option str) : str :=
  lit "https://www.confirmtkt.com/pnr-status/" ++ format_param pnr_number.

Definition pnr_status_view : result response :=
  let pnr_number := GET env (lit "pnr") in
  if negb (given pnr_number) then
    JsonResponse (error_body (lit "pnr parameter is required")) 400
  else
    let url_pnr := pnr_url pnr_number in
    view_except
      (data_text <~ fetch env url_pnr None 15 ;;
       lift (json_response_data <-
               pnr_status_logic (env_json_loads env) (clock env) data_text ;;
             JsonResponse json_response_data 200))
      unexpected_error.
End Views.

(** * Specification-level definitions

    The definitions below follow the words of the specification; the
    theorems compare them with the decoders above. *)

Definition success (now : Z) (data : value) : value :=
  envelope [] true now data.

(** A string that is not empty; dropping the empty segments or fields of a
    list is [filter has_chars]. *)
Definition has_chars (s : str) : bool := 0 <? List.length s.

(** A string with every occurrence of one character removed. *)
Definition remove_char (c : char) (s : str) : str :=
  filter (fun x => negb (N.eqb x c)) s.

Definition TILDE_CHAR : char := 126%N.
Definition CARET_CHAR : char := 94%N.

(** A string without its leading carets. *)
Fixpoint strip_leading_carets (s : str) : str :=
  match s with
  | c :: s' => if N.eqb c CARET_CHAR then strip_leading_carets s' else s
  | [] => []
  end.

Definition first_segment (text : str) : str := hd [] (split SENTINEL text).

(** [a] occurs in [t]. *)
Definition part_of (a t : str) : Prop :=
  exists pre post, t = pre ++ a ++ post.

(** The secondary check of the train list: the text mentions the message,
    and field 5 of the first segment, cut at the first [<], is the
    message. *)
Definition no_direct_found (text : str) : bool :=
  contains (lit "No direct trains found") text &&
  match nth_error (split TILDE (first_segment text)) 5 with
  | Some p5 =>
      str_eqb (hd [] (split (lit "<") p5)) (lit "No direct trains found")
  | None => false
  end.

(** The fields of a usable segment of a train list: the segment splits on
    the marker into exactly two parts, and the second part has at least 14
    non-empty fields. *)
Definition usable_fields (segment : str) : option (list str) :=
  match split TILDE_CARET segment with
  | [_; second] =>
      let fields := drop_empty (split TILDE second) in
      if 14 <=? List.length fields then Some fields else None
  | _ => None
  end.

Definition summary_keys : list str :=
  [ lit "train_no"; lit "train_name"; lit "source_stn_name";
    lit "source_stn_code"; lit "dstn_stn_name"; lit "dstn_stn_code";
    lit "from_stn_name"; lit "from_stn_code"; lit "to_stn_name";
    lit "to_stn_code"; lit "from_time"; lit "to_time"; lit "travel_time" ].

(** Character [Y] is 1, any other character 0. *)
Definition day_bit (c : char) : value := VInt (if N.eqb c Y then 1 else 0).

Definition running_days_of (raw : str) : list value :=
  if List.length raw =? 7 then map day_bit raw else [].

(** Fields 0 to 12 go to the keys of [summary_keys] in order; field 13 is
    the running-days string. *)
Definition train_summary (fields : list str) : dict :=
  combine summary_keys (map VStr (firstn 13 fields))
  ++ [ (lit "running_days_str", VStr (nth 13 fields []));
       (lit "running_days", VList (running_days_of (nth 13 fields []))) ].

Definition train_base (obj : dict) : value :=
  VDict [ (lit "train_base", VDict obj) ].

Definition train_record (segment : str) : list value :=
  match usable_fields segment with
  | Some fields => [train_base (train_summary fields)]
  | None => []
  end.

Definition train_records (text : str) : list value :=
  flat_map train_record (drop_empty (split SENTINEL text)).

(** The answer of the train-list decoder, case by case. *)
Definition between_station_outcome (now : Z) (text : str) : value :=
  if no_direct_found text
  then failure now (lit "No direct trains found")
  else if in_list (first_segment text) potential_error_messages
  then failure now (remove_char TILDE_CHAR (first_segment text))
  else if negb (nonempty_list (drop_empty (split SENTINEL text)))
  then failure now (lit "Unknown error or empty response from API.")
  else if negb (nonempty_list (train_records text))
  then failure now (lit "No direct trains found or data format issue.")
  else success now (VList (train_records text)).

(** What the running-days entries of a record say about the raw field. *)
Definition running_days_from (raw : str) (obj : dict) : Prop :=
  exists days,
    get obj (lit "running_days_str") = Some (VStr raw) /\
    get obj (lit "running_days") = Some (VList days) /\
    (List.length days = 7 <-> List.length raw = 7) /\
    (List.length raw = 7 -> days = map day_bit raw) /\
    (List.length raw <> 7 -> days = []).

(** The repair of the first part of a train detail, in the words of the
    specification. *)
Definition repaired (isdigit : str -> bool) (partA : list str) : list str :=
  match partA with
  | a0 :: a1 :: rest =>
      if (6 <? List.length a1) &&
         (str_eqb a0 CARET || (6 <? List.length a0) && negb (isdigit a0))
      then a1 :: rest
      else partA
  | _ => partA
  end.

Definition first_part (isdigit : str -> bool) (text : str) : list str :=
  repaired isdigit (drop_empty (split TILDE (first_segment text))).

Definition second_part (text : str) : list str :=
  drop_empty (split TILDE (nth 1 (split SENTINEL text) [])).

(** The record of a train detail: fields 0 to 5 and 10 to 12 of the first
    part, its running days, and fields 11, 12, 18 and 19 of the second
    part. *)
Definition train_detail (fields partB : list str) : dict :=
  [ (lit "train_no", VStr (remove_char CARET_CHAR (nth 0 fields [])));
    (lit "train_name", VStr (nth 1 fields []));
    (lit "from_stn_name", VStr (nth 2 fields []));
    (lit "from_stn_code", VStr (nth 3 fields []));
    (lit "to_stn_name", VStr (nth 4 fields []));
    (lit "to_stn_code", VStr (nth 5 fields []));
    (lit "from_time", VStr (nth 10 fields []));
    (lit "to_time", VStr (nth 11 fields []));
    (lit "travel_time", VStr (nth 12 fields []));
    (lit "running_days_str", VStr (nth 13 fields []));
    (lit "running_days", VList (running_days_of (nth 13 fields [])));
    (lit "type", VStr (nth 11 partB []));
    (lit "train_id", VStr (nth 12 partB []));
    (lit "distance_from_to", VStr (nth 18 partB []));
    (lit "average_speed", VStr (nth 19 partB [])) ].

(** The answer of the train-detail decoder, case by case. *)
Definition check_train_outcome (isdigit : str -> bool) (now : Z) (text : str)
  : value :=
  if in_list (first_segment text) error_messages
  then failure now (remove_char TILDE_CHAR (first_segment text))
  else if List.length (split SENTINEL text) <? 2
  then failure now (lit "Invalid data format for train details.")
  else if List.length (first_part isdigit text) <? 15
  then failure now (lit "Not enough data in the first part of train details.")
  else if List.length (second_part text) <? 20
  then failure now (lit "Not enough data in the second part of train details.")
  else success now
         (VDict (train_detail (first_part isdigit text) (second_part text))).

(** The stops of a route. *)
Definition route_fields (text : str) : list (list str) :=
  map (fun segment => drop_empty (split TILDE segment))
      (drop_empty (split TILDE_CARET text)).

Definition route_stop (fields : list str) : value :=
  VDict [ (lit "source_stn_name", VStr (nth 2 fields []));
          (lit "source_stn_code", VStr (nth 1 fields []));
          (lit "arrive", VStr (nth 3 fields []));
          (lit "depart", VStr (nth 4 fields []));
          (lit "distance", VStr (nth 6 fields []));
          (lit "day", VStr (nth 7 fields []));
          (lit "zone", VStr (nth 9 fields [])) ].

Definition route_stops (text : str) : list value :=
  map route_stop (filter (fun fields => 9 <? List.length fields)
                         (route_fields text)).

(** The entry of one row of a live-station page: the text of the name
    node cut after 5 characters, the two sides of the arrow in the next
    [div], and the text of the next cell cut after 5 characters. *)
Definition live_entry {Document Tag : Type} `{Soup Document Tag} (item : Tag)
  : dict :=
  let text := get_text item in
  let route :=
    match find_next_sibling item (lit "div") with
    | Some next_div => split ARROW (get_text next_div)
    | None => []
    end in
  let status :=
    match find_parent item (lit "td") with
    | Some td =>
        match find_next_sibling td (lit "td") with
        | Some cell => get_text cell
        | None => []
        end
    | None => []
    end in
  [ (lit "train_no", VStr (firstn 5 text));
    (lit "train_name", VStr (strip (skipn 5 text)));
    (lit "source_stn_name", VStr (strip (nth 0 route [])));
    (lit "dstn_stn_name", VStr (strip (nth 1 route [])));
    (lit "time_at", VStr (firstn 5 status));
    (lit "detail", VStr (strip (skipn 5 status))) ].

(** The pattern [data], blanks, [=], blanks, a brace-delimited body, [;]
    occurring in [html] after the prefix [pre]; [group] is the body with its
    braces. *)
Definition all_space (w : str) : Prop := Forall (fun c => is_space c = true) w.

Definition pattern_at (html pre group rest : str) : Prop :=
  exists ws1 ws2 body,
    all_space ws1 /\ all_space ws2 /\
    group = lit "{" ++ body ++ lit "}" /\
    html = pre ++ lit "data" ++ ws1 ++ lit "=" ++ ws2
               ++ lit "{" ++ body ++ lit "};" ++ rest.

Definition pattern_occurs (html : str) : Prop :=
  exists pre group rest, pattern_at html pre group rest.

(** The match a leftmost, non-greedy search reports. *)
Definition first_match (html group : str) : Prop :=
  exists pre rest,
    pattern_at html pre group rest /\
    forall pre' group' rest',
      pattern_at html pre' group' rest' ->
      List.length pre <= List.length pre' /\
      (List.length pre' = List.length pre ->
       List.length group <= List.length group').

(** ** Shapes of the data of a successful envelope *)

Definition is_str (v : value) : Prop := exists s, v = VStr s.

Definition is_bit (v : value) : Prop := v = VInt 0 \/ v = VInt 1.

(** A dict with exactly the keys [ks], in this order, all bound to
    strings. *)
Definition str_record (ks : list str) (d : dict) : Prop :=
  keys d = ks /\ Forall is_str (map snd d).

Definition has_running_days (d : dict) : Prop :=
  exists raw days,
    d = [ (lit "running_days_str", VStr raw);
          (lit "running_days", VList days) ] /\
    Forall is_bit days.

Definition train_summary_shape (v : value) : Prop :=
  exists d1 d2, v = VDict (d1 ++ d2) /\
    str_record summary_keys d1 /\ has_running_days d2.

Definition train_list_shape (v : value) : Prop :=
  exists l, v = VList l /\
    Forall (fun r => exists obj, r = train_base obj /\
                                 train_summary_shape (VDict obj)) l.

Definition detail_keys : list str :=
  [ lit "train_no"; lit "train_name"; lit "from_stn_name";
    lit "from_stn_code"; lit "to_stn_name"; lit "to_stn_code";
    lit "from_time"; lit "to_time"; lit "travel_time" ].

Definition detail_keys2 : list str :=
  [ lit "type"; lit "train_id"; lit "distance_from_to"; lit "average_speed" ].

Definition train_detail_shape (v : value) : Prop :=
  exists d1 d2 d3, v = VDict (d1 ++ d2 ++ d3) /\
    str_record detail_keys d1 /\ has_running_days d2 /\
    str_record detail_keys2 d3.

Definition route_keys : list str :=
  [ lit "source_stn_name"; lit "source_stn_code"; lit "arrive"; lit "depart";
    lit "distance"; lit "day"; lit "zone" ].

Definition route_list_shape (v : value) : Prop :=
  exists l, v = VList l /\
    Forall (fun r => exists d, r = VDict d /\ str_record route_keys d) l.

Definition live_keys : list str :=
  [ lit "train_no"; lit "train_name"; lit "source_stn_name";
    lit "dstn_stn_name"; lit "time_at"; lit "detail" ].

Definition live_list_shape (v : value) : Prop :=
  exists l, v = VList l /\
    Forall (fun r => exists d, r = VDict d /\ str_record live_keys d) l.

(** The envelope invariant: the three keys, the clock reading, a string on
    failure and data of the declared shape on success. *)
Definition is_envelope (now : Z) (shape : value -> Prop) (v : value) : Prop :=
  exists ok data,
    v = VDict [ (k_success, VBool ok); (k_time_stamp, VInt now);
                (k_data, data) ] /\
    (ok = false -> is_str data) /\
    (ok = true -> shape data).

(** A decoder returns, and what it returns is an envelope. *)
Definition returns_envelope (now : Z) (shape : value -> Prop)
  (r : result value) : Prop :=
  exists v, r = Ret v /\ is_envelope now shape v.

(** ** Sample inputs *)

Definition sample_trains : str :=
  lit "x~^12345~Rajdhani~NDLS~New Delhi~BCT~Mumbai~NDLS~New Delhi~BCT~Mumbai~16.00~08.00~16.00~YNNYYNY~~~~~~~~y~^22222~Local~A~a~B~b~A~a~B~b~1~2~3~YN~~~~~~~~z~^too~short".

Definition sample_detail : str :=
  lit "^~12^3456~Rajdhani~New Delhi~NDLS~Mumbai~BCT~6~7~8~9~16.00~08.00~16.00~YNNYYNY~14~~~~~~~~0~1~2~3~4~5~6~7~8~9~10~Rajdhani~3867~13~14~15~16~17~1384~86".

Definition sample_route : str :=
  lit "~^1~NDLS~New Delhi~First~16.00~0~0~1~x~NR~^too~short~^2~BCT~Mumbai~08.00~Last~0~1384~2~x~WR".

Definition QUOTE : char := 34%N.

(** A page whose script holds [data = {"a":1};]. *)
Definition sample_pnr_page : str :=
  lit "<script>var data = {" ++ [QUOTE] ++ lit "a" ++ [QUOTE]
  ++ lit ":1};</script>".

Definition ascii_only : char -> bool := fun _ => false.

(** ** More sample inputs *)

(** A train list with an empty field in its first record and an empty
    segment between its two records. *)
Definition sample_trains_gaps : str :=
  lit "x~^12345~~Rajdhani~NDLS~New Delhi~BCT~Mumbai~NDLS~New Delhi~BCT~Mumbai"
  ++ lit "~16.00~08.00~16.00~YNNYYNY"
  ++ lit "~~~~~~~~" ++ lit "~~~~~~~~"
  ++ lit "y~^22222~Local~A~a~B~b~A~a~B~b~1~2~3~YN".

(** A route with an empty segment, empty fields and a segment that is too
    short. *)
Definition sample_route_gaps : str :=
  lit "~^1~~NDLS~New Delhi~First~~~16.00~0~0~1~x~NR~^~^too~short"
  ++ lit "~^2~BCT~Mumbai~08.00~Last~0~1384~2~x~WR".

(** A page whose script holds [data = {"a":1...1 x};] with 4301 digits:
    the body is no JSON, and [json.loads] gives up on the number before it
    comes to what follows it. *)
Definition oversized_pnr_page : str :=
  lit "<script>var data = {" ++ [QUOTE] ++ lit "a" ++ [QUOTE] ++ lit ":"
  ++ repeat 49%N 4301 ++ lit " x};</script>".

(** A "no direct trains" page that also carries a usable record. *)
Definition sample_no_direct : str :=
  lit "SL~2A~3A~CC~~No direct trains found<br>Try~~~~~~~~x~^12345~Rajdhani~NDLS~New Delhi~BCT~Mumbai~NDLS~New Delhi~BCT~Mumbai~16.00~08.00~16.00~YNNYYNY".

(** The calendar date after a date. *)
Definition next_date (y m d : Z) : Z * Z * Z :=
  if (d <? days_in_month y m)%Z then (y, m, d + 1)%Z
  else if (m <? 12)%Z then (y, m + 1, 1)%Z
  else (y + 1, 1, 1)%Z.

(** The JavaScript expression the docstring of [get_day_on_date_logic]
    quotes, on [getDay()] (Sunday is 0). *)
Definition js_day_index (getDay : Z) : Z :=
  if ((0 <=? getDay) && (getDay <=? 2))%Z then (getDay + 4)%Z
  else (getDay - 3)%Z.

(** A train runs on the day of index [index] when its running-days field
    has seven characters and the character at [index] is [Y]. *)
Definition runs (index : Z) (fields : list str) : bool :=
  let raw := nth 13 fields [] in
  (List.length raw =? 7) && N.eqb (nth (Z.to_nat index) raw 0%N) Y.

Definition train_running (index : Z) (segment : str) : list value :=
  match usable_fields segment with
  | Some fields =>
      if runs index fields then [train_base (train_summary fields)] else []
  | None => []
  end.

Definition trains_running (index : Z) (text : str) : list value :=
  flat_map (train_running index) (drop_empty (split SENTINEL text)).

(** What every view answers with: a dict that says whether it succeeded,
    under status 200 when it did. *)
Definition api_response (r : response) : Prop :=
  exists d ok,
    content r = VDict d /\
    get d (lit "success") = Some (VBool ok) /\
    (ok = true -> status_code r = 200%Z).

(** What a view does in an environment: it answers, or it lets through
    the [ValueError] that [JsonResponse] raises for the status code of an
    HTTP status error outside 100 to 599. *)
Definition answers_or_raises {Document : Type} (env : Env Document)
  (view : result response) : Prop :=
  (exists r, view = Ret r /\ api_response r) \/
  (view
   = Raise (mkExc ValueError
              (lit "HTTP status code must be an integer from 100 to 599."))
   /\
   exists url headers timeout code text,
     fetch env url headers timeout = Failed (HTTPStatusError code text) /\
     ~ (100 <= code <= 599)%Z).

(** ** A sample environment

    Query parameters from an association list; every fetch succeeds, with
    [sample_route] for the route address and [page] for any other. *)
Definition lookup (params : list (str * str)) (k : str) : option str :=
  match find (fun p => str_eqb k (fst p)) params with
  | Some p => Some (snd p)
  | None => None
  end.

Definition sample_env (params : list (str * str)) (page : str)
  : Env (list node) :=
  mkEnv (list node)
    (lookup params)
    (fun url _ _ =>
       if startswith (lit "https://erail.in/data.aspx") url
       then Done sample_route else Done page)
    (Ret (lit "Mozilla/5.0"))
    (Ret (lit "Mozilla/5.0"))
    (fun _ => Ret sample_page)
    1700000000000%Z
    1700000000001%Z
    ascii_only
    (fun _ => None)
    json_loads_fragment
    (fun _ => []).

Definition sample_query (date : str) : list (str * str) :=
  [ (lit "from", lit "NDLS"); (lit "to", lit "BCT"); (lit "date", date) ].

(** An environment with another [fetch], or another [toString]. *)
Definition with_fetch {Document} (f : str -> option str -> Z -> outcome str)
  (env : Env Document) : Env Document :=
  mkEnv Document (GET env) f (user_agent_str env) (user_agent_toString env)
    (BeautifulSoup env) (clock env) (time_ms env) (env_isdigit env)
    (env_decimal env) (env_json_loads env) (str_of_value env).

Definition with_toString {Document} (agent : result str)
  (env : Env Document) : Env Document :=
  mkEnv Document (GET env) (fetch env) (user_agent_str env) agent
    (BeautifulSoup env) (clock env) (time_ms env) (env_isdigit env)
    (env_decimal env) (env_json_loads env) (str_of_value env).

(** ** Proof automation *)

(** Name the next element of a list known to be long enough. *)
Ltac head_field l H :=
  destruct l as [|? l]; [simpl in H; try discriminate; try lia|].

(** * Properties of the string operations *)

Lemma str_eqb_eq (a b : str) : str_eqb a b = true <-> a = b.
Proof.
  revert b; induction a as [|x a IH]; intros [|y b]; simpl;
    try (split; congruence).
  rewrite andb_true_iff, N.eqb_eq, IH. split.
  - intros [-> ->]; reflexivity.
  - intros E; injection E; auto.
Qed.

Lemma str_eqb_refl (a : str) : str_eqb a a = true.
Proof. apply str_eqb_eq; reflexivity. Qed.

Lemma str_eqb_neq (a b : str) : str_eqb a b = false <-> a <> b.
Proof.
  rewrite <- str_eqb_eq. destruct (str_eqb a b); split; congruence.
Qed.

Lemma in_list_In (x : str) (l : list str) : in_list x l = true <-> In x l.
Proof.
  unfold in_list. rewrite existsb_exists. split.
  - intros [y [Hy E]]. apply str_eqb_eq in E. subst; assumption.
  - intros Hx. exists x. split; [assumption | apply str_eqb_refl].
Qed.

Lemma startswith_app (p t : str) : startswith p (p ++ t) = true.
Proof.
  induction p as [|x p IH]; simpl; [reflexivity|].
  rewrite N.eqb_refl, IH; reflexivity.
Qed.

Lemma startswith_split (p t : str) :
  startswith p t = true -> t = p ++ skipn (List.length p) t.
Proof.
  revert t; induction p as [|x p IH]; intros [|y t]; simpl;
    try congruence.
  rewrite andb_true_iff, N.eqb_eq. intros [-> Hp].
  f_equal. apply IH, Hp.
Qed.

Lemma startswith_iff (p t : str) :
  startswith p t = true <-> exists r, t = p ++ r.
Proof.
  split.
  - intros Hp. eexists. apply startswith_split, Hp.
  - intros [r ->]. apply startswith_app.
Qed.

Lemma startswith_length (p t : str) :
  startswith p t = true -> List.length p <= List.length t.
Proof.
  intros Hp. apply startswith_iff in Hp. destruct Hp as [r ->].
  rewrite length_app. lia.
Qed.

(** [partition] cuts at an occurrence of the separator, and at the leftmost
    one. *)
Lemma partition_some (sep t b a : str) :
  partition sep t = Some (b, a) -> t = b ++ sep ++ a.
Proof.
  revert b a; induction t as [|c t IH]; intros b a; simpl.
  - destruct (startswith sep []) eqn:Hp; [|discriminate].
    intros E; injection E as <- <-. apply (startswith_split _ _ Hp).
  - destruct (startswith sep (c :: t)) eqn:Hp.
    + intros E; injection E as <- <-. apply (startswith_split _ _ Hp).
    + destruct (partition sep t) as [[b' a']|]; [|discriminate].
      intros E; injection E as <- <-. simpl. f_equal. apply IH; reflexivity.
Qed.

Lemma partition_leftmost (sep t b a : str) :
  partition sep t = Some (b, a) ->
  forall b' a', t = b' ++ sep ++ a' -> List.length b <= List.length b'.
Proof.
  revert b a; induction t as [|c t IH]; intros b a; simpl.
  - destruct (startswith sep []); [|discriminate].
    intros E; injection E as <- <-. intros; simpl; lia.
  - destruct (startswith sep (c :: t)) eqn:Hp.
    + intros E; injection E as <- <-. intros; simpl; lia.
    + destruct (partition sep t) as [[b0 a0]|] eqn:Hq; [|discriminate].
      intros E; injection E as <- <-. intros [|x b'] a' Ht.
      * simpl in Ht. rewrite Ht, startswith_app in Hp. discriminate.
      * simpl in Ht. injection Ht as -> ->. simpl.
        apply le_n_S. eapply IH; reflexivity.
Qed.

Lemma partition_none (sep t : str) :
  partition sep t = None -> forall b a, t <> b ++ sep ++ a.
Proof.
  induction t as [|c t IH]; simpl.
  - destruct (startswith sep []) eqn:Hp; [discriminate|].
    intros _ b a Ht. destruct b; simpl in Ht.
    + rewrite Ht, startswith_app in Hp. discriminate.
    + discriminate.
  - destruct (startswith sep (c :: t)) eqn:Hp; [discriminate|].
    destruct (partition sep t) as [[b0 a0]|] eqn:Hq; [discriminate|].
    intros _ [|x b] a Ht; simpl in Ht.
    + rewrite Ht, startswith_app in Hp. discriminate.
    + injection Ht as -> ->. eapply IH; reflexivity.
Qed.

Lemma partition_occurs (sep b a : str) :
  exists b0 a0, partition sep (b ++ sep ++ a) = Some (b0, a0).
Proof.
  destruct (partition sep (b ++ sep ++ a)) as [[b0 a0]|] eqn:Hq.
  - eauto.
  - exfalso. eapply partition_none; [exact Hq | reflexivity].
Qed.

(** [split] never answers with an empty list, so [split(...)[0]] exists. *)
Lemma split_from_nonempty (sep t : str) (k : nat) : split_from sep t k <> [].
Proof.
  revert k; induction t as [|c t IH]; intros k; simpl; [discriminate|].
  destruct k; [|apply IH].
  destruct (startswith sep (c :: t)); [discriminate|].
  destruct (split_from sep t 0); discriminate.
Qed.

Lemma split_cons (sep t : str) : exists h tl, split sep t = h :: tl.
Proof.
  unfold split. destruct (split_from sep t 0) as [|h tl] eqn:E.
  - exfalso. eapply split_from_nonempty, E.
  - eauto.
Qed.

Lemma split_from_skip (sep t : str) (k : nat) :
  k <= List.length t -> split_from sep t k = split_from sep (skipn k t) 0.
Proof.
  revert k; induction t as [|c t IH]; intros [|k] Hk; simpl in *;
    try reflexivity; try lia.
  apply IH. lia.
Qed.

(** The equation of [str.split]: cut at the leftmost occurrence of the
    separator and go on with the text after it. *)
Lemma split_unfold (sep t : str) :
  sep <> [] ->
  split sep t = match partition sep t with
                | None => [t]
                | Some (b, a) => b :: split sep a
                end.
Proof.
  intros Hsep. unfold split. induction t as [|c t IH].
  - simpl. destruct sep; [congruence | reflexivity].
  - simpl. destruct (startswith sep (c :: t)) eqn:Hp.
    + f_equal. apply startswith_length in Hp. simpl in Hp.
      destruct sep as [|x sep]; [congruence|]. simpl in *.
      rewrite Nat.sub_0_r. apply split_from_skip. lia.
    + rewrite IH. destruct (partition sep t) as [[b a]|]; reflexivity.
Qed.

Lemma join_nil (l : list str) : join [] l = concat l.
Proof.
  induction l as [|x l IH]; [reflexivity|].
  simpl. destruct l; [simpl; rewrite app_nil_r; reflexivity|].
  rewrite IH. reflexivity.
Qed.

(** Every piece joined back with the separator gives the text. *)
Lemma join_split (sep t : str) : sep <> [] -> join sep (split sep t) = t.
Proof.
  intros Hsep.
  remember (List.length t) as n eqn:Hn.
  revert t Hn; induction n as [n IH] using lt_wf_ind; intros t Hn.
  rewrite (split_unfold sep t Hsep).
  destruct (partition sep t) as [[b a]|] eqn:Hq; [|reflexivity].
  pose proof (partition_some _ _ _ _ Hq) as Ht.
  assert (Hlen : List.length a < n).
  { subst n. rewrite Ht, !length_app. destruct sep; [congruence|simpl; lia]. }
  simpl. destruct (split_cons sep a) as [h [tl Ha]].
  rewrite Ha, <- Ha, (IH _ Hlen a eq_refl). symmetry; exact Ht.
Qed.

(** Replacing one character by nothing removes every occurrence of it. *)
Lemma replace_char (c : char) (t : str) :
  replace [c] [] t = remove_char c t.
Proof.
  unfold replace, split. rewrite join_nil.
  induction t as [|x t IH]; [reflexivity|].
  simpl. rewrite andb_true_r.
  destruct (N.eqb c x) eqn:E.
  - apply N.eqb_eq in E. subst x. rewrite N.eqb_refl. simpl. exact IH.
  - rewrite N.eqb_sym, E. simpl.
    destruct (split_from [c] t 0) as [|p ps] eqn:Hs.
    + exfalso. eapply split_from_nonempty, Hs.
    + simpl in *. rewrite IH. reflexivity.
Qed.

Lemma getitem_nth_error {A} (l : list A) (i : nat) (x : A) :
  nth_error l i = Some x -> getitem l i = Ret x.
Proof. unfold getitem. intros ->. reflexivity. Qed.

Lemma getitem_lt {A} (l : list A) (i : nat) (d : A) :
  i < List.length l -> getitem l i = Ret (nth i l d).
Proof.
  intros Hi. apply getitem_nth_error, nth_error_nth'. exact Hi.
Qed.

Lemma getitem_split_0 (sep t : str) :
  getitem (split sep t) 0 = Ret (hd [] (split sep t)).
Proof.
  destruct (split_cons sep t) as [h [tl E]]. rewrite E. reflexivity.
Qed.

(** * Pieces of a split are parts of the text *)

Lemma contains_part_of (p t : str) : contains p t = true <-> part_of p t.
Proof.
  induction t as [|c t IH]; simpl.
  - rewrite orb_false_r, startswith_iff. split.
    + intros [r E]. exists [], r. exact E.
    + intros [[|x pre] [post E]]; [eauto | discriminate].
  - rewrite orb_true_iff, IH, startswith_iff. split.
    + intros [[r E] | [pre [post E]]].
      * exists [], r. exact E.
      * exists (c :: pre), post. rewrite E. reflexivity.
    + intros [[|x pre] [post E]].
      * left. eauto.
      * right. injection E as -> E. exists pre, post. exact E.
Qed.

Lemma part_of_trans (a b t : str) : part_of a b -> part_of b t -> part_of a t.
Proof.
  intros [p1 [q1 ->]] [p2 [q2 ->]]. exists (p2 ++ p1), (q1 ++ q2).
  rewrite <- !app_assoc. reflexivity.
Qed.

Lemma split_part_of (sep t x : str) :
  sep <> [] -> In x (split sep t) -> part_of x t.
Proof.
  intros Hsep.
  remember (List.length t) as n eqn:Hn.
  revert t x Hn; induction n as [n IH] using lt_wf_ind; intros t x Hn.
  rewrite (split_unfold sep t Hsep).
  destruct (partition sep t) as [[b a]|] eqn:Hq.
  - pose proof (partition_some _ _ _ _ Hq) as Ht.
    intros [<- | Hin].
    + exists [], (sep ++ a). exact Ht.
    + assert (Hlen : List.length a < n).
      { subst n. rewrite Ht, !length_app.
        destruct sep; [congruence | simpl; lia]. }
      destruct (IH _ Hlen a x eq_refl Hin) as [pre [post E]].
      exists (b ++ sep ++ pre), post. rewrite Ht, E, <- !app_assoc.
      reflexivity.
  - intros [<- | []]. exists [], []. rewrite app_nil_r. reflexivity.
Qed.

Lemma hd_split_In (sep t : str) : In (hd [] (split sep t)) (split sep t).
Proof.
  destruct (split_cons sep t) as [h [tl ->]]. left. reflexivity.
Qed.

(** The membership test that guards the secondary check of the train list
    never changes its verdict: when field 5 of the first segment, cut at
    [<], is the message, the text contains the message. *)
Lemma no_direct_found_fields (text : str) :
  no_direct_found text =
  match nth_error (split TILDE (first_segment text)) 5 with
  | Some p5 =>
      str_eqb (hd [] (split (lit "<") p5)) (lit "No direct trains found")
  | None => false
  end.
Proof.
  unfold no_direct_found.
  destruct (nth_error (split TILDE (first_segment text)) 5) as [p5|] eqn:H5;
    [|apply andb_false_r].
  destruct (str_eqb _ _) eqn:E; [|apply andb_false_r].
  rewrite andb_true_r. apply contains_part_of.
  apply str_eqb_eq in E. rewrite <- E.
  apply part_of_trans with p5.
  { apply (split_part_of (lit "<")); [discriminate | apply hd_split_In]. }
  apply part_of_trans with (first_segment text).
  { apply (split_part_of TILDE); [discriminate|].
    eapply nth_error_In, H5. }
  apply (split_part_of SENTINEL); [discriminate | apply hd_split_In].
Qed.

(** * The train-list decoder *)

Lemma set_running_days_app (obj : dict) (raw : str) :
  get obj (lit "running_days_str") = None ->
  get obj (lit "running_days") = None ->
  set_running_days obj raw =
  obj ++ [ (lit "running_days_str", VStr raw);
           (lit "running_days", VList (running_days_of raw)) ].
Proof.
  intros H1 H2. unfold set_running_days, running_days_of, parse_running_days.
  rewrite length_map. fold day_bit.
  assert (Hset : forall k v (d : dict),
             get d k = None -> setitem d k v = d ++ [(k, v)]).
  { intros k v d. induction d as [|[k' v'] d IH]; simpl; [reflexivity|].
    destruct (str_eqb k k'); [discriminate|]. intros Hd. rewrite IH by exact Hd.
    reflexivity. }
  assert (Hget : forall k k' v (d : dict),
             str_eqb k k' = false -> get d k = None ->
             get (d ++ [(k', v)]) k = None).
  { intros k k' v d Hk. induction d as [|[k0 v0] d IH]; simpl.
    - rewrite Hk. reflexivity.
    - destruct (str_eqb k k0); [discriminate|]. exact IH. }
  unfold str, char in *.
  destruct (List.length raw =? 7);
    rewrite (Hset _ _ _ H1), Hset, <- app_assoc; try reflexivity;
    apply Hget; try assumption; reflexivity.
Qed.

Lemma between_station_segment_spec (segment : str) (arr : list value) :
  between_station_segment segment arr = Ret (arr ++ train_record segment).
Proof.
  unfold between_station_segment, train_record, usable_fields.
  destruct (split TILDE_CARET segment) as [|p0 [|p1 [|p2 parts]]];
    cbn [List.length Nat.eqb]; try (rewrite app_nil_r; reflexivity).
  unfold getitem at 1. cbn [nth_error bind].
  generalize (drop_empty (split TILDE p1)) as l. intros l.
  destruct (14 <=? List.length l) eqn:Hlen;
    [|rewrite app_nil_r; reflexivity].
  apply Nat.leb_le in Hlen.
  do 14 (head_field l Hlen).
  unfold getitem; cbn [nth_error bind].
  rewrite set_running_days_app by reflexivity.
  reflexivity.
Qed.

Lemma between_station_loop_spec (segments : list str) (arr : list value) :
  between_station_loop segments arr =
  Ret (arr ++ flat_map train_record segments).
Proof.
  revert arr; induction segments as [|s segments IH]; intros arr; simpl.
  - rewrite app_nil_r. reflexivity.
  - rewrite between_station_segment_spec. simpl.
    rewrite IH, <- app_assoc. reflexivity.
Qed.

Lemma no_direct_check_spec (now : Z) (text : str) :
  no_direct_check now [] text =
  Ret (if no_direct_found text
       then Some (failure now (lit "No direct trains found"))
       else None).
Proof.
  unfold no_direct_check, no_direct_found.
  destruct (contains (lit "No direct trains found") text); [|reflexivity].
  rewrite getitem_split_0. cbn [bind andb]. fold (first_segment text).
  generalize (split TILDE (first_segment text)) as parts. intros parts.
  destruct (5 <? List.length parts) eqn:Hlen.
  - apply Nat.ltb_lt in Hlen.
    rewrite (getitem_lt parts 5 [] Hlen).
    rewrite (nth_error_nth' parts [] Hlen). cbn [bind].
    rewrite getitem_split_0. cbn [bind].
    destruct (str_eqb _ _) eqn:E; [|reflexivity].
    apply str_eqb_eq in E. rewrite E. reflexivity.
  - apply Nat.ltb_ge in Hlen.
    destruct (nth_error parts 5) eqn:E; [|reflexivity].
    assert (5 < List.length parts) by (apply nth_error_Some; congruence).
    lia.
Qed.


Lemma between_station_body_spec (now : Z) (text : str) :
  between_station_body now text = Ret (between_station_outcome now text).
Proof.
  unfold between_station_body, between_station_outcome.
  rewrite no_direct_check_spec. cbn [bind].
  destruct (no_direct_found text); [reflexivity|].
  rewrite getitem_split_0. cbn [bind]. fold (first_segment text).
  destruct (in_list (first_segment text) potential_error_messages).
  - change TILDE with [TILDE_CHAR]. rewrite replace_char. reflexivity.
  - unfold train_records.
    destruct (drop_empty (split SENTINEL text)) as [|s segs]; [reflexivity|].
    rewrite between_station_loop_spec. cbn [app bind nonempty_list negb andb].
    destruct (flat_map train_record (s :: segs)); reflexivity.
Qed.

Lemma between_station_logic_spec (now : Z) (text : str) :
  between_station_logic now text = Ret (between_station_outcome now text).
Proof.
  unfold between_station_logic. rewrite between_station_body_spec.
  reflexivity.
Qed.

(** * The train-detail decoder *)

Section CheckTrainFacts.
Variable unicode_isdigit : char -> bool.

Lemma shift_first_part_spec (partA : list str) :
  shift_first_part unicode_isdigit partA
  = Ret (repaired (isdigit unicode_isdigit) partA).
Proof.
  unfold shift_first_part, repaired.
  destruct partA as [|a0 [|a1 rest]]; try reflexivity.
  change (1 <? List.length (a0 :: a1 :: rest)) with true.
  cbn [nonempty_list getitem nth_error bind].
  generalize (6 <? List.length a1) as long1.
  generalize (6 <? List.length a0) as long0.
  generalize (isdigit unicode_isdigit a0) as numeric.
  intros numeric long0 long1.
  cbn [nonempty_list getitem nth_error bind].
  destruct long1; [|reflexivity].
  cbn [andb bind].
  destruct (str_eqb a0 CARET); [reflexivity|].
  destruct long0, numeric; reflexivity.
Qed.

Lemma check_train_body_spec (now : Z) (text : str) :
  check_train_body unicode_isdigit now text =
  Ret (check_train_outcome (isdigit unicode_isdigit) now text).
Proof.
  unfold check_train_body, check_train_outcome. cbv zeta.
  rewrite getitem_split_0. cbn [bind]. fold (first_segment text).
  destruct (in_list (first_segment text) error_messages).
  { change TILDE with [TILDE_CHAR]. rewrite replace_char. reflexivity. }
  destruct (List.length (split SENTINEL text) <? 2) eqn:Hsegs;
    [reflexivity|].
  apply Nat.ltb_ge in Hsegs.
  rewrite shift_first_part_spec. cbn [bind].
  fold (first_part (isdigit unicode_isdigit) text).
  rewrite (getitem_lt (split SENTINEL text) 1 []) by lia.
  generalize (first_part (isdigit unicode_isdigit) text) as fields.
  intros fields.
  destruct (List.length fields <? 15) eqn:Hf; [reflexivity|].
  apply Nat.ltb_ge in Hf.
  do 15 (head_field fields Hf).
  unfold getitem at 1 2 3 4 5 6 7 8 9 10. cbn [nth_error bind].
  rewrite set_running_days_app by reflexivity.
  cbn [bind]. fold (second_part text).
  generalize (second_part text) as partB. intros partB.
  destruct (List.length partB <? 20) eqn:Hb; [reflexivity|].
  apply Nat.ltb_ge in Hb.
  do 20 (head_field partB Hb).
  unfold getitem. cbn [nth_error bind nth].
  change CARET with [CARET_CHAR]. rewrite replace_char.
  reflexivity.
Qed.

Lemma check_train_logic_spec (now : Z) (text : str) :
  check_train_logic unicode_isdigit now text =
  Ret (check_train_outcome (isdigit unicode_isdigit) now text).
Proof.
  unfold check_train_logic. rewrite check_train_body_spec. reflexivity.
Qed.
End CheckTrainFacts.

Lemma first_segment_nth (text seg : str) :
  nth_error (split SENTINEL text) 0 = Some seg -> first_segment text = seg.
Proof.
  unfold first_segment. destruct (split SENTINEL text); simpl; congruence.
Qed.

Lemma error_sentinel_not_no_direct (text : str) :
  In (first_segment text) potential_error_messages ->
  no_direct_found text = false.
Proof.
  unfold no_direct_found. intros Hin.
  destruct (contains _ text); [|reflexivity].
  simpl in Hin.
  destruct Hin as [<- | [<- | [<- | []]]]; vm_compute; reflexivity.
Qed.

(** C1.  When the first segment of the split on the sentinel is one of the
    known upstream error messages of a decoder, that decoder answers with
    the dict whose [success] is false and whose [data] is the segment with
    every tilde removed. *)
Theorem error_sentinels_reported
  (unicode_isdigit : char -> bool) (now : Z) (text seg : str) :
  nth_error (split (lit "~~~~~~~~") text) 0 = Some seg ->
  (In seg [ lit "~~~~~Please try again after some time.";
            lit "~~~~~From station not found";
            lit "~~~~~To station not found" ] ->
   between_station_logic now text
   = Ret (VDict [ (lit "success", VBool false);
                  (lit "time_stamp", VInt now);
                  (lit "data", VStr (remove_char TILDE_CHAR seg)) ])) /\
  (In seg [ lit "~~~~~Please try again after some time.";
            lit "~~~~~Train not found" ] ->
   check_train_logic unicode_isdigit now text
   = Ret (VDict [ (lit "success", VBool false);
                  (lit "time_stamp", VInt now);
                  (lit "data", VStr (remove_char TILDE_CHAR seg)) ])).
Proof.
  intros Hseg. apply first_segment_nth in Hseg. split; intros Hin.
  - change (In seg potential_error_messages) in Hin.
    rewrite between_station_logic_spec. unfold between_station_outcome.
    rewrite error_sentinel_not_no_direct by (rewrite Hseg; exact Hin).
    apply in_list_In in Hin. rewrite Hseg, Hin. reflexivity.
  - change (In seg error_messages) in Hin.
    rewrite check_train_logic_spec. unfold check_train_outcome.
    apply in_list_In in Hin. rewrite Hseg, Hin. reflexivity.
Qed.

Lemma error_sentinels_reported_witness :
  between_station_logic 1700000000000
    (lit "~~~~~To station not found~~~~~~~~rest")
  = Ret (VDict [ (lit "success", VBool false);
                 (lit "time_stamp", VInt 1700000000000);
                 (lit "data", VStr (lit "To station not found")) ]) /\
  check_train_logic ascii_only 1700000000000
    (lit "~~~~~Train not found")
  = Ret (VDict [ (lit "success", VBool false);
                 (lit "time_stamp", VInt 1700000000000);
                 (lit "data", VStr (lit "Train not found")) ]).
Proof.
  split.
  - refine (proj1 (error_sentinels_reported ascii_only 1700000000000
                     (lit "~~~~~To station not found~~~~~~~~rest")
                     (lit "~~~~~To station not found") _) _).
    + vm_compute. reflexivity.
    + right. right. left. reflexivity.
  - refine (proj2 (error_sentinels_reported ascii_only 1700000000000
                     (lit "~~~~~Train not found")
                     (lit "~~~~~Train not found") _) _).
    + vm_compute. reflexivity.
    + right. left. reflexivity.
Defined.

(** * Train records *)

Lemma failure_not_success (now now' : Z) (msg : str) (data : value) :
  failure now msg <> success now' data.
Proof. unfold failure, success, envelope. simpl. discriminate. Qed.

Lemma success_inj (now now' : Z) (d d' : value) :
  success now d = success now' d' -> d = d'.
Proof. unfold success, envelope. simpl. intros E; injection E; auto. Qed.

Lemma nonempty_list_false {A} (l : list A) :
  nonempty_list l = false <-> l = [].
Proof. destruct l; simpl; split; congruence. Qed.

Lemma usable_fields_iff (segment : str) (fields : list str) :
  usable_fields segment = Some fields <->
  exists p0 p1, split TILDE_CARET segment = [p0; p1] /\
                fields = drop_empty (split TILDE p1) /\
                14 <= List.length fields.
Proof.
  unfold usable_fields. split.
  - destruct (split TILDE_CARET segment) as [|p0 [|p1 [|p2 parts]]];
      try discriminate.
    destruct (14 <=? List.length (drop_empty (split TILDE p1))) eqn:Hlen;
      [|discriminate].
    intros E; injection E as <-. apply Nat.leb_le in Hlen.
    exists p0, p1. auto.
  - intros [p0 [p1 [-> [-> Hlen]]]].
    apply Nat.leb_le in Hlen. rewrite Hlen. reflexivity.
Qed.

Lemma train_summary_get (fields : list str) (i : nat) (key : str) :
  14 <= List.length fields ->
  nth_error summary_keys i = Some key ->
  get (train_summary fields) key = Some (VStr (nth i fields [])).
Proof.
  intros Hlen Hkey.
  do 14 (head_field fields Hlen).
  do 13 (destruct i as [|i];
         [injection Hkey as <-; reflexivity|]).
  destruct i; discriminate.
Qed.

Lemma running_days_of_spec (raw : str) :
  (List.length (running_days_of raw) = 7 <-> List.length raw = 7) /\
  (List.length raw = 7 -> running_days_of raw = map day_bit raw) /\
  (List.length raw <> 7 -> running_days_of raw = []).
Proof.
  unfold running_days_of.
  destruct (List.length raw =? 7) eqn:E.
  - apply Nat.eqb_eq in E. rewrite length_map.
    repeat split; auto; congruence.
  - apply Nat.eqb_neq in E. simpl.
    repeat split; auto; try congruence; discriminate.
Qed.

Lemma train_summary_running_days (fields : list str) :
  14 <= List.length fields ->
  running_days_from (nth 13 fields []) (train_summary fields).
Proof.
  intros Hlen. exists (running_days_of (nth 13 fields [])).
  split; [|split; [|apply running_days_of_spec]];
    do 14 (head_field fields Hlen); reflexivity.
Qed.

Lemma drop_empty_filter (l : list str) : drop_empty l = filter has_chars l.
Proof.
  unfold drop_empty. apply filter_ext. intros [|c s]; reflexivity.
Qed.

(** C2.  Past the two early checks, the train-list decoder answers with
    the records of the usable segments, in order, each wrapped under the
    single key [train_base]: the text is split on the sentinel and the
    empty segments are dropped; a segment is usable exactly when it splits
    on the marker into two parts and the second, split on the tilde with
    the empty fields dropped, has at least 14 fields; fields 0 to 12 go to
    the thirteen summary keys in order.  Without a usable segment the
    answer is a failure. *)
Theorem train_list_records (now : Z) (text : str) :
  no_direct_found text = false ->
  ~ In (hd [] (split (lit "~~~~~~~~") text))
       [ lit "~~~~~Please try again after some time.";
         lit "~~~~~From station not found";
         lit "~~~~~To station not found" ] ->
  (train_records text = [] ->
   exists msg,
     between_station_logic now text
     = Ret (VDict [ (lit "success", VBool false);
                    (lit "time_stamp", VInt now);
                    (lit "data", VStr msg) ])) /\
  (train_records text <> [] ->
   between_station_logic now text
   = Ret (VDict [ (lit "success", VBool true);
                  (lit "time_stamp", VInt now);
                  (lit "data", VList (train_records text)) ]))
  /\
  train_records text =
    flat_map train_record (filter has_chars (split (lit "~~~~~~~~") text)) /\
  (forall segment,
     train_record segment <> [] <->
     exists p0 p1,
       split (lit "~^") segment = [p0; p1] /\
       14 <= List.length (filter has_chars (split (lit "~") p1))) /\
  (forall segment p0 p1,
     split (lit "~^") segment = [p0; p1] ->
     14 <= List.length (filter has_chars (split (lit "~") p1)) ->
     exists obj,
       train_record segment = [VDict [(lit "train_base", VDict obj)]] /\
       forall i key,
         nth_error summary_keys i = Some key ->
         get obj key
         = Some (VStr (nth i (filter has_chars (split (lit "~") p1)) []))).
Proof.
  intros Hnd Herr.
  assert (Herr' : in_list (first_segment text) potential_error_messages
                  = false).
  { destruct (in_list _ _) eqn:E; [|reflexivity].
    apply in_list_In in E. contradiction. }
  rewrite between_station_logic_spec.
  unfold between_station_outcome. rewrite Hnd, Herr'.
  split; [|split; [|split; [|split]]].
  - intros Hrec. rewrite Hrec. cbn [nonempty_list negb].
    destruct (negb _); eexists; reflexivity.
  - intros Hrec.
    assert (Hsegs : drop_empty (split SENTINEL text) <> []).
    { intros E. apply Hrec. unfold train_records. rewrite E. reflexivity. }
    destruct (drop_empty (split SENTINEL text)); [congruence|].
    destruct (train_records text); [congruence|]. reflexivity.
  - rewrite <- drop_empty_filter. reflexivity.
  - intros segment. unfold train_record.
    destruct (usable_fields segment) as [fields|] eqn:Hu.
    + apply usable_fields_iff in Hu. destruct Hu as [p0 [p1 [Hs [-> Hlen]]]].
      split; [|discriminate]. intros _. exists p0, p1.
      rewrite <- drop_empty_filter. auto.
    + split; [congruence|]. intros [p0 [p1 [Hs Hlen]]].
      rewrite <- drop_empty_filter in Hlen.
      assert (Hu' : usable_fields segment
                    = Some (drop_empty (split TILDE p1))).
      { apply usable_fields_iff. eauto. }
      congruence.
  - intros segment p0 p1 Hs Hlen. rewrite <- drop_empty_filter in *.
    assert (Hu : usable_fields segment = Some (drop_empty (split TILDE p1))).
    { apply usable_fields_iff. eauto. }
    unfold train_record. rewrite Hu.
    eexists. split; [reflexivity|].
    intros i key Hkey. apply train_summary_get; assumption.
Qed.

Lemma train_list_records_witness :
  between_station_logic 1700000000000 sample_trains_gaps
  = Ret (VDict
      [ (lit "success", VBool true);
        (lit "time_stamp", VInt 1700000000000);
        (lit "data",
         VList
           [ VDict
               [ (lit "train_base",
                  VDict
                    [ (lit "train_no", VStr (lit "12345"));
                      (lit "train_name", VStr (lit "Rajdhani"));
                      (lit "source_stn_name", VStr (lit "NDLS"));
                      (lit "source_stn_code", VStr (lit "New Delhi"));
                      (lit "dstn_stn_name", VStr (lit "BCT"));
                      (lit "dstn_stn_code", VStr (lit "Mumbai"));
                      (lit "from_stn_name", VStr (lit "NDLS"));
                      (lit "from_stn_code", VStr (lit "New Delhi"));
                      (lit "to_stn_name", VStr (lit "BCT"));
                      (lit "to_stn_code", VStr (lit "Mumbai"));
                      (lit "from_time", VStr (lit "16.00"));
                      (lit "to_time", VStr (lit "08.00"));
                      (lit "travel_time", VStr (lit "16.00"));
                      (lit "running_days_str", VStr (lit "YNNYYNY"));
                      (lit "running_days",
                       VList [ VInt 1; VInt 0; VInt 0; VInt 1; VInt 1;
                               VInt 0; VInt 1 ]) ]) ];
             VDict
               [ (lit "train_base",
                  VDict
                    [ (lit "train_no", VStr (lit "22222"));
                      (lit "train_name", VStr (lit "Local"));
                      (lit "source_stn_name", VStr (lit "A"));
                      (lit "source_stn_code", VStr (lit "a"));
                      (lit "dstn_stn_name", VStr (lit "B"));
                      (lit "dstn_stn_code", VStr (lit "b"));
                      (lit "from_stn_name", VStr (lit "A"));
                      (lit "from_stn_code", VStr (lit "a"));
                      (lit "to_stn_name", VStr (lit "B"));
                      (lit "to_stn_code", VStr (lit "b"));
                      (lit "from_time", VStr (lit "1"));
                      (lit "to_time", VStr (lit "2"));
                      (lit "travel_time", VStr (lit "3"));
                      (lit "running_days_str", VStr (lit "YN"));
                      (lit "running_days", VList []) ]) ] ]) ]).
Proof.
  refine (eq_trans
            (proj1 (proj2 (train_list_records 1700000000000
                             sample_trains_gaps _ _)) _) _).
  - vm_compute. reflexivity.
  - vm_compute. intros [E | [E | [E | []]]]; discriminate.
  - vm_compute. discriminate.
  - vm_compute. reflexivity.
Defined.

(** C3.  In every record of a successful train list and in the record of a
    successful train detail, [running_days_str] is field 13 as received,
    and [running_days] is that field with [Y] read as 1 and any other
    character as 0 when the field has 7 characters, and the empty list
    otherwise; so [running_days] has length 7 exactly when
    [running_days_str] has. *)
Theorem running_days_parsed
  (unicode_isdigit : char -> bool) (now : Z) (text : str) :
  (forall data,
     between_station_logic now text = Ret (success now (VList data)) ->
     forall record, In record data ->
     exists segment fields obj,
       In segment (drop_empty (split SENTINEL text)) /\
       usable_fields segment = Some fields /\
       record = VDict [(lit "train_base", VDict obj)] /\
       running_days_from (nth 13 fields []) obj) /\
  (forall obj,
     check_train_logic unicode_isdigit now text
     = Ret (success now (VDict obj)) ->
     running_days_from
       (nth 13 (first_part (isdigit unicode_isdigit) text) []) obj).
Proof.
  split.
  - intros data Hok record Hin.
    rewrite between_station_logic_spec in Hok. injection Hok as Hok.
    unfold between_station_outcome in Hok.
    repeat match type of Hok with
           | (if ?c then _ else _) = _ =>
               destruct c;
               [exfalso; exact (failure_not_success _ _ _ _ Hok)|]
           end.
    apply success_inj in Hok. injection Hok as <-.
    unfold train_records in Hin. apply in_flat_map in Hin.
    destruct Hin as [segment [Hseg Hrec]].
    unfold train_record in Hrec.
    destruct (usable_fields segment) as [fields|] eqn:Hu; [|contradiction].
    destruct Hrec as [<- | []].
    exists segment, fields, (train_summary fields).
    repeat split; try assumption.
    apply train_summary_running_days.
    apply usable_fields_iff in Hu. destruct Hu as [_ [_ [_ [_ Hlen]]]].
    exact Hlen.
  - intros obj Hok. rewrite check_train_logic_spec in Hok.
    injection Hok as Hok. unfold check_train_outcome in Hok.
    destruct (in_list _ _);
      [exfalso; exact (failure_not_success _ _ _ _ Hok)|].
    destruct (_ <? 2);
      [exfalso; exact (failure_not_success _ _ _ _ Hok)|].
    destruct (_ <? 15) eqn:Hf;
      [exfalso; exact (failure_not_success _ _ _ _ Hok)|].
    destruct (_ <? 20);
      [exfalso; exact (failure_not_success _ _ _ _ Hok)|].
    apply success_inj in Hok. injection Hok as <-.
    apply Nat.ltb_ge in Hf.
    generalize dependent (first_part (isdigit unicode_isdigit) text).
    intros fields Hf.
    exists (running_days_of (nth 13 fields [])).
    split; [|split; [|apply running_days_of_spec]]; reflexivity.
Qed.

Lemma running_days_parsed_witness :
  (forall record, In record (train_records sample_trains) ->
   exists segment fields obj,
     In segment (drop_empty (split SENTINEL sample_trains)) /\
     usable_fields segment = Some fields /\
     record = VDict [(lit "train_base", VDict obj)] /\
     running_days_from (nth 13 fields []) obj) /\
  running_days_from (lit "YNNYYNY")
    (train_detail (first_part (isdigit ascii_only) sample_detail)
                  (second_part sample_detail)).
Proof.
  split.
  - apply (proj1 (running_days_parsed ascii_only 1700000000000 sample_trains)
                 (train_records sample_trains)).
    vm_compute. reflexivity.
  - apply (proj2 (running_days_parsed ascii_only 1700000000000 sample_detail)
                 (train_detail (first_part (isdigit ascii_only) sample_detail)
                               (second_part sample_detail))).
    vm_compute. reflexivity.
Defined.

(** The two examples of the specification: a field of seven characters and
    a shorter one. *)
Example running_days_examples :
  exists o1 o2,
    between_station_logic 1700000000000 sample_trains
    = Ret (success 1700000000000
        (VList [ VDict [(lit "train_base", VDict o1)];
                 VDict [(lit "train_base", VDict o2)] ])) /\
    get o1 (lit "running_days_str") = Some (VStr (lit "YNNYYNY")) /\
    get o1 (lit "running_days")
    = Some (VList [VInt 1; VInt 0; VInt 0; VInt 1; VInt 1; VInt 0; VInt 1]) /\
    get o2 (lit "running_days_str") = Some (VStr (lit "YN")) /\
    get o2 (lit "running_days") = Some (VList []).
Proof.
  do 2 eexists. split; [vm_compute; reflexivity|].
  repeat split; reflexivity.
Qed.

(** * Repair and mapping of the train detail *)

(** C4 as stated, that [train_no] is field 0 without its leading carets,
    fails:
    in [sample_detail] field 0 after the repair is [12^3456], which has no
    leading caret, and [train_no] is [123456]. *)
Lemma train_no_leading_caret_counterexample :
  ~ (forall obj,
       check_train_logic ascii_only 1700000000000 sample_detail
       = Ret (success 1700000000000 (VDict obj)) ->
       get obj (lit "train_no")
       = Some (VStr (strip_leading_carets
                       (nth 0 (first_part (isdigit ascii_only) sample_detail)
                            [])))).
Proof.
  intros Hclaim.
  specialize (Hclaim (train_detail
                        (first_part (isdigit ascii_only) sample_detail)
                        (second_part sample_detail))).
  assert (Hok : check_train_logic ascii_only 1700000000000 sample_detail
                = Ret (success 1700000000000
                    (VDict (train_detail
                              (first_part (isdigit ascii_only) sample_detail)
                              (second_part sample_detail)))))
    by (vm_compute; reflexivity).
  specialize (Hclaim Hok). vm_compute in Hclaim. discriminate.
Qed.

(** C4, amended.  The first part of a train detail is repaired as the
    specification says; with fewer than 15 fields after the repair the
    decoder fails; and in a successful answer [train_no] is field 0 with
    every caret removed, [train_name] is field 1, fields 2 to 5 are the
    station names and codes and fields 10 to 12 the times. *)
Theorem train_detail_first_part
  (unicode_isdigit : char -> bool) (now : Z) (text : str) :
  in_list (first_segment text) error_messages = false ->
  2 <= List.length (split SENTINEL text) ->
  let partA := drop_empty (split TILDE (first_segment text)) in
  let fields := repaired (isdigit unicode_isdigit) partA in
  shift_first_part unicode_isdigit partA = Ret fields /\
  (List.length fields < 15 ->
   check_train_logic unicode_isdigit now text
   = Ret (failure now
       (lit "Not enough data in the first part of train details."))) /\
  (15 <= List.length fields -> 20 <= List.length (second_part text) ->
   exists obj,
     check_train_logic unicode_isdigit now text
     = Ret (success now (VDict obj))) /\
  (forall obj,
     check_train_logic unicode_isdigit now text
     = Ret (success now (VDict obj)) ->
     15 <= List.length fields /\
     get obj (lit "train_no")
     = Some (VStr (remove_char CARET_CHAR (nth 0 fields []))) /\
     get obj (lit "train_name") = Some (VStr (nth 1 fields [])) /\
     get obj (lit "from_stn_name") = Some (VStr (nth 2 fields [])) /\
     get obj (lit "from_stn_code") = Some (VStr (nth 3 fields [])) /\
     get obj (lit "to_stn_name") = Some (VStr (nth 4 fields [])) /\
     get obj (lit "to_stn_code") = Some (VStr (nth 5 fields [])) /\
     get obj (lit "from_time") = Some (VStr (nth 10 fields [])) /\
     get obj (lit "to_time") = Some (VStr (nth 11 fields [])) /\
     get obj (lit "travel_time") = Some (VStr (nth 12 fields []))).
Proof.
  intros Herr Hsegs partA fields.
  split; [apply shift_first_part_spec|].
  rewrite check_train_logic_spec. unfold check_train_outcome.
  rewrite Herr. apply Nat.ltb_ge in Hsegs. rewrite Hsegs.
  change (first_part (isdigit unicode_isdigit) text) with fields.
  split; [|split].
  - intros Hlen. apply Nat.ltb_lt in Hlen. rewrite Hlen. reflexivity.
  - intros Hf Hb. apply Nat.ltb_ge in Hf, Hb. rewrite Hf, Hb. eauto.
  - intros obj Hok. injection Hok as Hok.
    destruct (List.length fields <? 15) eqn:Hf;
      [exfalso; exact (failure_not_success _ _ _ _ Hok)|].
    destruct (_ <? 20);
      [exfalso; exact (failure_not_success _ _ _ _ Hok)|].
    apply success_inj in Hok. injection Hok as <-.
    apply Nat.ltb_ge in Hf. split; [exact Hf|].
    repeat split; reflexivity.
Qed.

Lemma train_detail_first_part_witness :
  exists obj,
    check_train_logic ascii_only 1700000000000 sample_detail
    = Ret (success 1700000000000 (VDict obj)) /\
    get obj (lit "train_no") = Some (VStr (lit "123456")) /\
    get obj (lit "train_name") = Some (VStr (lit "Rajdhani")).
Proof.
  destruct (train_detail_first_part ascii_only 1700000000000 sample_detail
              eq_refl)
    as [_ [_ [Hok Hmap]]].
  - vm_compute. lia.
  - destruct Hok as [obj Hobj].
    + vm_compute. lia.
    + vm_compute. lia.
    + exists obj. split; [exact Hobj|].
      destruct (Hmap obj Hobj) as [_ [Hno [Hname _]]].
      split; [exact Hno | exact Hname].
Defined.

(** * The route decoder *)

Lemma get_route_segment_spec (segment : str) (arr : list value) :
  get_route_segment segment arr =
  Ret (arr ++ (if 9 <? List.length (drop_empty (split TILDE segment))
               then [route_stop (drop_empty (split TILDE segment))]
               else [])).
Proof.
  unfold get_route_segment.
  generalize (drop_empty (split TILDE segment)) as details. intros details.
  destruct (9 <? List.length details) eqn:Hlen;
    [|rewrite app_nil_r; reflexivity].
  apply Nat.ltb_lt in Hlen.
  do 10 (head_field details Hlen).
  reflexivity.
Qed.

Lemma get_route_loop_spec (segments : list str) (arr : list value) :
  get_route_loop segments arr =
  Ret (arr ++ map route_stop
                (filter (fun fields => 9 <? List.length fields)
                   (map (fun segment => drop_empty (split TILDE segment))
                        segments))).
Proof.
  revert arr; induction segments as [|s segments IH]; intros arr; simpl.
  - rewrite app_nil_r. reflexivity.
  - rewrite get_route_segment_spec. cbn [bind]. rewrite IH, <- app_assoc.
    destruct (9 <? List.length (drop_empty (split TILDE s))); reflexivity.
Qed.

Lemma get_route_body_spec (now : Z) (text : str) :
  get_route_body now text =
  Ret (if negb (nonempty_list (drop_empty (split TILDE_CARET text)))
       then failure now (lit "No route data found in response.")
       else if negb (nonempty_list (route_stops text))
       then failure now (lit "Could not parse route details from segments.")
       else success now (VList (route_stops text))).
Proof.
  unfold get_route_body, route_stops, route_fields.
  destruct (drop_empty (split TILDE_CARET text)) as [|s segs]; [reflexivity|].
  rewrite get_route_loop_spec. cbn [negb nonempty_list app bind].
  destruct (map route_stop _); reflexivity.
Qed.

(** C6.  The route decoder splits on the marker and drops empty segments;
    without segments it fails; each segment is split on the tilde and its
    empty fields are dropped; a segment with at most 9 fields left is
    skipped and nothing is raised; the stops of the kept segments take
    fields 1, 2, 3, 4, 6, 7 and 9; without stops it fails, and otherwise it
    succeeds with the stops in the order of their segments. *)
Theorem route_stops_decoded (now : Z) (text : str) :
  (exists v, get_route_body now text = Ret v) /\
  (filter has_chars (split (lit "~^") text) = [] ->
   get_route_logic now text
   = Ret (VDict [ (lit "success", VBool false);
                  (lit "time_stamp", VInt now);
                  (lit "data", VStr (lit "No route data found in response."))
                ])) /\
  (filter has_chars (split (lit "~^") text) <> [] -> route_stops text = [] ->
   get_route_logic now text
   = Ret (VDict [ (lit "success", VBool false);
                  (lit "time_stamp", VInt now);
                  (lit "data",
                   VStr (lit "Could not parse route details from segments."))
                ])) /\
  (route_stops text <> [] ->
   get_route_logic now text
   = Ret (VDict [ (lit "success", VBool true);
                  (lit "time_stamp", VInt now);
                  (lit "data", VList (route_stops text)) ])) /\
  route_stops text =
    map route_stop
      (filter (fun fields => 9 <? List.length fields)
         (map (fun segment => filter has_chars (split (lit "~") segment))
              (filter has_chars (split (lit "~^") text)))) /\
  (forall fields, exists stop,
     route_stop fields = VDict stop /\
     keys stop = [ lit "source_stn_name"; lit "source_stn_code";
                   lit "arrive"; lit "depart"; lit "distance"; lit "day";
                   lit "zone" ] /\
     get stop (lit "source_stn_code") = Some (VStr (nth 1 fields [])) /\
     get stop (lit "source_stn_name") = Some (VStr (nth 2 fields [])) /\
     get stop (lit "arrive") = Some (VStr (nth 3 fields [])) /\
     get stop (lit "depart") = Some (VStr (nth 4 fields [])) /\
     get stop (lit "distance") = Some (VStr (nth 6 fields [])) /\
     get stop (lit "day") = Some (VStr (nth 7 fields [])) /\
     get stop (lit "zone") = Some (VStr (nth 9 fields []))).
Proof.
  rewrite <- !drop_empty_filter.
  unfold get_route_logic. rewrite get_route_body_spec.
  cbn [try_except].
  split; [eexists; reflexivity|].
  split; [|split; [|split; [|split]]].
  - intros E. change (drop_empty (split TILDE_CARET text) = []) in E.
    rewrite E. reflexivity.
  - intros Hsegs ->.
    change (drop_empty (split TILDE_CARET text) <> []) in Hsegs.
    destruct (drop_empty (split TILDE_CARET text)); [congruence|reflexivity].
  - intros Hstops.
    destruct (drop_empty (split TILDE_CARET text)) eqn:Hsegs.
    + exfalso. apply Hstops. unfold route_stops, route_fields.
      rewrite Hsegs. reflexivity.
    + destruct (route_stops text); [congruence|reflexivity].
  - unfold route_stops, route_fields. f_equal. f_equal.
    apply map_ext. intros segment. apply drop_empty_filter.
  - intros fields. eexists. split; [reflexivity|]. repeat split.
Qed.

Lemma route_stops_decoded_witness :
  get_route_logic 1700000000000 sample_route_gaps
  = Ret (VDict
      [ (lit "success", VBool true);
        (lit "time_stamp", VInt 1700000000000);
        (lit "data",
         VList
           [ VDict [ (lit "source_stn_name", VStr (lit "New Delhi"));
                     (lit "source_stn_code", VStr (lit "NDLS"));
                     (lit "arrive", VStr (lit "First"));
                     (lit "depart", VStr (lit "16.00"));
                     (lit "distance", VStr (lit "0"));
                     (lit "day", VStr (lit "1"));
                     (lit "zone", VStr (lit "NR")) ];
             VDict [ (lit "source_stn_name", VStr (lit "Mumbai"));
                     (lit "source_stn_code", VStr (lit "BCT"));
                     (lit "arrive", VStr (lit "08.00"));
                     (lit "depart", VStr (lit "Last"));
                     (lit "distance", VStr (lit "1384"));
                     (lit "day", VStr (lit "2"));
                     (lit "zone", VStr (lit "WR")) ] ]) ]) /\
  get_route_logic 1700000000000 (lit "~^too~short")
  = Ret (VDict
      [ (lit "success", VBool false);
        (lit "time_stamp", VInt 1700000000000);
        (lit "data",
         VStr (lit "Could not parse route details from segments.")) ]) /\
  get_route_logic 1700000000000 (lit "~^")
  = Ret (VDict
      [ (lit "success", VBool false);
        (lit "time_stamp", VInt 1700000000000);
        (lit "data", VStr (lit "No route data found in response.")) ]).
Proof.
  split; [|split].
  - refine (eq_trans
              (proj1 (proj2 (proj2 (proj2
                 (route_stops_decoded 1700000000000 sample_route_gaps)))) _)
              _).
    + vm_compute. discriminate.
    + vm_compute. reflexivity.
  - refine (proj1 (proj2 (proj2
              (route_stops_decoded 1700000000000 (lit "~^too~short")))) _ _).
    + vm_compute. discriminate.
    + vm_compute. reflexivity.
  - refine (proj1 (proj2
              (route_stops_decoded 1700000000000 (lit "~^"))) _).
    vm_compute. reflexivity.
Defined.

(** * The live-station scraper *)

Section LiveStationFacts.
Context {Document Tag : Type} `{Soup Document Tag}.

Lemma live_station_row_spec (item : Tag) :
  live_station_row item = Ret (VDict (live_entry item)).
Proof.
  unfold live_station_row, live_entry.
  destruct (find_next_sibling item (lit "div")) as [next_div|].
  - destruct (split_cons ARROW (get_text next_div)) as [p0 [tl ->]].
    cbn [List.length Nat.ltb Nat.leb getitem nth_error bind nth].
    destruct tl as [|p1 tl];
      cbn [List.length Nat.ltb Nat.leb getitem nth_error bind nth];
      destruct (find_parent item (lit "td")) as [td|]; try reflexivity;
      destruct (find_next_sibling td (lit "td")); reflexivity.
  - cbn [bind].
    destruct (find_parent item (lit "td")) as [td|]; try reflexivity;
      destruct (find_next_sibling td (lit "td")); reflexivity.
Qed.

Lemma live_station_loop_spec (items : list Tag) (arr : list value) :
  live_station_loop items arr =
  Ret (arr ++ map (fun item => VDict (live_entry item)) items).
Proof.
  revert arr; induction items as [|item items IH]; intros arr; simpl.
  - rewrite app_nil_r. reflexivity.
  - rewrite live_station_row_spec. cbn [bind].
    rewrite IH, <- app_assoc. reflexivity.
Qed.

Lemma live_station_logic_spec (now : Z) (soup : Document) :
  live_station_body now soup = live_station_logic now soup /\
  live_station_logic now soup =
  Ret (success now (VList (map (fun item => VDict (live_entry item))
                          (select soup (lit ".name"))))).
Proof.
  unfold live_station_logic, live_station_body.
  rewrite live_station_loop_spec. split; reflexivity.
Qed.
End LiveStationFacts.

(** C10.  The scraper answers for every document, with one entry per name
    node in document order.  When the text of a name node has fewer than 5
    characters, [train_no] is the whole text and [train_name] is empty;
    when the text of the status cell has fewer than 5 characters, [time_at]
    is the whole text and [detail] is empty.  Nothing is raised. *)
Theorem live_station_short_texts
  {Document Tag : Type} {bs : Soup Document Tag} (now : Z) (soup : Document) :
  exists entries,
    live_station_body now soup = Ret (success now (VList entries)) /\
    live_station_logic now soup = Ret (success now (VList entries)) /\
    List.length entries = List.length (select soup (lit ".name")) /\
    forall i item,
      nth_error (select soup (lit ".name")) i = Some item ->
      exists obj,
        nth_error entries i = Some (VDict obj) /\
        (List.length (get_text item) < 5 ->
         get obj (lit "train_no") = Some (VStr (get_text item)) /\
         get obj (lit "train_name") = Some (VStr [])) /\
        (forall td cell,
           find_parent item (lit "td") = Some td ->
           find_next_sibling td (lit "td") = Some cell ->
           List.length (get_text cell) < 5 ->
           get obj (lit "time_at") = Some (VStr (get_text cell)) /\
           get obj (lit "detail") = Some (VStr [])).
Proof.
  exists (map (fun item => VDict (live_entry item))
              (select soup (lit ".name"))).
  destruct (live_station_logic_spec now soup) as [Hbody Hlogic].
  split; [rewrite Hbody, Hlogic; reflexivity|].
  split; [exact Hlogic|].
  split; [apply length_map|].
  intros i item Hitem. exists (live_entry item).
  split; [rewrite nth_error_map, Hitem; reflexivity|].
  split.
  - intros Hshort. unfold live_entry. split.
    + change (get _ (lit "train_no"))
        with (Some (VStr (firstn 5 (get_text item)))).
      rewrite firstn_all2 by lia. reflexivity.
    + change (get _ (lit "train_name"))
        with (Some (VStr (strip (skipn 5 (get_text item))))).
      rewrite skipn_all2 by lia. reflexivity.
  - intros td cell Htd Hcell Hshort. unfold live_entry.
    rewrite Htd, Hcell. split.
    + change (get _ (lit "time_at"))
        with (Some (VStr (firstn 5 (get_text cell)))).
      rewrite firstn_all2 by lia. reflexivity.
    + change (get _ (lit "detail"))
        with (Some (VStr (strip (skipn 5 (get_text cell))))).
      rewrite skipn_all2 by lia. reflexivity.
Qed.

Lemma live_station_short_texts_witness :
  exists entries obj,
    live_station_logic 1700000000000 sample_page
    = Ret (success 1700000000000 (VList entries)) /\
    nth_error entries 1 = Some (VDict obj) /\
    get obj (lit "train_no") = Some (VStr (lit "123")) /\
    get obj (lit "train_name") = Some (VStr []) /\
    get obj (lit "time_at") = Some (VStr (lit "16")) /\
    get obj (lit "detail") = Some (VStr []).
Proof.
  destruct (live_station_short_texts 1700000000000 sample_page)
    as [entries [_ [Hlogic [_ Hrow]]]].
  edestruct (Hrow 1) as [obj [Hentry [Hname Hstatus]]];
    [vm_compute; reflexivity|].
  exists entries, obj.
  destruct Hname as [Hno Hnm]; [vm_compute; lia|].
  edestruct Hstatus as [Hat Hdetail];
    [vm_compute; reflexivity | vm_compute; reflexivity | vm_compute; lia |].
  repeat split; assumption.
Defined.

(** C8.  Without usable records the train-list decoder fails; on the empty
    text it fails without raising; the scraper on a document without name
    nodes succeeds with the empty list. *)
Theorem empty_result_policy
  {Document Tag : Type} {bs : Soup Document Tag} (now : Z) :
  (forall text,
     train_records text = [] ->
     exists msg, between_station_logic now text = Ret (failure now msg)) /\
  (forall text data,
     between_station_logic now text = Ret (success now data) ->
     data = VList (train_records text) /\ train_records text <> []) /\
  between_station_body now []
  = Ret (failure now (lit "Unknown error or empty response from API.")) /\
  between_station_logic now []
  = Ret (failure now (lit "Unknown error or empty response from API.")) /\
  (forall soup : Document,
     select soup (lit ".name") = [] ->
     live_station_body now soup = Ret (success now (VList [])) /\
     live_station_logic now soup = Ret (success now (VList []))).
Proof.
  split; [|split; [|split; [|split]]].
  - intros text Hrec. rewrite between_station_logic_spec.
    unfold between_station_outcome. rewrite Hrec. cbn [nonempty_list negb].
    repeat match goal with
           | |- exists _, Ret (if ?c then _ else _) = _ => destruct c
           end; eauto.
  - intros text data Hok. rewrite between_station_logic_spec in Hok.
    injection Hok as Hok. unfold between_station_outcome in Hok.
    destruct (no_direct_found text);
      [exfalso; exact (failure_not_success _ _ _ _ Hok)|].
    destruct (in_list _ _);
      [exfalso; exact (failure_not_success _ _ _ _ Hok)|].
    destruct (negb (nonempty_list (drop_empty _)));
      [exfalso; exact (failure_not_success _ _ _ _ Hok)|].
    destruct (train_records text) eqn:Hrec;
      [exfalso; exact (failure_not_success _ _ _ _ Hok)|].
    apply success_inj in Hok. split; [congruence | discriminate].
  - reflexivity.
  - reflexivity.
  - intros soup Hnone.
    destruct (live_station_logic_spec now soup) as [Hbody Hlogic].
    rewrite Hbody, Hlogic, Hnone. split; reflexivity.
Qed.

Lemma empty_result_policy_witness :
  (exists msg,
     between_station_logic 1700000000000 (lit "x~^too~short")
     = Ret (failure 1700000000000 msg)) /\
  live_station_logic 1700000000000 empty_page
  = Ret (success 1700000000000 (VList [])).
Proof.
  destruct (@empty_result_policy _ _ dom_soup 1700000000000)
    as [Hnone [_ [_ [_ Hlive]]]].
  split.
  - apply Hnone. reflexivity.
  - apply Hlive. reflexivity.
Defined.

(** * The embedded-JSON extractor *)

Lemma strip_prefix_some (p t r : str) :
  strip_prefix p t = Some r <-> t = p ++ r.
Proof.
  unfold strip_prefix. split.
  - destruct (startswith p t) eqn:Hp; [|discriminate].
    intros E; injection E as <-. apply startswith_split, Hp.
  - intros ->. rewrite startswith_app. f_equal.
    rewrite skipn_app, skipn_all, Nat.sub_diag. reflexivity.
Qed.

Lemma lstrip_spaces (ws r : str) : all_space ws -> lstrip (ws ++ r) = lstrip r.
Proof.
  induction 1 as [|c ws Hc _ IH]; [reflexivity|].
  simpl. rewrite Hc. exact IH.
Qed.

Lemma lstrip_split (t : str) : exists ws, all_space ws /\ t = ws ++ lstrip t.
Proof.
  induction t as [|c t [ws [Hws Ht]]].
  - exists []. split; [constructor | reflexivity].
  - simpl. destruct (is_space c) eqn:Hc.
    + exists (c :: ws). split; [constructor; assumption|].
      simpl. f_equal. exact Ht.
    + exists []. split; [constructor | reflexivity].
Qed.

Lemma re_match_open_sound (t t3 : str) :
  re_match_open t = Some t3 ->
  exists ws1 ws2,
    all_space ws1 /\ all_space ws2 /\
    t = lit "data" ++ ws1 ++ lit "=" ++ ws2 ++ lit "{" ++ t3.
Proof.
  unfold re_match_open.
  destruct (strip_prefix (lit "data") t) as [t1|] eqn:H1; [|discriminate].
  destruct (strip_prefix (lit "=") (lstrip t1)) as [t2|] eqn:H2;
    [|discriminate].
  intros H3.
  apply strip_prefix_some in H1, H2, H3.
  destruct (lstrip_split t1) as [ws1 [Hws1 E1]].
  destruct (lstrip_split t2) as [ws2 [Hws2 E2]].
  exists ws1, ws2. split; [assumption|]. split; [assumption|].
  rewrite H1, E1, H2, E2, H3. reflexivity.
Qed.

Lemma re_match_open_complete (ws1 ws2 t3 : str) :
  all_space ws1 -> all_space ws2 ->
  re_match_open (lit "data" ++ ws1 ++ lit "=" ++ ws2 ++ lit "{" ++ t3)
  = Some t3.
Proof.
  intros Hws1 Hws2. unfold re_match_open.
  rewrite (proj2 (strip_prefix_some (lit "data") _ _) eq_refl).
  rewrite lstrip_spaces by assumption.
  change (lstrip (lit "=" ++ ws2 ++ lit "{" ++ t3))
    with (lit "=" ++ ws2 ++ lit "{" ++ t3).
  rewrite (proj2 (strip_prefix_some (lit "=") _ _) eq_refl).
  rewrite lstrip_spaces by assumption.
  change (lstrip (lit "{" ++ t3)) with (lit "{" ++ t3).
  apply strip_prefix_some. reflexivity.
Qed.

(** A pattern occurrence at the very start of [t], through
    [re_match_open]. *)
Lemma pattern_at_start (t group rest : str) :
  pattern_at t [] group rest <->
  exists body, re_match_open t = Some (body ++ lit "};" ++ rest) /\
               group = lit "{" ++ body ++ lit "}".
Proof.
  unfold pattern_at. split.
  - intros [ws1 [ws2 [body [H1 [H2 [Hg Ht]]]]]].
    exists body. split; [|exact Hg].
    rewrite Ht. apply (re_match_open_complete ws1 ws2 _ H1 H2).
  - intros [body [Hopen Hg]].
    apply re_match_open_sound in Hopen.
    destruct Hopen as [ws1 [ws2 [H1 [H2 Ht]]]].
    exists ws1, ws2, body. auto.
Qed.

Lemma pattern_at_cons (x : char) (t pre group rest : str) :
  pattern_at (x :: t) (x :: pre) group rest <-> pattern_at t pre group rest.
Proof.
  unfold pattern_at. split; intros [ws1 [ws2 [body [H1 [H2 [Hg Ht]]]]]];
    exists ws1, ws2, body; repeat split; try assumption.
  - simpl in Ht. injection Ht; auto.
  - rewrite Ht. reflexivity.
Qed.

Lemma pattern_at_head (x : char) (t pre group rest : str) :
  pattern_at (x :: t) pre group rest ->
  pre = [] \/ exists pre', pre = x :: pre' /\ pattern_at t pre' group rest.
Proof.
  destruct pre as [|y pre]; [auto|]. intros Hp. right.
  assert (y = x).
  { destruct Hp as [ws1 [ws2 [body [_ [_ [_ Ht]]]]]].
    simpl in Ht. injection Ht; auto. }
  subst y. exists pre. split; [reflexivity|].
  apply pattern_at_cons in Hp. exact Hp.
Qed.

Lemma pattern_at_nil (pre group rest : str) : ~ pattern_at [] pre group rest.
Proof.
  intros [ws1 [ws2 [body [_ [_ [_ Ht]]]]]].
  destruct pre; discriminate.
Qed.

Lemma re_match_here_some (t g : str) :
  re_match_here t = Some g ->
  exists rest,
    pattern_at t [] g rest /\
    forall g' rest', pattern_at t [] g' rest' ->
                     List.length g <= List.length g'.
Proof.
  unfold re_match_here.
  destruct (re_match_open t) as [t3|] eqn:Hopen; [|discriminate].
  destruct (partition (lit "};") t3) as [[body rest]|] eqn:Hq; [|discriminate].
  intros E; injection E as <-.
  pose proof (partition_some _ _ _ _ Hq) as Ht3.
  exists rest. split.
  - apply pattern_at_start. exists body.
    split; [rewrite Hopen, Ht3; reflexivity | reflexivity].
  - intros g' rest' Hp. apply pattern_at_start in Hp.
    destruct Hp as [body' [Hopen' ->]].
    assert (Hle : List.length body <= List.length body').
    { eapply partition_leftmost; [exact Hq|].
      rewrite Hopen in Hopen'. injection Hopen' as ->. reflexivity. }
    change (lit "{") with [123%N]. change (lit "}") with [125%N].
    simpl. rewrite !length_app. simpl. lia.
Qed.

Lemma re_match_here_none (t : str) :
  re_match_here t = None -> forall g rest, ~ pattern_at t [] g rest.
Proof.
  unfold re_match_here. intros Hnone g rest Hp.
  apply pattern_at_start in Hp. destruct Hp as [body [Hopen _]].
  rewrite Hopen in Hnone.
  destruct (partition_occurs (lit "};") body rest) as [b0 [a0 Hq]].
  rewrite Hq in Hnone. discriminate.
Qed.

Lemma re_search_none (t : str) :
  re_search t = None -> ~ pattern_occurs t.
Proof.
  induction t as [|x t IH]; simpl.
  - intros _ [pre [g [rest Hp]]]. exact (pattern_at_nil _ _ _ Hp).
  - destruct (re_match_here (x :: t)) eqn:Hhere; [discriminate|].
    intros Hs [pre [g [rest Hp]]].
    destruct (pattern_at_head _ _ _ _ _ Hp) as [-> | [pre' [-> Hp']]].
    + exact (re_match_here_none _ Hhere _ _ Hp).
    + apply (IH Hs). exists pre', g, rest. exact Hp'.
Qed.

Lemma re_search_some (t g : str) :
  re_search t = Some g -> first_match t g.
Proof.
  revert g; induction t as [|x t IH]; intros g; simpl.
  - change (re_match_here []) with (@None str). discriminate.
  - destruct (re_match_here (x :: t)) as [g0|] eqn:Hhere.
    + intros E; injection E as ->.
      destruct (re_match_here_some _ _ Hhere) as [rest [Hp Hmin]].
      exists [], rest. split; [exact Hp|].
      intros pre' g' rest' Hp'. split; [simpl; lia|].
      intros Hlen. destruct pre'; [|discriminate]. eapply Hmin, Hp'.
    + intros Hs. destruct (IH g Hs) as [pre [rest [Hp Hmin]]].
      exists (x :: pre), rest. split; [apply pattern_at_cons, Hp|].
      intros pre' g' rest' Hp'.
      destruct (pattern_at_head _ _ _ _ _ Hp') as [-> | [pre'' [-> Hp'']]].
      * exfalso. exact (re_match_here_none _ Hhere _ _ Hp').
      * destruct (Hmin _ _ _ Hp'') as [Hle Hg]. simpl. split; [lia|].
        intros Hlen. apply Hg. lia.
Qed.

Lemma app_same_length {A} (a b c d : list A) :
  a ++ b = c ++ d -> List.length a = List.length c -> a = c /\ b = d.
Proof.
  revert c; induction a as [|x a IH]; intros [|y c] E Hlen;
    simpl in *; try discriminate; [auto|].
  injection E as -> E. destruct (IH c E) as [-> ->]; [lia | auto].
Qed.

(** The reported match is unique. *)
Lemma first_match_unique (t g g' : str) :
  first_match t g -> first_match t g' -> g = g'.
Proof.
  intros [pre [rest [Hp Hmin]]] [pre' [rest' [Hp' Hmin']]].
  destruct (Hmin _ _ _ Hp') as [Hle Hg].
  destruct (Hmin' _ _ _ Hp) as [Hle' Hg'].
  assert (Hpre : List.length pre = List.length pre') by lia.
  assert (Hlen : List.length g = List.length g').
  { apply Nat.le_antisymm; [apply Hg | apply Hg']; lia. }
  destruct Hp as [ws1 [ws2 [body [H1 [H2 [-> Ht]]]]]].
  destruct Hp' as [ws1' [ws2' [body' [H1' [H2' [-> Ht']]]]]].
  rewrite Ht in Ht'.
  destruct (app_same_length _ _ _ _ Ht' Hpre) as [_ Htail].
  assert (Hopen : Some (body ++ lit "};" ++ rest)
                  = Some (body' ++ lit "};" ++ rest')).
  { rewrite <- (re_match_open_complete ws1 ws2 _ H1 H2).
    rewrite <- (re_match_open_complete ws1' ws2' _ H1' H2').
    rewrite Htail. reflexivity. }
  injection Hopen as Hbody.
  change (lit "{") with [123%N] in Hlen. change (lit "}") with [125%N] in Hlen.
  simpl in Hlen. rewrite !length_app in Hlen. simpl in Hlen.
  destruct (app_same_length _ _ _ _ Hbody) as [-> _]; [lia | reflexivity].
Qed.

Lemma re_search_first_match (t g : str) :
  re_search t = Some g <-> first_match t g.
Proof.
  split; [apply re_search_some|].
  intros Hfm. destruct (re_search t) as [g0|] eqn:Hs.
  - f_equal. eapply first_match_unique; [apply re_search_some, Hs | exact Hfm].
  - exfalso. apply (re_search_none _ Hs).
    destruct Hfm as [pre [rest [Hp _]]]. exists pre, g, rest. exact Hp.
Qed.

Lemma issubclass_JSONDecodeError (c : exc_class) :
  issubclass c JSONDecodeError = true <-> c = JSONDecodeError.
Proof. destruct c; split; (reflexivity || discriminate). Qed.

(** C7 as stated, that a match whose body is no valid JSON is answered
    with the failed-to-parse message and never with the parser's own
    error, fails: the body of [oversized_pnr_page] is no JSON, the parser
    raises the [ValueError] of an integer of 4301 digits, and the answer
    carries the text of that error. *)
Lemma parser_error_text_counterexample :
  ~ (forall group e,
       first_match oversized_pnr_page group ->
       json_loads_fragment group = Raise e ->
       pnr_status_logic json_loads_fragment 1700000000000 oversized_pnr_page
       = Ret (VDict
           [ (lit "success", VBool false);
             (lit "time_stamp", VInt 1700000000000);
             (lit "data", VStr (lit "Failed to parse PNR data from page."))
           ])).
Proof.
  intros Hclaim.
  specialize (Hclaim (lit "{" ++ [QUOTE] ++ lit "a" ++ [QUOTE] ++ lit ":"
                      ++ repeat 49%N 4301 ++ lit " x}")
                     (digits_limit_error 4301)).
  assert (Hmatch : first_match oversized_pnr_page
                     (lit "{" ++ [QUOTE] ++ lit "a" ++ [QUOTE] ++ lit ":"
                      ++ repeat 49%N 4301 ++ lit " x}"))
    by (apply re_search_first_match; vm_compute; reflexivity).
  assert (Hraise : json_loads_fragment
                     (lit "{" ++ [QUOTE] ++ lit "a" ++ [QUOTE] ++ lit ":"
                      ++ repeat 49%N 4301 ++ lit " x}")
                   = Raise (digits_limit_error 4301))
    by (vm_compute; reflexivity).
  specialize (Hclaim Hmatch Hraise). clear Hmatch Hraise.
  vm_compute in Hclaim. discriminate Hclaim.
Qed.

(** C7, amended.  Without an occurrence of the pattern the extractor fails
    with the could-not-find message.  With an occurrence the body of the
    leftmost, shortest match goes to the parser: when the parser returns,
    the answer is a success whose data is the parsed value as it is; when
    it raises a [JSONDecodeError], the answer is the failed-to-parse
    message, which differs from the could-not-find one; when it raises any
    other exception, the answer is "An error occurred: " followed by the
    text of that exception. *)
Theorem embedded_json_extracted
  (json_loads : str -> result value) (now : Z) (html : str) :
  (~ pattern_occurs html ->
   pnr_status_logic json_loads now html
   = Ret (VDict [ (lit "success", VBool false);
                  (lit "time_stamp", VInt now);
                  (lit "data",
                   VStr (lit "Could not find PNR data in the page.")) ])) /\
  (pattern_occurs html -> exists group, first_match html group) /\
  (forall group,
     first_match html group ->
     (forall parsed_data,
        json_loads group = Ret parsed_data ->
        pnr_status_logic json_loads now html
        = Ret (VDict [ (lit "success", VBool true);
                       (lit "time_stamp", VInt now);
                       (lit "data", parsed_data) ])) /\
     (forall e,
        json_loads group = Raise e -> exc_class_of e = JSONDecodeError ->
        pnr_status_logic json_loads now html
        = Ret (VDict [ (lit "success", VBool false);
                       (lit "time_stamp", VInt now);
                       (lit "data",
                        VStr (lit "Failed to parse PNR data from page.")) ]))
     /\
     (forall e,
        json_loads group = Raise e -> exc_class_of e <> JSONDecodeError ->
        pnr_status_logic json_loads now html
        = Ret (VDict [ (lit "success", VBool false);
                       (lit "time_stamp", VInt now);
                       (lit "data",
                        VStr (lit "An error occurred: " ++ exc_msg e)) ]))) /\
  lit "Failed to parse PNR data from page."
  <> lit "Could not find PNR data in the page.".
Proof.
  unfold pnr_status_logic, pnr_status_body.
  split; [|split; [|split]].
  - intros Hno. destruct (re_search html) as [g|] eqn:Hs; [|reflexivity].
    exfalso. apply Hno. apply re_search_some in Hs.
    destruct Hs as [pre [rest [Hp _]]]. exists pre, g, rest. exact Hp.
  - intros Hocc. destruct (re_search html) as [g|] eqn:Hs.
    + exists g. apply re_search_some, Hs.
    + exfalso. exact (re_search_none _ Hs Hocc).
  - intros group Hfm. apply re_search_first_match in Hfm. rewrite Hfm.
    split; [|split].
    + intros v ->. reflexivity.
    + intros e -> Hcls. cbn [bind try_except2]. rewrite Hcls. reflexivity.
    + intros e -> Hcls. cbn [bind try_except2].
      destruct (issubclass (exc_class_of e) JSONDecodeError) eqn:Hsub.
      * apply issubclass_JSONDecodeError in Hsub. contradiction.
      * destruct (exc_class_of e); reflexivity.
  - discriminate.
Qed.

Lemma embedded_json_extracted_witness :
  pnr_status_logic json_loads_fragment 1700000000000 sample_pnr_page
  = Ret (VDict [ (lit "success", VBool true);
                 (lit "time_stamp", VInt 1700000000000);
                 (lit "data", VDict [(lit "a", VInt 1)]) ]) /\
  pnr_status_logic json_loads_fragment 1700000000000
    (lit "<script>var data = {a:1};</script>")
  = Ret (VDict [ (lit "success", VBool false);
                 (lit "time_stamp", VInt 1700000000000);
                 (lit "data",
                  VStr (lit "Failed to parse PNR data from page.")) ]) /\
  pnr_status_logic json_loads_fragment 1700000000000 oversized_pnr_page
  = Ret (VDict [ (lit "success", VBool false);
                 (lit "time_stamp", VInt 1700000000000);
                 (lit "data",
                  VStr (lit "An error occurred: "
                        ++ exc_msg (digits_limit_error 4301))) ]) /\
  pnr_status_logic json_loads_fragment 1700000000000
    (lit "<html>No data here</html>")
  = Ret (VDict [ (lit "success", VBool false);
                 (lit "time_stamp", VInt 1700000000000);
                 (lit "data",
                  VStr (lit "Could not find PNR data in the page.")) ]).
Proof.
  split; [|split; [|split]].
  - destruct (embedded_json_extracted json_loads_fragment 1700000000000
                sample_pnr_page) as [_ [_ [Hmatch _]]].
    apply (Hmatch (lit "{" ++ [QUOTE] ++ lit "a" ++ [QUOTE] ++ lit ":1}")).
    + apply re_search_first_match. vm_compute. reflexivity.
    + vm_compute. reflexivity.
  - destruct (embedded_json_extracted json_loads_fragment 1700000000000
                (lit "<script>var data = {a:1};</script>"))
      as [_ [_ [Hmatch _]]].
    assert (Hfm : first_match (lit "<script>var data = {a:1};</script>")
                    (lit "{a:1}"))
      by (apply re_search_first_match; vm_compute; reflexivity).
    apply (proj1 (proj2 (Hmatch _ Hfm)) expecting_value);
      [vm_compute; reflexivity | reflexivity].
  - destruct (embedded_json_extracted json_loads_fragment 1700000000000
                oversized_pnr_page) as [_ [_ [Hmatch _]]].
    assert (Hfm : first_match oversized_pnr_page
                    (lit "{" ++ [QUOTE] ++ lit "a" ++ [QUOTE] ++ lit ":"
                     ++ repeat 49%N 4301 ++ lit " x}"))
      by (apply re_search_first_match; vm_compute; reflexivity).
    apply (proj2 (proj2 (Hmatch _ Hfm)) (digits_limit_error 4301));
      [vm_compute; reflexivity | vm_compute; discriminate].
  - apply (embedded_json_extracted json_loads_fragment 1700000000000
             (lit "<html>No data here</html>")).
    apply re_search_none. vm_compute. reflexivity.
Defined.

(** * The day index *)

Lemma weekday_range (dt : date) : (0 <= weekday dt < 7)%Z.
Proof. unfold weekday. apply Z.mod_pos_bound. lia. Qed.

Lemma valid_date_fits (y m d : Z) :
  valid_date y m d = true ->
  fits_c_int y && fits_c_int m && fits_c_int d = true.
Proof.
  unfold valid_date, fits_c_int, days_in_month, MINYEAR, MAXYEAR,
    INT_MIN, INT_MAX.
  rewrite !andb_true_iff, !Z.leb_le.
  intros [[[[[H1 H2] H3] H4] H5] H6].
  assert (d <= 31)%Z.
  { destruct (m =? 2)%Z; [destruct (is_leap y)|destruct (_ || _)%bool]; lia. }
  lia.
Qed.

Lemma c_int_fits (z : Z) : fits_c_int z = true -> c_int z = Ret z.
Proof.
  unfold fits_c_int, c_int, INT_MIN, INT_MAX, LONG_MIN, LONG_MAX.
  rewrite andb_true_iff, !Z.leb_le. intros [Hlo Hhi].
  destruct ((-9223372036854775808 <=? z) && (z <=? 9223372036854775807))%Z
    eqn:Hlong.
  - cbn [negb]. destruct (2147483647 <? z)%Z eqn:H1; [lia|].
    destruct (z <? -2147483648)%Z eqn:H2; [lia | reflexivity].
  - rewrite andb_false_iff, !Z.leb_gt in Hlong. lia.
Qed.

Lemma c_int_overflow (z : Z) :
  fits_c_int z = false ->
  exists e, c_int z = Raise e /\ exc_class_of e = OverflowError.
Proof.
  unfold fits_c_int, c_int, INT_MIN, INT_MAX.
  rewrite andb_false_iff, !Z.leb_gt. intros Hout.
  destruct (negb _); [eexists; split; reflexivity|].
  destruct (2147483647 <? z)%Z eqn:H1; [eexists; split; reflexivity|].
  destruct (z <? -2147483648)%Z eqn:H2; [eexists; split; reflexivity|].
  lia.
Qed.

Lemma datetime_valid (y m d : Z) :
  valid_date y m d = true -> datetime y m d = Ret (mkDate y m d).
Proof.
  intros Hv. unfold datetime.
  pose proof (valid_date_fits _ _ _ Hv) as Hfit.
  rewrite !andb_true_iff in Hfit. destruct Hfit as [[Fy Fm] Fd].
  rewrite (c_int_fits _ Fy), (c_int_fits _ Fm), (c_int_fits _ Fd).
  cbn [bind].
  unfold valid_date in Hv. rewrite !andb_true_iff in Hv.
  destruct Hv as [[[[[H1 H2] H3] H4] H5] H6].
  rewrite H1, H2, H3, H4, H5, H6. reflexivity.
Qed.

Lemma datetime_invalid (y m d : Z) :
  fits_c_int y && fits_c_int m && fits_c_int d = true ->
  valid_date y m d = false ->
  exists e, datetime y m d = Raise e /\ exc_class_of e = ValueError.
Proof.
  intros Hfit Hv. unfold datetime.
  rewrite !andb_true_iff in Hfit. destruct Hfit as [[Fy Fm] Fd].
  rewrite (c_int_fits _ Fy), (c_int_fits _ Fm), (c_int_fits _ Fd).
  cbn [bind]. unfold valid_date in Hv.
  destruct ((MINYEAR <=? y) && (y <=? MAXYEAR))%Z%bool eqn:Hyr; cbn [negb];
    [|eexists; split; reflexivity].
  destruct ((1 <=? m) && (m <=? 12))%Z%bool eqn:Hm; cbn [negb];
    [|eexists; split; reflexivity].
  destruct ((1 <=? d) && (d <=? days_in_month y m))%Z%bool eqn:Hd;
    cbn [negb]; [|eexists; split; reflexivity].
  exfalso. cbn [andb] in Hv. rewrite Hm in Hv. cbn [andb] in Hv.
  rewrite Hd in Hv. discriminate.
Qed.

Lemma datetime_overflow (y m d : Z) :
  fits_c_int y && fits_c_int m && fits_c_int d = false ->
  exists e, datetime y m d = Raise e /\ exc_class_of e = OverflowError.
Proof.
  intros Hfit. unfold datetime.
  destruct (fits_c_int y) eqn:Fy.
  - rewrite (c_int_fits _ Fy). cbn [bind].
    destruct (fits_c_int m) eqn:Fm.
    + rewrite (c_int_fits _ Fm). cbn [bind].
      destruct (fits_c_int d) eqn:Fd; [discriminate|].
      destruct (c_int_overflow _ Fd) as [e [-> Hcls]].
      exists e. split; [reflexivity | exact Hcls].
    + destruct (c_int_overflow _ Fm) as [e [-> Hcls]].
      exists e. split; [reflexivity | exact Hcls].
  - destruct (c_int_overflow _ Fy) as [e [-> Hcls]].
    exists e. split; [reflexivity | exact Hcls].
Qed.

Lemma int_unsigned_raises_value_error (t : str) (e : exception) :
  int_unsigned t = Raise e -> exc_class_of e = ValueError.
Proof.
  unfold int_unsigned.
  destruct t as [|d t]; [intros E; injection E as <-; reflexivity|].
  destruct (is_ascii_digit d);
    [|intros E; injection E as <-; reflexivity].
  destruct (int_digits t (digit_value d) 1) as [[[z digits] rest]|];
    [|intros E; injection E as <-; reflexivity].
  destruct (int_max_str_digits <? digits)%N;
    [intros E; injection E as <-; reflexivity|].
  destruct (forallb is_c_space rest);
    [discriminate | intros E; injection E as <-; reflexivity].
Qed.

Lemma int_raises_value_error (ud : char -> option N) (s : str) (e : exception) :
  int ud s = Raise e -> exc_class_of e = ValueError.
Proof.
  unfold int. destruct (skip_c_space _) as [|c t];
    [intros E; injection E as <-; reflexivity|].
  destruct (c =? 43)%N; [apply int_unsigned_raises_value_error|].
  destruct (c =? 45)%N; [|apply int_unsigned_raises_value_error].
  destruct (int_unsigned t) as [z|e'] eqn:Hu; [discriminate|].
  cbn [bind]. intros E; injection E as <-.
  apply (int_unsigned_raises_value_error _ _ Hu).
Qed.

Section DayOnDateFacts.
Variable unicode_decimal : char -> option N.
Variables dd_str mm_str yyyy_str : str.
Variables d m y : Z.
Hypothesis Hd : int unicode_decimal dd_str = Ret d.
Hypothesis Hm : int unicode_decimal mm_str = Ret m.
Hypothesis Hy : int unicode_decimal yyyy_str = Ret y.

(** On a valid calendar date the answer is the Monday-based weekday moved
    by five places. *)
Lemma day_index_valid :
  valid_date y m d = true ->
  get_day_on_date_logic unicode_decimal dd_str mm_str yyyy_str
  = Ret ((weekday (mkDate y m d) + 5) mod 7)%Z.
Proof.
  intros Hv. unfold get_day_on_date_logic, get_day_on_date_body.
  rewrite Hd, Hm, Hy. cbn [bind]. rewrite (datetime_valid _ _ _ Hv).
  reflexivity.
Qed.

(** An invalid date whose components fit a C [int] gives -1. *)
Lemma day_index_invalid :
  fits_c_int y && fits_c_int m && fits_c_int d = true ->
  valid_date y m d = false ->
  get_day_on_date_logic unicode_decimal dd_str mm_str yyyy_str = Ret (-1)%Z.
Proof.
  intros Hfit Hv. unfold get_day_on_date_logic, get_day_on_date_body.
  rewrite Hd, Hm, Hy. cbn [bind].
  destruct (datetime_invalid _ _ _ Hfit Hv) as [e [-> Hcls]].
  cbn [bind try_except]. rewrite Hcls. reflexivity.
Qed.

(** A component outside the range of a C [int] makes the exception leave
    the function. *)
Lemma day_index_overflow :
  fits_c_int y && fits_c_int m && fits_c_int d = false ->
  exists e,
    get_day_on_date_logic unicode_decimal dd_str mm_str yyyy_str = Raise e /\
    exc_class_of e = OverflowError.
Proof.
  intros Hfit. unfold get_day_on_date_logic, get_day_on_date_body.
  rewrite Hd, Hm, Hy. cbn [bind].
  destruct (datetime_overflow _ _ _ Hfit) as [e [-> Hcls]].
  cbn [bind try_except]. rewrite Hcls. exists e.
  split; [reflexivity | exact Hcls].
Qed.
End DayOnDateFacts.

(** Whatever is returned is -1 or an index from 0 to 6. *)
Lemma day_index_range (ud : char -> option N) (dd mm yyyy : str) (r : Z) :
  get_day_on_date_logic ud dd mm yyyy = Ret r ->
  (r = -1 \/ 0 <= r <= 6)%Z.
Proof.
  unfold get_day_on_date_logic, get_day_on_date_body, try_except.
  destruct (int ud dd) as [d|e] eqn:Hd; cbn [bind].
  2:{ rewrite (int_raises_value_error _ _ _ Hd). cbn.
      intros E; injection E; auto. }
  destruct (int ud mm) as [m|e] eqn:Hm; cbn [bind].
  2:{ rewrite (int_raises_value_error _ _ _ Hm). cbn.
      intros E; injection E; auto. }
  destruct (int ud yyyy) as [y|e] eqn:Hy; cbn [bind].
  2:{ rewrite (int_raises_value_error _ _ _ Hy). cbn.
      intros E; injection E; auto. }
  destruct (datetime y m d) as [dt|e]; cbn [bind].
  - intros E; injection E as <-. right.
    pose proof (Z.mod_pos_bound (weekday dt + 5) 7). lia.
  - destruct (issubclass _ _); [|discriminate].
    intros E; injection E; auto.
Qed.

Example day_index_examples (ud : char -> option N) :
  get_day_on_date_logic ud (lit "1") (lit "1") (lit "2024") = Ret 5%Z /\
  get_day_on_date_logic ud (lit "3") (lit "1") (lit "2024") = Ret 0%Z /\
  get_day_on_date_logic ud (lit "31") (lit "2") (lit "2024") = Ret (-1)%Z.
Proof. repeat split; vm_compute; reflexivity. Qed.

(** C5.  The day index of day 1, month 1, year 2147483648: the date is
    invalid and the specification asks for -1, but [datetime] raises
    [OverflowError], which [except ValueError] does not catch, so the
    exception leaves [get_day_on_date_logic] and no index is returned. *)
Theorem day_index_overflow_escapes (unicode_decimal : char -> option N) :
  get_day_on_date_logic unicode_decimal
    (lit "1") (lit "1") (lit "2147483648")
  = Raise (mkExc OverflowError (lit "signed integer is greater than maximum")).
Proof. vm_compute. reflexivity. Qed.

(** [ymd_to_ord] counts days: it grows by one from a day to the next, over
    the end of a month and over the end of a year; with Monday 1 January
    2024 as anchor, [weekday] is the weekday of the calendar. *)
Lemma ymd_to_ord_next_day (y m d : Z) :
  ymd_to_ord y m (d + 1) = (ymd_to_ord y m d + 1)%Z.
Proof. unfold ymd_to_ord. lia. Qed.

Lemma days_before_next_month (y m : Z) :
  (1 <= m < 12)%Z ->
  days_before_month y (m + 1)
  = (days_before_month y m + days_in_month y m)%Z.
Proof.
  intros Hm. unfold days_before_month, days_in_month.
  assert (Hcases : (m = 1 \/ m = 2 \/ m = 3 \/ m = 4 \/ m = 5 \/ m = 6 \/
                    m = 7 \/ m = 8 \/ m = 9 \/ m = 10 \/ m = 11)%Z) by lia.
  destruct (is_leap y);
    repeat (destruct Hcases as [-> | Hcases]; [reflexivity|]);
    subst m; reflexivity.
Qed.

Lemma ymd_to_ord_next_month (y m : Z) :
  (1 <= m < 12)%Z ->
  ymd_to_ord y (m + 1) 1 = (ymd_to_ord y m (days_in_month y m) + 1)%Z.
Proof.
  intros Hm. unfold ymd_to_ord. rewrite (days_before_next_month y m Hm). lia.
Qed.

Lemma is_leap_days (y : Z) :
  (y / 4 - y / 100 + y / 400
   = (y - 1) / 4 - (y - 1) / 100 + (y - 1) / 400
     + (if is_leap y then 1 else 0))%Z.
Proof.
  unfold is_leap.
  destruct (y mod 4 =? 0)%Z eqn:H4; destruct (y mod 100 =? 0)%Z eqn:H100;
    destruct (y mod 400 =? 0)%Z eqn:H400; cbn [andb orb negb];
    rewrite ?Z.eqb_eq, ?Z.eqb_neq in *;
    Z.div_mod_to_equations; lia.
Qed.

Lemma ymd_to_ord_next_year (y : Z) :
  ymd_to_ord (y + 1) 1 1 = (ymd_to_ord y 12 31 + 1)%Z.
Proof.
  unfold ymd_to_ord, days_before_year, days_before_month.
  replace (y + 1 - 1)%Z with y by lia.
  pose proof (is_leap_days y) as Hleap.
  change (nth (Z.to_nat 1) days_before_month_table 0%Z) with 0%Z.
  change (nth (Z.to_nat 12) days_before_month_table 0%Z) with 334%Z.
  change (2 <? 1)%Z with false. change (2 <? 12)%Z with true.
  cbn [andb]. destruct (is_leap y); lia.
Qed.

Lemma weekday_next (y m d y' m' d' : Z) :
  ymd_to_ord y' m' d' = (ymd_to_ord y m d + 1)%Z ->
  weekday (mkDate y' m' d') = ((weekday (mkDate y m d) + 1) mod 7)%Z.
Proof.
  unfold weekday. cbn [year month day]. intros ->.
  rewrite Zplus_mod_idemp_l. f_equal. lia.
Qed.

Example weekday_anchor : weekday (mkDate 2024 1 1) = 0%Z.
Proof. reflexivity. Qed.

(** * Envelopes *)

Lemma issubclass_Exception (c : exc_class) : issubclass c Exception = true.
Proof. destruct c; reflexivity. Qed.

Lemma failure_is_envelope (now : Z) (shape : value -> Prop) (msg : str) :
  is_envelope now shape (failure now msg).
Proof.
  exists false, (VStr msg). split; [reflexivity|].
  split; [intros _; exists msg; reflexivity | discriminate].
Qed.

Lemma success_is_envelope (now : Z) (shape : value -> Prop) (data : value) :
  shape data -> is_envelope now shape (success now data).
Proof.
  intros Hshape. exists true, data. split; [reflexivity|].
  split; [discriminate | intros _; exact Hshape].
Qed.

Lemma str_fields_are_str (l : list str) : Forall is_str (map VStr l).
Proof.
  induction l; constructor; [eexists; reflexivity | assumption].
Qed.

Lemma running_days_of_bits (raw : str) : Forall is_bit (running_days_of raw).
Proof.
  unfold running_days_of. destruct (List.length raw =? 7); [|constructor].
  induction raw as [|c raw IH]; constructor; [|exact IH].
  unfold day_bit, is_bit. destruct (N.eqb c Y); auto.
Qed.

Lemma train_summary_has_shape (fields : list str) :
  14 <= List.length fields ->
  train_summary_shape (VDict (train_summary fields)).
Proof.
  intros Hlen. unfold train_summary.
  exists (combine summary_keys (map VStr (firstn 13 fields))).
  eexists. split; [reflexivity|]. split.
  - do 14 (head_field fields Hlen). split; [reflexivity|].
    repeat constructor; eexists; reflexivity.
  - exists (nth 13 fields []), (running_days_of (nth 13 fields [])).
    split; [reflexivity | apply running_days_of_bits].
Qed.

Lemma train_records_have_shape (text : str) :
  train_list_shape (VList (train_records text)).
Proof.
  exists (train_records text). split; [reflexivity|].
  unfold train_records. apply Forall_flat_map, Forall_forall.
  intros segment _. unfold train_record.
  destruct (usable_fields segment) as [fields|] eqn:Hu; [|constructor].
  apply usable_fields_iff in Hu. destruct Hu as [_ [_ [_ [_ Hlen]]]].
  constructor; [|constructor].
  exists (train_summary fields). split; [reflexivity|].
  apply train_summary_has_shape, Hlen.
Qed.

Lemma train_detail_has_shape (fields partB : list str) :
  train_detail_shape (VDict (train_detail fields partB)).
Proof.
  unfold train_detail.
  exists [ (lit "train_no", VStr (remove_char CARET_CHAR (nth 0 fields [])));
           (lit "train_name", VStr (nth 1 fields []));
           (lit "from_stn_name", VStr (nth 2 fields []));
           (lit "from_stn_code", VStr (nth 3 fields []));
           (lit "to_stn_name", VStr (nth 4 fields []));
           (lit "to_stn_code", VStr (nth 5 fields []));
           (lit "from_time", VStr (nth 10 fields []));
           (lit "to_time", VStr (nth 11 fields []));
           (lit "travel_time", VStr (nth 12 fields [])) ].
  exists [ (lit "running_days_str", VStr (nth 13 fields []));
           (lit "running_days", VList (running_days_of (nth 13 fields []))) ].
  eexists. split; [reflexivity|].
  split; [|split].
  - split; [reflexivity|]. repeat constructor; eexists; reflexivity.
  - do 2 eexists. split; [reflexivity | apply running_days_of_bits].
  - split; [reflexivity|]. repeat constructor; eexists; reflexivity.
Qed.

Lemma route_stops_have_shape (text : str) :
  route_list_shape (VList (route_stops text)).
Proof.
  exists (route_stops text). split; [reflexivity|].
  unfold route_stops. apply Forall_map, Forall_forall. intros fields _.
  eexists. split; [reflexivity|]. split; [reflexivity|].
  repeat constructor; eexists; reflexivity.
Qed.

Lemma live_entries_have_shape
  {Document Tag : Type} {bs : Soup Document Tag} (items : list Tag) :
  live_list_shape (VList (map (fun item => VDict (live_entry item)) items)).
Proof.
  eexists. split; [reflexivity|].
  apply Forall_map, Forall_forall. intros item _.
  eexists. split; [reflexivity|]. split; [reflexivity|].
  repeat constructor; eexists; reflexivity.
Qed.

(** C9.  Each of the five decoders returns for every input, nothing is
    raised past it, and what it returns is a dict with the keys [success],
    [time_stamp] and [data], in which [data] is a string when [success] is
    false and has the shape the decoder declares when [success] is true. *)
Theorem decoders_boundary_safe
  {Document Tag : Type} {bs : Soup Document Tag}
  (unicode_isdigit : char -> bool) (json_loads : str -> result value)
  (now : Z) (text : str) (soup : Document) :
  returns_envelope now train_list_shape (between_station_logic now text) /\
  returns_envelope now train_detail_shape
    (check_train_logic unicode_isdigit now text) /\
  returns_envelope now route_list_shape (get_route_logic now text) /\
  returns_envelope now live_list_shape (live_station_logic now soup) /\
  returns_envelope now (fun _ => True) (pnr_status_logic json_loads now text).
Proof.
  split; [|split; [|split; [|split]]].
  - rewrite between_station_logic_spec. eexists. split; [reflexivity|].
    unfold between_station_outcome.
    repeat match goal with
           | |- is_envelope _ _ (if ?c then _ else _) => destruct c
           end; try apply failure_is_envelope.
    apply success_is_envelope, train_records_have_shape.
  - rewrite check_train_logic_spec. eexists. split; [reflexivity|].
    unfold check_train_outcome.
    repeat match goal with
           | |- is_envelope _ _ (if ?c then _ else _) => destruct c
           end; try apply failure_is_envelope.
    apply success_is_envelope, train_detail_has_shape.
  - unfold get_route_logic. rewrite get_route_body_spec. cbn [try_except].
    eexists. split; [reflexivity|].
    repeat match goal with
           | |- is_envelope _ _ (if ?c then _ else _) => destruct c
           end; try apply failure_is_envelope.
    apply success_is_envelope, route_stops_have_shape.
  - destruct (live_station_logic_spec now soup) as [_ ->].
    eexists. split; [reflexivity|].
    apply success_is_envelope, live_entries_have_shape.
  - unfold pnr_status_logic, pnr_status_body.
    destruct (re_search text) as [g|].
    + destruct (json_loads g) as [v|e]; cbn [bind try_except2].
      * eexists. split; [reflexivity|].
        apply success_is_envelope. exact I.
      * rewrite issubclass_Exception.
        destruct (issubclass _ JSONDecodeError);
          (eexists; split; [reflexivity | apply failure_is_envelope]).
    + eexists. split; [reflexivity | apply failure_is_envelope].
Qed.

(** * Further properties of the train-list decoder *)

Lemma Ret_inj {A} (a b : A) : Ret a = Ret b -> a = b.
Proof. intros E; injection E; auto. Qed.

Lemma failure_inj (now now' : Z) (msg msg' : str) :
  failure now msg = failure now' msg' -> msg = msg'.
Proof. unfold failure, envelope. simpl. intros E; injection E; auto. Qed.

Lemma success_not_failure (now now' : Z) (msg : str) (data : value) :
  success now data <> failure now' msg.
Proof. unfold failure, success, envelope. simpl. discriminate. Qed.

(** X1.  When field 5 of the first segment, cut at the first [<], reads
    "No direct trains found", the train-list decoder fails with exactly
    that message, whatever records the rest of the text carries. *)
Theorem no_direct_trains_reported (now : Z) (text p5 : str) :
  nth_error (split TILDE (first_segment text)) 5 = Some p5 ->
  hd [] (split (lit "<") p5) = lit "No direct trains found" ->
  between_station_logic now text
  = Ret (failure now (lit "No direct trains found")).
Proof.
  intros H5 Hmsg. rewrite between_station_logic_spec.
  unfold between_station_outcome.
  rewrite no_direct_found_fields, H5, Hmsg. reflexivity.
Qed.

Lemma no_direct_trains_reported_witness :
  between_station_logic 1700000000000 sample_no_direct
  = Ret (failure 1700000000000 (lit "No direct trains found")) /\
  train_records sample_no_direct <> [].
Proof.
  split.
  - apply (no_direct_trains_reported 1700000000000 sample_no_direct
             (lit "No direct trains found<br>Try")); reflexivity.
  - discriminate.
Defined.

(** X2.  The body of the train-list decoder never raises, and a failure
    carries one of six messages; the messages "No train data could be
    parsed." and "An error occurred during data processing" are never
    produced. *)
Theorem between_station_failure_messages (now : Z) (text : str) :
  (exists v, between_station_body now text = Ret v) /\
  forall msg,
    between_station_logic now text = Ret (failure now msg) ->
    In msg [ lit "No direct trains found";
             lit "Please try again after some time.";
             lit "From station not found";
             lit "To station not found";
             lit "Unknown error or empty response from API.";
             lit "No direct trains found or data format issue." ].
Proof.
  split; [rewrite between_station_body_spec; eauto|].
  intros msg. rewrite between_station_logic_spec.
  intros E. apply Ret_inj in E. revert E. unfold between_station_outcome.
  destruct (no_direct_found text).
  { intros E. apply failure_inj in E. subst msg. simpl; auto. }
  destruct (in_list (first_segment text) potential_error_messages) eqn:Hin.
  { intros E. apply failure_inj in E. subst msg.
    apply in_list_In in Hin. simpl in Hin.
    destruct Hin as [<- | [<- | [<- | []]]]; vm_compute; auto. }
  destruct (negb (nonempty_list (drop_empty _))).
  { intros E. apply failure_inj in E. subst msg. simpl; auto 10. }
  destruct (negb (nonempty_list (train_records text))).
  { intros E. apply failure_inj in E. subst msg. simpl; auto 10. }
  intros E. exfalso. exact (success_not_failure _ _ _ _ E).
Qed.

Lemma between_station_failure_messages_witness :
  In (lit "No direct trains found or data format issue.")
     [ lit "No direct trains found";
       lit "Please try again after some time.";
       lit "From station not found";
       lit "To station not found";
       lit "Unknown error or empty response from API.";
       lit "No direct trains found or data format issue." ].
Proof.
  apply (proj2 (between_station_failure_messages 1700000000000
                  (lit "x~^too~short"))).
  reflexivity.
Defined.

Lemma drop_empty_nil (l : list str) :
  drop_empty l = [] <-> Forall (fun x => x = []) l.
Proof.
  unfold drop_empty. induction l as [|x l IH]; simpl.
  - split; [constructor | reflexivity].
  - destruct x as [|c x]; simpl.
    + rewrite IH. split; [intros Hl; constructor; auto|].
      intros Hl. inversion Hl; assumption.
    + split; [discriminate|]. intros Hl. inversion Hl; discriminate.
Qed.

Lemma join_empties (sep : str) (l : list str) :
  Forall (fun x => x = []) l ->
  join sep l = concat (repeat sep (List.length l - 1)).
Proof.
  induction 1 as [|x l Hx Hl IH]; [reflexivity|].
  subst x. destruct l as [|y l]; [reflexivity|].
  change (join sep ([] :: y :: l)) with (sep ++ join sep (y :: l)).
  rewrite IH. simpl. rewrite Nat.sub_0_r. reflexivity.
Qed.

Lemma split_sentinels (k : nat) :
  split SENTINEL (concat (repeat SENTINEL k)) = repeat [] (S k).
Proof.
  induction k as [|k IH]; [reflexivity|].
  rewrite split_unfold by discriminate.
  change (concat (repeat SENTINEL (S k)))
    with (SENTINEL ++ concat (repeat SENTINEL k)).
  assert (Hq : partition SENTINEL (SENTINEL ++ concat (repeat SENTINEL k))
               = Some ([], concat (repeat SENTINEL k))).
  { destruct (concat (repeat SENTINEL k)); reflexivity. }
  rewrite Hq, IH. reflexivity.
Qed.

(** X3.  The train-list decoder answers "Unknown error or empty response
    from API." exactly on the texts made of copies of the sentinel and of
    nothing else, the empty text among them. *)
Theorem empty_response_iff (now : Z) (text : str) :
  between_station_logic now text
  = Ret (failure now (lit "Unknown error or empty response from API."))
  <-> exists k, text = concat (repeat SENTINEL k).
Proof.
  rewrite between_station_logic_spec. unfold between_station_outcome. split.
  - intros E. apply Ret_inj in E. revert E.
    destruct (no_direct_found text).
    { intros E. apply failure_inj in E. discriminate. }
    destruct (in_list (first_segment text) potential_error_messages) eqn:Hin.
    { intros E. apply failure_inj in E. exfalso.
      apply in_list_In in Hin. simpl in Hin.
      destruct Hin as [Hs | [Hs | [Hs | []]]]; rewrite <- Hs in E;
        vm_compute in E; discriminate. }
    destruct (drop_empty (split SENTINEL text)) eqn:Hsegs.
    + intros _. apply drop_empty_nil in Hsegs.
      eexists. rewrite <- (join_split SENTINEL text) at 1 by discriminate.
      apply join_empties, Hsegs.
    + cbn [nonempty_list negb].
      destruct (negb (nonempty_list (train_records text))).
      * intros E. apply failure_inj in E. discriminate.
      * intros E. exfalso. exact (success_not_failure _ _ _ _ E).
  - intros [k ->].
    assert (Hfirst : first_segment (concat (repeat SENTINEL k)) = []).
    { unfold first_segment. rewrite split_sentinels. reflexivity. }
    rewrite no_direct_found_fields, Hfirst.
    change (nth_error (split TILDE []) 5) with (@None str).
    change (in_list [] potential_error_messages) with false.
    assert (Hd : drop_empty (split SENTINEL (concat (repeat SENTINEL k)))
                 = []).
    { rewrite split_sentinels. apply drop_empty_nil, Forall_forall.
      intros x Hx. apply repeat_spec in Hx. exact Hx. }
    rewrite Hd. reflexivity.
Qed.

(** * Further properties of the train-detail decoder *)

Lemma split_without_separator (sep t : str) :
  sep <> [] -> (contains sep t = false <-> split sep t = [t]).
Proof.
  intros Hsep. rewrite (split_unfold sep t Hsep). split.
  - intros Hc. destruct (partition sep t) as [[b a]|] eqn:Hq; [|reflexivity].
    exfalso. apply partition_some in Hq.
    assert (contains sep t = true)
      by (apply contains_part_of; exists b, a; exact Hq).
    congruence.
  - destruct (partition sep t) as [[b a]|] eqn:Hq.
    + destruct (split_cons sep a) as [h [tl ->]]. discriminate.
    + intros _. destruct (contains sep t) eqn:Hc; [|reflexivity].
      apply contains_part_of in Hc. destruct Hc as [pre [post E]].
      exfalso. exact (partition_none _ _ Hq _ _ E).
Qed.

Lemma split_with_separator (sep t : str) :
  sep <> [] -> contains sep t = true -> 2 <= List.length (split sep t).
Proof.
  intros Hsep Hc. rewrite (split_unfold sep t Hsep).
  destruct (partition sep t) as [[b a]|] eqn:Hq.
  - destruct (split_cons sep a) as [h [tl ->]]. simpl. lia.
  - apply contains_part_of in Hc. destruct Hc as [pre [post E]].
    exfalso. exact (partition_none _ _ Hq _ _ E).
Qed.

(** X4.  The train-detail decoder answers "Invalid data format for train
    details." exactly when the text holds no sentinel and is not one of
    the two upstream error messages. *)
Theorem invalid_format_iff
  (unicode_isdigit : char -> bool) (now : Z) (text : str) :
  check_train_logic unicode_isdigit now text
  = Ret (failure now (lit "Invalid data format for train details."))
  <-> contains SENTINEL text = false /\ ~ In text error_messages.
Proof.
  rewrite check_train_logic_spec. unfold check_train_outcome. split.
  - intros E. apply Ret_inj in E. revert E.
    destruct (in_list (first_segment text) error_messages) eqn:Hin.
    { intros E. apply failure_inj in E. exfalso.
      apply in_list_In in Hin. simpl in Hin.
      destruct Hin as [Hs | [Hs | []]]; rewrite <- Hs in E;
        vm_compute in E; discriminate. }
    destruct (List.length (split SENTINEL text) <? 2) eqn:Hlen.
    + intros _. apply Nat.ltb_lt in Hlen.
      destruct (contains SENTINEL text) eqn:Hc.
      { apply split_with_separator in Hc; [lia | discriminate]. }
      split; [reflexivity|].
      apply split_without_separator in Hc; [|discriminate].
      unfold first_segment in Hin. rewrite Hc in Hin.
      change (hd [] [text]) with text in Hin.
      intros Hmem. apply in_list_In in Hmem. congruence.
    + destruct (_ <? 15).
      { intros E. apply failure_inj in E. discriminate. }
      destruct (_ <? 20).
      { intros E. apply failure_inj in E. discriminate. }
      intros E. exfalso. exact (success_not_failure _ _ _ _ E).
  - intros [Hc Hmem].
    apply split_without_separator in Hc; [|discriminate].
    unfold first_segment. rewrite Hc. change (hd [] [text]) with text.
    destruct (in_list text error_messages) eqn:Hin.
    { apply in_list_In in Hin. contradiction. }
    reflexivity.
Qed.

Lemma drop_empty_nonempty (l : list str) (i : nat) :
  i < List.length (drop_empty l) -> nth i (drop_empty l) [] <> [].
Proof.
  intros Hi.
  assert (Hin : In (nth i (drop_empty l) []) (drop_empty l))
    by (apply nth_In, Hi).
  apply filter_In in Hin. destruct Hin as [_ Hne].
  destruct (nth i (drop_empty l) []); [discriminate | discriminate].
Qed.

Lemma remove_char_not_In (c : char) (s : str) : ~ In c (remove_char c s).
Proof.
  unfold remove_char. intros Hin. apply filter_In in Hin.
  destruct Hin as [_ Hne]. rewrite N.eqb_refl in Hne. discriminate.
Qed.

(** X5.  With a usable first part, the train-detail decoder fails when the
    second segment has fewer than 20 non-empty fields, and otherwise
    succeeds with [type], [train_id], [distance_from_to] and
    [average_speed] taken from fields 11, 12, 18 and 19 of the second
    segment, none of them empty. *)
Theorem train_detail_second_part
  (unicode_isdigit : char -> bool) (now : Z) (text : str) :
  in_list (first_segment text) error_messages = false ->
  2 <= List.length (split SENTINEL text) ->
  15 <= List.length (first_part (isdigit unicode_isdigit) text) ->
  let partB := drop_empty (split TILDE (nth 1 (split SENTINEL text) [])) in
  (List.length partB < 20 ->
   check_train_logic unicode_isdigit now text
   = Ret (failure now
            (lit "Not enough data in the second part of train details."))) /\
  (20 <= List.length partB ->
   exists obj,
     check_train_logic unicode_isdigit now text
     = Ret (success now (VDict obj)) /\
     get obj (lit "type") = Some (VStr (nth 11 partB [])) /\
     get obj (lit "train_id") = Some (VStr (nth 12 partB [])) /\
     get obj (lit "distance_from_to") = Some (VStr (nth 18 partB [])) /\
     get obj (lit "average_speed") = Some (VStr (nth 19 partB [])) /\
     nth 11 partB [] <> [] /\ nth 12 partB [] <> [] /\
     nth 18 partB [] <> [] /\ nth 19 partB [] <> []).
Proof.
  intros Herr Hsegs Hfirst partB.
  rewrite check_train_logic_spec. unfold check_train_outcome.
  rewrite Herr. apply Nat.ltb_ge in Hsegs, Hfirst. rewrite Hsegs, Hfirst.
  change (second_part text) with partB.
  split.
  - intros Hlen. apply Nat.ltb_lt in Hlen. rewrite Hlen. reflexivity.
  - intros Hlen. pose proof Hlen as Hlen'. apply Nat.ltb_ge in Hlen'.
    rewrite Hlen'. eexists. split; [reflexivity|].
    repeat split; try reflexivity; apply drop_empty_nonempty;
      fold partB; lia.
Qed.

Lemma train_detail_second_part_witness :
  exists obj,
    check_train_logic ascii_only 1700000000000 sample_detail
    = Ret (success 1700000000000 (VDict obj)) /\
    get obj (lit "type") = Some (VStr (lit "Rajdhani")) /\
    get obj (lit "train_id") = Some (VStr (lit "3867")) /\
    get obj (lit "distance_from_to") = Some (VStr (lit "1384")) /\
    get obj (lit "average_speed") = Some (VStr (lit "86")).
Proof.
  destruct (train_detail_second_part ascii_only 1700000000000 sample_detail
              eq_refl) as [_ Hok].
  - vm_compute. lia.
  - vm_compute. lia.
  - destruct Hok as [obj [Hobj [H11 [H12 [H18 [H19 _]]]]]].
    + vm_compute. lia.
    + exists obj. repeat split; assumption.
Defined.

(** X6.  In a successful train detail [train_no] holds no caret, and the
    other string fields taken from the first part are not empty. *)
Theorem train_detail_fields
  (unicode_isdigit : char -> bool) (now : Z) (text : str) (obj : dict) :
  check_train_logic unicode_isdigit now text = Ret (success now (VDict obj)) ->
  (exists s, get obj (lit "train_no") = Some (VStr s) /\
             ~ In CARET_CHAR s) /\
  forall key,
    In key [ lit "train_name"; lit "from_stn_name"; lit "from_stn_code";
             lit "to_stn_name"; lit "to_stn_code"; lit "from_time";
             lit "to_time"; lit "travel_time"; lit "running_days_str" ] ->
    exists s, get obj key = Some (VStr s) /\ s <> [].
Proof.
  rewrite check_train_logic_spec. intros E. apply Ret_inj in E. revert E.
  unfold check_train_outcome.
  destruct (in_list _ _);
    [intros E; exfalso; exact (failure_not_success _ _ _ _ E)|].
  destruct (_ <? 2);
    [intros E; exfalso; exact (failure_not_success _ _ _ _ E)|].
  destruct (_ <? 15) eqn:Hf;
    [intros E; exfalso; exact (failure_not_success _ _ _ _ E)|].
  destruct (_ <? 20);
    [intros E; exfalso; exact (failure_not_success _ _ _ _ E)|].
  intros E. apply success_inj in E. injection E as <-.
  apply Nat.ltb_ge in Hf. split.
  - eexists. split; [reflexivity | apply remove_char_not_In].
  - unfold first_part in *.
    set (partA := repaired (isdigit unicode_isdigit)
                    (drop_empty (split TILDE (first_segment text)))) in *.
    assert (Hne : forall i, i < List.length partA -> nth i partA [] <> []).
    { intros i Hi. unfold partA in *. unfold repaired in *.
      destruct (drop_empty (split TILDE (first_segment text)))
        as [|a0 [|a1 rest]] eqn:Hd.
      - simpl in Hi. lia.
      - rewrite <- Hd. apply drop_empty_nonempty. rewrite Hd. exact Hi.
      - destruct (_ && _).
        + change (nth i (a1 :: rest) []) with (nth (S i) (a0 :: a1 :: rest) []).
          rewrite <- Hd. apply drop_empty_nonempty. rewrite Hd.
          simpl in *. lia.
        + rewrite <- Hd. apply drop_empty_nonempty. rewrite Hd. exact Hi. }
    intros key Hkey. simpl in Hkey.
    repeat (destruct Hkey as [<- | Hkey];
            [eexists; split; [reflexivity | apply Hne; lia]|]).
    contradiction.
Qed.

Lemma train_detail_fields_witness :
  exists s, get (train_detail (first_part (isdigit ascii_only) sample_detail)
                              (second_part sample_detail))
                (lit "train_no") = Some (VStr s) /\
            ~ In CARET_CHAR s.
Proof.
  apply (train_detail_fields ascii_only 1700000000000 sample_detail).
  vm_compute. reflexivity.
Defined.

(** X7.  The body of the train-detail decoder never raises, so neither of
    its [except] clauses ever runs, and a failure carries one of five
    messages. *)
Theorem check_train_failure_messages
  (unicode_isdigit : char -> bool) (now : Z) (text : str) :
  (exists v, check_train_body unicode_isdigit now text = Ret v) /\
  forall msg,
    check_train_logic unicode_isdigit now text = Ret (failure now msg) ->
    In msg [ lit "Please try again after some time.";
             lit "Train not found";
             lit "Invalid data format for train details.";
             lit "Not enough data in the first part of train details.";
             lit "Not enough data in the second part of train details." ].
Proof.
  split; [rewrite check_train_body_spec; eauto|].
  intros msg. rewrite check_train_logic_spec.
  intros E. apply Ret_inj in E. revert E. unfold check_train_outcome.
  destruct (in_list (first_segment text) error_messages) eqn:Hin.
  { intros E. apply failure_inj in E. subst msg.
    apply in_list_In in Hin. simpl in Hin.
    destruct Hin as [<- | [<- | []]]; vm_compute; auto. }
  destruct (_ <? 2).
  { intros E. apply failure_inj in E. subst msg. simpl; auto 10. }
  destruct (_ <? 15).
  { intros E. apply failure_inj in E. subst msg. simpl; auto 10. }
  destruct (_ <? 20).
  { intros E. apply failure_inj in E. subst msg. simpl; auto 10. }
  intros E. exfalso. exact (success_not_failure _ _ _ _ E).
Qed.

Lemma check_train_failure_messages_witness :
  In (lit "Invalid data format for train details.")
     [ lit "Please try again after some time.";
       lit "Train not found";
       lit "Invalid data format for train details.";
       lit "Not enough data in the first part of train details.";
       lit "Not enough data in the second part of train details." ].
Proof.
  apply (proj2 (check_train_failure_messages ascii_only 1700000000000
                  (lit "12345~Rajdhani"))).
  reflexivity.
Defined.

(** * Further properties of the day index *)

(** X8.  For strings that read as a valid calendar date the day index is
    [(weekday + 5) mod 7], lies between 0 and 6, and agrees with the
    JavaScript expression quoted in the docstring, applied to the weekday
    counted from Sunday. *)
Theorem day_index_of_valid_date
  (unicode_decimal : char -> option N) (dd_str mm_str yyyy_str : str)
  (d m y : Z) :
  int unicode_decimal dd_str = Ret d ->
  int unicode_decimal mm_str = Ret m ->
  int unicode_decimal yyyy_str = Ret y ->
  valid_date y m d = true ->
  exists index,
    get_day_on_date_logic unicode_decimal dd_str mm_str yyyy_str = Ret index /\
    index = ((weekday (mkDate y m d) + 5) mod 7)%Z /\
    (0 <= index <= 6)%Z /\
    index = js_day_index ((weekday (mkDate y m d) + 1) mod 7)%Z.
Proof.
  intros Hd Hm Hy Hv. eexists.
  split; [apply (day_index_valid _ _ _ _ _ _ _ Hd Hm Hy Hv)|].
  split; [reflexivity|].
  pose proof (weekday_range (mkDate y m d)) as Hw.
  generalize dependent (weekday (mkDate y m d)). intros w Hw.
  split.
  - pose proof (Z.mod_pos_bound (w + 5) 7). lia.
  - assert (Hcases : (w = 0 \/ w = 1 \/ w = 2 \/ w = 3 \/ w = 4 \/ w = 5
                      \/ w = 6)%Z) by lia.
    repeat (destruct Hcases as [-> | Hcases]; [reflexivity|]).
    subst w. reflexivity.
Qed.

Lemma day_index_of_valid_date_witness :
  exists index,
    get_day_on_date_logic (fun _ => None) (lit "03") (lit "01") (lit "2024")
    = Ret index /\
    index = ((weekday (mkDate 2024 1 3) + 5) mod 7)%Z /\
    (0 <= index <= 6)%Z /\
    index = js_day_index ((weekday (mkDate 2024 1 3) + 1) mod 7)%Z.
Proof.
  apply (day_index_of_valid_date (fun _ => None)
           (lit "03") (lit "01") (lit "2024") 3 1 2024);
    reflexivity.
Defined.

(** X9.  The day index is -1 when one of the three strings is no integer
    numeral, and when the numbers fit a C [int] but are no calendar
    date. *)
Theorem day_index_minus_one
  (unicode_decimal : char -> option N) (dd_str mm_str yyyy_str : str) :
  ((exists e, int unicode_decimal dd_str = Raise e) \/
   (exists e, int unicode_decimal mm_str = Raise e) \/
   (exists e, int unicode_decimal yyyy_str = Raise e) ->
   get_day_on_date_logic unicode_decimal dd_str mm_str yyyy_str
   = Ret (-1)%Z) /\
  (forall d m y,
     int unicode_decimal dd_str = Ret d ->
     int unicode_decimal mm_str = Ret m ->
     int unicode_decimal yyyy_str = Ret y ->
     fits_c_int y && fits_c_int m && fits_c_int d = true ->
     valid_date y m d = false ->
     get_day_on_date_logic unicode_decimal dd_str mm_str yyyy_str
     = Ret (-1)%Z).
Proof.
  split.
  - intros Hbad.
    unfold get_day_on_date_logic, get_day_on_date_body, try_except.
    destruct (int unicode_decimal dd_str) as [d|e] eqn:Hd; cbn [bind].
    2:{ rewrite (int_raises_value_error _ _ _ Hd). reflexivity. }
    destruct (int unicode_decimal mm_str) as [m|e] eqn:Hm; cbn [bind].
    2:{ rewrite (int_raises_value_error _ _ _ Hm). reflexivity. }
    destruct (int unicode_decimal yyyy_str) as [y|e] eqn:Hy; cbn [bind].
    2:{ rewrite (int_raises_value_error _ _ _ Hy). reflexivity. }
    destruct Hbad as [[e E] | [[e E] | [e E]]]; discriminate.
  - intros d m y Hd Hm Hy Hfit Hv.
    apply (day_index_invalid _ _ _ _ _ _ _ Hd Hm Hy Hfit Hv).
Qed.

Lemma day_index_minus_one_witness :
  get_day_on_date_logic (fun _ => None) (lit "1") (lit "Jan") (lit "2024")
  = Ret (-1)%Z /\
  get_day_on_date_logic (fun _ => None) (lit "29") (lit "2") (lit "2023")
  = Ret (-1)%Z.
Proof.
  split.
  - apply (proj1 (day_index_minus_one (fun _ => None)
                    (lit "1") (lit "Jan") (lit "2024"))).
    right. left. eexists. reflexivity.
  - apply (proj2 (day_index_minus_one (fun _ => None)
                    (lit "29") (lit "2") (lit "2023")) 29%Z 2%Z 2023%Z);
      reflexivity.
Defined.

(** X10.  [get_day_on_date_logic] lets an exception through exactly when
    the three strings are integer numerals and one of the numbers does not
    fit a C [int]; the exception is an [OverflowError].  Whatever it
    returns is -1 or an index from 0 to 6. *)
Theorem day_index_raises_iff
  (unicode_decimal : char -> option N) (dd_str mm_str yyyy_str : str) :
  ((exists e,
      get_day_on_date_logic unicode_decimal dd_str mm_str yyyy_str = Raise e)
   <->
   exists d m y,
     int unicode_decimal dd_str = Ret d /\
     int unicode_decimal mm_str = Ret m /\
     int unicode_decimal yyyy_str = Ret y /\
     fits_c_int y && fits_c_int m && fits_c_int d = false) /\
  (forall e,
     get_day_on_date_logic unicode_decimal dd_str mm_str yyyy_str = Raise e ->
     exc_class_of e = OverflowError) /\
  (forall r,
     get_day_on_date_logic unicode_decimal dd_str mm_str yyyy_str = Ret r ->
     r = (-1)%Z \/ (0 <= r <= 6)%Z).
Proof.
  assert (Hcases :
    (exists r, get_day_on_date_logic unicode_decimal dd_str mm_str yyyy_str
               = Ret r /\
               ~ (exists d m y,
                    int unicode_decimal dd_str = Ret d /\
                    int unicode_decimal mm_str = Ret m /\
                    int unicode_decimal yyyy_str = Ret y /\
                    fits_c_int y && fits_c_int m && fits_c_int d = false)) \/
    (exists e, get_day_on_date_logic unicode_decimal dd_str mm_str yyyy_str
               = Raise e /\ exc_class_of e = OverflowError /\
               exists d m y,
                 int unicode_decimal dd_str = Ret d /\
                 int unicode_decimal mm_str = Ret m /\
                 int unicode_decimal yyyy_str = Ret y /\
                 fits_c_int y && fits_c_int m && fits_c_int d = false)).
  { destruct (int unicode_decimal dd_str) as [d|e] eqn:Hd.
    2:{ left. exists (-1)%Z. split.
        - apply day_index_minus_one. left. eauto.
        - intros [d [m [y [E _]]]]. discriminate. }
    destruct (int unicode_decimal mm_str) as [m|e] eqn:Hm.
    2:{ left. exists (-1)%Z. split.
        - apply day_index_minus_one. right. left. eauto.
        - intros [d' [m' [y' [_ [E _]]]]]. discriminate. }
    destruct (int unicode_decimal yyyy_str) as [y|e] eqn:Hy.
    2:{ left. exists (-1)%Z. split.
        - apply day_index_minus_one. right. right. eauto.
        - intros [d' [m' [y' [_ [_ [E _]]]]]]. discriminate. }
    destruct (fits_c_int y && fits_c_int m && fits_c_int d) eqn:Hfit.
    - left. destruct (valid_date y m d) eqn:Hv.
      + eexists. split.
        * apply (day_index_valid _ _ _ _ _ _ _ Hd Hm Hy Hv).
        * intros [d' [m' [y' [E1 [E2 [E3 Hf]]]]]].
          injection E1 as <-. injection E2 as <-. injection E3 as <-.
          congruence.
      + exists (-1)%Z. split.
        * apply (day_index_invalid _ _ _ _ _ _ _ Hd Hm Hy Hfit Hv).
        * intros [d' [m' [y' [E1 [E2 [E3 Hf]]]]]].
          injection E1 as <-. injection E2 as <-. injection E3 as <-.
          congruence.
    - right.
      destruct (day_index_overflow _ _ _ _ _ _ _ Hd Hm Hy Hfit)
        as [e [He Hcls]].
      exists e. split; [exact He|]. split; [exact Hcls|].
      exists d, m, y. auto. }
  split; [|split].
  - split.
    + intros [e He]. destruct Hcases as [[r [Hr _]] | [_ [_ [_ Hd]]]];
        [congruence | exact Hd].
    + intros Hd. destruct Hcases as [[r [_ Hn]] | [e [He _]]];
        [contradiction | eauto].
  - intros e He. destruct Hcases as [[r [Hr _]] | [e' [He' [Hcls _]]]];
      congruence.
  - intros r Hr. eapply day_index_range, Hr.
Qed.

Lemma next_date_ord (y m d : Z) :
  valid_date y m d = true ->
  let '(y', m', d') := next_date y m d in
  ymd_to_ord y' m' d' = (ymd_to_ord y m d + 1)%Z.
Proof.
  intros Hv. unfold valid_date in Hv. rewrite !andb_true_iff, !Z.leb_le in Hv.
  destruct Hv as [[[[[H1 H2] H3] H4] H5] H6].
  unfold next_date.
  destruct (d <? days_in_month y m)%Z eqn:Hd.
  - apply ymd_to_ord_next_day.
  - apply Z.ltb_ge in Hd. assert (d = days_in_month y m) by lia. subst d.
    destruct (m <? 12)%Z eqn:Hm.
    + apply Z.ltb_lt in Hm. apply ymd_to_ord_next_month. lia.
    + apply Z.ltb_ge in Hm. assert (m = 12%Z) by lia. subst m.
      change (days_in_month y 12) with 31%Z. apply ymd_to_ord_next_year.
Qed.

(** X11.  From a date to the next calendar date, over the end of a month,
    of a leap February or of a year, the day index goes up by one modulo
    7. *)
Theorem day_index_next_date
  (unicode_decimal : char -> option N)
  (dd_str mm_str yyyy_str dd_str' mm_str' yyyy_str' : str)
  (d m y d' m' y' index : Z) :
  int unicode_decimal dd_str = Ret d ->
  int unicode_decimal mm_str = Ret m ->
  int unicode_decimal yyyy_str = Ret y ->
  int unicode_decimal dd_str' = Ret d' ->
  int unicode_decimal mm_str' = Ret m' ->
  int unicode_decimal yyyy_str' = Ret y' ->
  valid_date y m d = true ->
  valid_date y' m' d' = true ->
  next_date y m d = (y', m', d') ->
  get_day_on_date_logic unicode_decimal dd_str mm_str yyyy_str = Ret index ->
  get_day_on_date_logic unicode_decimal dd_str' mm_str' yyyy_str'
  = Ret ((index + 1) mod 7)%Z.
Proof.
  intros Hd Hm Hy Hd' Hm' Hy' Hv Hv' Hnext Hidx.
  rewrite (day_index_valid _ _ _ _ _ _ _ Hd Hm Hy Hv) in Hidx.
  injection Hidx as <-.
  rewrite (day_index_valid _ _ _ _ _ _ _ Hd' Hm' Hy' Hv').
  pose proof (next_date_ord y m d Hv) as Hord. rewrite Hnext in Hord.
  rewrite (weekday_next _ _ _ _ _ _ Hord).
  f_equal. rewrite Zplus_mod_idemp_l.
  rewrite (Zplus_mod_idemp_l (weekday (mkDate y m d) + 5)).
  f_equal. lia.
Qed.

Lemma day_index_next_date_witness :
  get_day_on_date_logic (fun _ => None) (lit "01") (lit "03") (lit "2024")
  = Ret ((1 + 1) mod 7)%Z.
Proof.
  apply (day_index_next_date (fun _ => None)
           (lit "29") (lit "02") (lit "2024")
           (lit "01") (lit "03") (lit "2024")
           29 2 2024 1 3 2024 1);
    reflexivity.
Defined.

(** * Further properties of the route decoder *)

Lemma partition_cons (sep : str) (c : char) (t : str) :
  partition sep (c :: t) =
  if startswith sep (c :: t) then Some ([], skipn (List.length sep) (c :: t))
  else match partition sep t with
       | Some (b, a) => Some (c :: b, a)
       | None => None
       end.
Proof. reflexivity. Qed.

Lemma startswith_app_l (sep a c : str) :
  List.length sep <= List.length a ->
  startswith sep (a ++ c) = startswith sep a.
Proof.
  revert a; induction sep as [|x sep IH]; intros [|y a] Hlen; simpl in *;
    try reflexivity; try lia.
  rewrite IH by lia. reflexivity.
Qed.

(** The leftmost occurrence of the separator in a text stays the leftmost
    one when the text is extended. *)
Lemma partition_app (sep a a1 a2 c : str) :
  partition sep a = Some (a1, a2) ->
  partition sep (a ++ c) = Some (a1, a2 ++ c).
Proof.
  revert a1 a2; induction a as [|x a IH]; intros a1 a2.
  - simpl. destruct (startswith sep []) eqn:Hp; [|discriminate].
    destruct sep; [|discriminate]. intros E; injection E as <- <-.
    destruct c; reflexivity.
  - rewrite partition_cons. intros Hq.
    assert (Hlen : List.length sep <= List.length (x :: a)).
    { destruct (startswith sep (x :: a)) eqn:Hp.
      - apply startswith_length, Hp.
      - destruct (partition sep a) as [[b0 a0]|] eqn:Hq'; [|discriminate].
        apply partition_some in Hq'. rewrite Hq'. simpl.
        rewrite !length_app. lia. }
    change ((x :: a) ++ c) with (x :: (a ++ c)). rewrite partition_cons.
    change (x :: (a ++ c)) with ((x :: a) ++ c).
    rewrite (startswith_app_l _ _ _ Hlen).
    destruct (startswith sep (x :: a)).
    + injection Hq as <- <-. f_equal. f_equal. rewrite skipn_app.
      replace (List.length sep - List.length (x :: a)) with 0 by lia.
      reflexivity.
    + destruct (partition sep a) as [[b0 a0]|] eqn:Hq'; [|discriminate].
      injection Hq as <- <-. rewrite (IH _ _ eq_refl). reflexivity.
Qed.

(** The marker cannot straddle the border of a text and a marker put after
    it: its two characters differ. *)
Lemma partition_marker_none (a b : str) :
  partition TILDE_CARET a = None ->
  partition TILDE_CARET (a ++ TILDE_CARET ++ b) = Some (a, b).
Proof.
  induction a as [|c a IH]; [reflexivity|].
  rewrite partition_cons.
  destruct (startswith TILDE_CARET (c :: a)) eqn:Hp; [discriminate|].
  destruct (partition TILDE_CARET a) as [[a1 a2]|] eqn:Hq; [discriminate|].
  intros _.
  change ((c :: a) ++ TILDE_CARET ++ b) with (c :: (a ++ TILDE_CARET ++ b)).
  rewrite partition_cons.
  assert (Hp' : startswith TILDE_CARET (c :: (a ++ TILDE_CARET ++ b)) = false).
  { change TILDE_CARET with [126%N; 94%N] in *. cbn [startswith app] in *.
    destruct (N.eqb 126 c); [|reflexivity]. cbn [andb] in *.
    destruct a as [|x a]; [reflexivity|]. exact Hp. }
  rewrite Hp', (IH eq_refl). reflexivity.
Qed.

Lemma split_marker_app (a b : str) :
  split TILDE_CARET (a ++ TILDE_CARET ++ b)
  = split TILDE_CARET a ++ split TILDE_CARET b.
Proof.
  remember (List.length a) as n eqn:Hn.
  revert a Hn; induction n as [n IH] using lt_wf_ind; intros a Hn.
  rewrite (split_unfold TILDE_CARET (a ++ _)) by discriminate.
  rewrite (split_unfold TILDE_CARET a) by discriminate.
  destruct (partition TILDE_CARET a) as [[a1 a2]|] eqn:Hq.
  - rewrite (partition_app _ _ _ _ _ Hq). simpl. f_equal.
    apply partition_some in Hq.
    apply (IH (List.length a2)); [|reflexivity].
    subst n. rewrite Hq, !length_app. simpl. lia.
  - rewrite (partition_marker_none a b Hq). reflexivity.
Qed.

Lemma route_stops_app (a b : str) :
  route_stops (a ++ TILDE_CARET ++ b) = route_stops a ++ route_stops b.
Proof.
  unfold route_stops, route_fields, drop_empty.
  rewrite split_marker_app, filter_app, map_app, filter_app, map_app.
  reflexivity.
Qed.

Lemma get_route_logic_success (now : Z) (text : str) (stops : list value) :
  get_route_logic now text = Ret (success now (VList stops)) <->
  route_stops text = stops /\ stops <> [].
Proof.
  unfold get_route_logic. rewrite get_route_body_spec. cbn [try_except].
  split.
  - intros E. apply Ret_inj in E. revert E.
    destruct (negb (nonempty_list (drop_empty _)));
      [intros E; exfalso; exact (failure_not_success _ _ _ _ E)|].
    destruct (route_stops text) eqn:Hs;
      [intros E; exfalso; exact (failure_not_success _ _ _ _ E)|].
    intros E. apply success_inj in E. injection E as <-.
    split; [reflexivity | discriminate].
  - intros [Hs Hne]. subst stops.
    destruct (drop_empty (split TILDE_CARET text)) eqn:Hsegs.
    + exfalso. apply Hne. unfold route_stops, route_fields.
      rewrite Hsegs. reflexivity.
    + destruct (route_stops text); [congruence | reflexivity].
Qed.

Lemma get_route_logic_failure (now : Z) (text : str) (msg : str) :
  get_route_logic now text = Ret (failure now msg) -> route_stops text = [].
Proof.
  unfold get_route_logic. rewrite get_route_body_spec. cbn [try_except].
  intros E. apply Ret_inj in E. revert E.
  destruct (drop_empty (split TILDE_CARET text)) eqn:Hsegs.
  - intros _. unfold route_stops, route_fields. rewrite Hsegs. reflexivity.
  - cbn [negb nonempty_list]. destruct (route_stops text); [reflexivity|].
    intros E. exfalso. exact (success_not_failure _ _ _ _ E).
Qed.

(** X12.  Route texts compose: when two texts decode to the stops [sa] and
    [sb], the two texts joined by the marker decode to [sa ++ sb]; and a
    text that yields no stops on one side of the marker leaves the stops
    of the other side. *)
Theorem route_texts_compose (now : Z) (a b : str) (sa sb : list value) :
  get_route_logic now b = Ret (success now (VList sb)) ->
  (get_route_logic now a = Ret (success now (VList sa)) ->
   get_route_logic now (a ++ TILDE_CARET ++ b)
   = Ret (success now (VList (sa ++ sb)))) /\
  ((exists msg, get_route_logic now a = Ret (failure now msg)) ->
   get_route_logic now (a ++ TILDE_CARET ++ b)
   = Ret (success now (VList sb)) /\
   get_route_logic now (b ++ TILDE_CARET ++ a)
   = Ret (success now (VList sb))).
Proof.
  intros Hb. apply get_route_logic_success in Hb. destruct Hb as [Hb Hne].
  split.
  - intros Ha. apply get_route_logic_success in Ha. destruct Ha as [Ha _].
    apply get_route_logic_success. rewrite route_stops_app, Ha, Hb.
    split; [reflexivity|]. destruct sa; [exact Hne | discriminate].
  - intros [msg Ha]. apply get_route_logic_failure in Ha.
    split; apply get_route_logic_success; rewrite route_stops_app, Ha, Hb;
      [|rewrite app_nil_r]; auto.
Qed.

Lemma route_texts_compose_witness :
  get_route_logic 1700000000000 (sample_route ++ TILDE_CARET ++ sample_route)
  = Ret (success 1700000000000
           (VList (route_stops sample_route ++ route_stops sample_route))) /\
  get_route_logic 1700000000000 (lit "junk" ++ TILDE_CARET ++ sample_route)
  = Ret (success 1700000000000 (VList (route_stops sample_route))).
Proof.
  destruct (route_texts_compose 1700000000000 sample_route sample_route
              (route_stops sample_route) (route_stops sample_route) eq_refl)
    as [Hboth _].
  destruct (route_texts_compose 1700000000000 (lit "junk") sample_route
              [] (route_stops sample_route) eq_refl)
    as [_ Hone].
  split.
  - apply Hboth. reflexivity.
  - apply Hone. eexists. reflexivity.
Defined.

(** * Further properties of the scraper and of the extractor *)

Lemma partition_char_none (c : char) (a b : str) :
  partition [c] a = None -> partition [c] (a ++ [c] ++ b) = Some (a, b).
Proof.
  induction a as [|x a IH].
  - intros _. simpl. rewrite N.eqb_refl. reflexivity.
  - rewrite partition_cons.
    destruct (startswith [c] (x :: a)) eqn:Hp; [discriminate|].
    destruct (partition [c] a) as [[a1 a2]|] eqn:Hq; [discriminate|].
    intros _. change ((x :: a) ++ [c] ++ b) with (x :: (a ++ [c] ++ b)).
    rewrite partition_cons.
    assert (Hp' : startswith [c] (x :: (a ++ [c] ++ b)) = false).
    { simpl in *. destruct (N.eqb c x); [discriminate | reflexivity]. }
    rewrite Hp', (IH eq_refl). reflexivity.
Qed.

Lemma contains_false_partition (sep t : str) :
  contains sep t = false -> partition sep t = None.
Proof.
  intros Hc. destruct (partition sep t) as [[b a]|] eqn:Hq; [|reflexivity].
  apply partition_some in Hq.
  assert (contains sep t = true)
    by (apply contains_part_of; exists b, a; exact Hq).
  congruence.
Qed.

(** X13.  In an entry of the scraper a missing [div] after the name node
    leaves both station names empty and a missing cell leaves [time_at]
    and [detail] empty; without an arrow the text of the [div] is the
    source and the destination is empty; with arrows the source is what
    precedes the first arrow and the destination what lies between the
    first and the second. *)
Theorem live_station_missing_parts
  {Document Tag : Type} {bs : Soup Document Tag} (now : Z) (soup : Document) :
  exists entries,
    live_station_logic now soup = Ret (success now (VList entries)) /\
    forall i item,
      nth_error (select soup (lit ".name")) i = Some item ->
      exists obj,
        nth_error entries i = Some (VDict obj) /\
        (find_next_sibling item (lit "div") = None ->
         get obj (lit "source_stn_name") = Some (VStr []) /\
         get obj (lit "dstn_stn_name") = Some (VStr [])) /\
        (forall next_div,
           find_next_sibling item (lit "div") = Some next_div ->
           contains ARROW (get_text next_div) = false ->
           get obj (lit "source_stn_name")
           = Some (VStr (strip (get_text next_div))) /\
           get obj (lit "dstn_stn_name") = Some (VStr [])) /\
        (forall next_div a b,
           find_next_sibling item (lit "div") = Some next_div ->
           get_text next_div = a ++ ARROW ++ b ->
           contains ARROW a = false ->
           get obj (lit "source_stn_name") = Some (VStr (strip a)) /\
           get obj (lit "dstn_stn_name")
           = Some (VStr (strip (hd [] (split ARROW b))))) /\
        (find_parent item (lit "td") = None ->
         get obj (lit "time_at") = Some (VStr []) /\
         get obj (lit "detail") = Some (VStr [])) /\
        (forall parent_td,
           find_parent item (lit "td") = Some parent_td ->
           find_next_sibling parent_td (lit "td") = None ->
           get obj (lit "time_at") = Some (VStr []) /\
           get obj (lit "detail") = Some (VStr [])).
Proof.
  exists (map (fun item => VDict (live_entry item))
              (select soup (lit ".name"))).
  split; [apply live_station_logic_spec|].
  intros i item Hitem. exists (live_entry item).
  split; [rewrite nth_error_map, Hitem; reflexivity|].
  unfold live_entry.
  split; [|split; [|split; [|split]]].
  - intros ->. split; reflexivity.
  - intros next_div -> Hc.
    apply split_without_separator in Hc; [|discriminate].
    rewrite Hc. split; reflexivity.
  - intros next_div a b -> -> Hc.
    rewrite split_unfold by discriminate.
    pose proof (partition_char_none 8594%N a b
                  (contains_false_partition _ _ Hc)) as Hq.
    change [8594%N] with ARROW in Hq. rewrite Hq.
    destruct (split_cons ARROW b) as [h [tl ->]]. split; reflexivity.
  - intros ->. split; reflexivity.
  - intros parent_td -> ->. split; reflexivity.
Qed.

Lemma live_station_missing_parts_witness :
  exists entries obj,
    live_station_logic 1700000000000 sample_page
    = Ret (success 1700000000000 (VList entries)) /\
    nth_error entries 0 = Some (VDict obj) /\
    get obj (lit "source_stn_name") = Some (VStr (lit "NDLS")) /\
    get obj (lit "dstn_stn_name") = Some (VStr (lit "BCT")).
Proof.
  destruct (live_station_missing_parts 1700000000000 sample_page)
    as [entries [Hlogic Hrow]].
  edestruct (Hrow 0) as [obj [Hentry [_ [_ [Harrow _]]]]];
    [vm_compute; reflexivity|].
  exists entries, obj.
  split; [exact Hlogic|]. split; [exact Hentry|].
  eapply (Harrow _ (lit "NDLS ") (lit " BCT"));
    [vm_compute; reflexivity | vm_compute; reflexivity | reflexivity].
Defined.

Lemma first_match_no_terminator (html group : str) :
  first_match html group -> contains (lit "};") group = false.
Proof.
  intros [pre [rest [Hp Hmin]]].
  destruct (contains (lit "};") group) eqn:Hc; [|reflexivity].
  exfalso. apply contains_part_of in Hc. destruct Hc as [p [q Hg]].
  destruct Hp as [ws1 [ws2 [body [H1 [H2 [Hgroup Hhtml]]]]]].
  rewrite Hgroup in Hg.
  destruct p as [|x p]; [discriminate|].
  change (lit "{" ++ body ++ lit "}") with (123%N :: (body ++ [125%N])) in Hg.
  change ((x :: p) ++ lit "};" ++ q) with (x :: (p ++ [125%N; 59%N] ++ q))
    in Hg.
  injection Hg as _ Hg.
  assert (Hbody : exists q0, body = p ++ lit "};" ++ q0).
  { destruct q as [|y q'].
    - assert (Hg' : body ++ [125%N] = (p ++ [125%N]) ++ [59%N]).
      { rewrite Hg, <- app_assoc. reflexivity. }
      apply app_inj_tail in Hg'. destruct Hg' as [_ Hg']. discriminate.
    - destruct (@exists_last _ (y :: q')) as [q0 [z Hq]]; [discriminate|].
      exists q0. rewrite Hq in Hg.
      assert (Hg' : body ++ [125%N] = (p ++ lit "};" ++ q0) ++ [z]).
      { rewrite Hg, <- !app_assoc. reflexivity. }
      apply app_inj_tail in Hg'. destruct Hg' as [Hg' _]. exact Hg'. }
  destruct Hbody as [q0 Hbody].
  assert (Hshort : pattern_at html pre (lit "{" ++ p ++ lit "}")
                     (q0 ++ lit "};" ++ rest)).
  { exists ws1, ws2, p. repeat split; try assumption.
    rewrite Hhtml, Hbody, <- !app_assoc. reflexivity. }
  destruct (Hmin _ _ _ Hshort) as [_ Hlen].
  specialize (Hlen eq_refl). rewrite Hgroup, Hbody in Hlen.
  change (lit "{") with [123%N] in Hlen. change (lit "}") with [125%N] in Hlen.
  change (lit "};") with [125%N; 59%N] in Hlen.
  simpl in Hlen. rewrite !length_app in Hlen. simpl in Hlen. lia.
Qed.

(** X14.  The text handed to [json.loads] is the reported match: it opens
    and closes with a brace, is followed by a semicolon in the page and
    never holds the terminator itself.  The answer of the extractor is
    fixed by what the parser makes of that text: the parsed value, "Failed
    to parse PNR data from page." for a [JSONDecodeError], and "An error
    occurred: " with the text of any other exception. *)
Theorem pnr_match_parsed
  (json_loads : str -> result value) (now : Z) (html group : str) :
  first_match html group ->
  (exists body, group = lit "{" ++ body ++ lit "}") /\
  part_of (group ++ lit ";") html /\
  contains (lit "};") group = false /\
  pnr_status_logic json_loads now html =
  match json_loads group with
  | Ret parsed_data => Ret (success now parsed_data)
  | Raise e =>
      Ret (failure now
             (if issubclass (exc_class_of e) JSONDecodeError
              then lit "Failed to parse PNR data from page."
              else lit "An error occurred: " ++ exc_msg e))
  end.
Proof.
  intros Hfm.
  split; [|split; [|split]].
  - destruct Hfm as [pre [rest [[ws1 [ws2 [body [_ [_ [Hg _]]]]]] _]]].
    exists body. exact Hg.
  - destruct Hfm as [pre [rest [[ws1 [ws2 [body [_ [_ [Hg Hhtml]]]]]] _]]].
    exists (pre ++ lit "data" ++ ws1 ++ lit "=" ++ ws2), rest.
    rewrite Hhtml, Hg, <- !app_assoc. reflexivity.
  - apply (first_match_no_terminator html), Hfm.
  - apply re_search_first_match in Hfm.
    unfold pnr_status_logic, pnr_status_body. rewrite Hfm.
    destruct (json_loads group) as [v|e]; [reflexivity|].
    cbn [bind try_except2]. rewrite issubclass_Exception.
    destruct (issubclass (exc_class_of e) JSONDecodeError); reflexivity.
Qed.

Lemma pnr_match_parsed_witness :
  pnr_status_logic json_loads_fragment 1700000000000 sample_pnr_page
  = Ret (success 1700000000000 (VDict [(lit "a", VInt 1)])).
Proof.
  destruct (pnr_match_parsed json_loads_fragment 1700000000000 sample_pnr_page
              (lit "{" ++ [QUOTE] ++ lit "a" ++ [QUOTE] ++ lit ":1}"))
    as [_ [_ [_ Hlogic]]].
  - apply re_search_first_match. vm_compute. reflexivity.
  - exact Hlogic.
Defined.

(** * The views *)

Lemma between_station_returns (now : Z) (text : str) :
  (exists msg, between_station_logic now text = Ret (failure now msg)) \/
  between_station_logic now text
  = Ret (success now (VList (train_records text))).
Proof.
  rewrite between_station_logic_spec. unfold between_station_outcome.
  repeat match goal with
         | |- context [if ?c then _ else _] => destruct c
         end; eauto.
Qed.

Lemma check_train_returns (isd : char -> bool) (now : Z) (text : str) :
  (exists msg, check_train_logic isd now text = Ret (failure now msg)) \/
  (check_train_logic isd now text
   = Ret (success now (VDict (train_detail (first_part (isdigit isd) text)
                                           (second_part text)))) /\
   20 <= List.length (second_part text)).
Proof.
  rewrite check_train_logic_spec. unfold check_train_outcome.
  destruct (in_list _ _); [eauto|].
  destruct (_ <? 2); [eauto|].
  destruct (_ <? 15); [eauto|].
  destruct (_ <? 20) eqn:Hb; [eauto|].
  right. apply Nat.ltb_ge in Hb. auto.
Qed.

Lemma get_route_returns (now : Z) (text : str) :
  exists ok data,
    get_route_logic now text = Ret (envelope [] ok now data).
Proof.
  unfold get_route_logic. rewrite get_route_body_spec. cbn [try_except].
  repeat match goal with
         | |- context [if ?c then _ else _] => destruct c
         end; eexists _, _; reflexivity.
Qed.

Lemma pnr_status_returns
  (json_loads : str -> result value) (now : Z) (html : str) :
  exists ok data,
    pnr_status_logic json_loads now html = Ret (envelope [] ok now data).
Proof.
  unfold pnr_status_logic, pnr_status_body.
  destruct (re_search html) as [g|]; [|eexists _, _; reflexivity].
  destruct (json_loads g) as [v|e]; cbn [bind try_except2].
  - eexists _, _; reflexivity.
  - rewrite issubclass_Exception.
    destruct (issubclass _ JSONDecodeError); eexists _, _; reflexivity.
Qed.

Lemma envelope_api_response (ok : bool) (now : Z) (data : value) :
  exists r, JsonResponse (envelope [] ok now data) 200 = Ret r /\
            api_response r.
Proof.
  eexists. split; [reflexivity|].
  eexists _, ok. split; [reflexivity|]. split; [reflexivity|].
  intros _. reflexivity.
Qed.

Lemma json_response_content (d : value) (status : Z) (r : response) :
  JsonResponse d status = Ret r -> content r = d.
Proof.
  unfold JsonResponse. destruct d; try discriminate.
  destruct (_ && _); [|discriminate]. intros Hr. injection Hr as <-.
  reflexivity.
Qed.

Lemma status_in_range (status : Z) :
  (100 <= status <= 599)%Z ->
  ((100 <=? status) && (status <=? 599))%Z = true.
Proof. intros Hs. apply andb_true_iff. rewrite !Z.leb_le. exact Hs. Qed.

Lemma status_out_of_range (status : Z) :
  ~ (100 <= status <= 599)%Z ->
  ((100 <=? status) && (status <=? 599))%Z = false.
Proof.
  intros Hs. apply not_true_is_false. intros Hb. apply Hs.
  apply andb_true_iff in Hb. rewrite !Z.leb_le in Hb. exact Hb.
Qed.

Lemma failed_api_response (d : value) (status : Z) (msg : str) :
  (100 <= status <= 599)%Z ->
  d = error_body msg \/ (exists now, d = failure now msg) ->
  exists r, JsonResponse d status = Ret r /\ api_response r.
Proof.
  intros Hs [-> | [now ->]]; cbn [JsonResponse error_body failure envelope];
    rewrite (status_in_range _ Hs); (eexists; split; [reflexivity|]);
    eexists _, false; (split; [reflexivity|]); (split; [reflexivity|]);
    discriminate.
Qed.

Lemma view_except_returns {Document : Type} (env : Env Document)
  (body : outcome response) (unexpected : exception -> result response) :
  (forall r, body = Done r -> api_response r) ->
  (forall e, exists r, unexpected e = Ret r /\ api_response r) ->
  (forall code text,
     body = Failed (HTTPStatusError code text) ->
     exists url headers timeout,
       fetch env url headers timeout = Failed (HTTPStatusError code text)) ->
  answers_or_raises env (view_except body unexpected).
Proof.
  intros Hdone Hunexpected Hfetch. unfold view_except.
  destruct body as [r | [code text | message | e]].
  - left. eauto.
  - destruct (Z_le_dec 100 code) as [Hlo|Hlo];
      [destruct (Z_le_dec code 599) as [Hhi|Hhi]|].
    + left. eapply failed_api_response; [lia | left; reflexivity].
    + right. cbn [JsonResponse error_body].
      rewrite status_out_of_range by lia. split; [reflexivity|].
      destruct (Hfetch code text eq_refl) as [url [headers [timeout Hf]]].
      exists url, headers, timeout, code, text. split; [exact Hf | lia].
    + right. cbn [JsonResponse error_body].
      rewrite status_out_of_range by lia. split; [reflexivity|].
      destruct (Hfetch code text eq_refl) as [url [headers [timeout Hf]]].
      exists url, headers, timeout, code, text. split; [exact Hf | lia].
  - left. eapply failed_api_response; [lia | left; reflexivity].
  - left. rewrite issubclass_Exception. apply Hunexpected.
Qed.

Lemma unexpected_error_returns (e : exception) :
  exists r, unexpected_error e = Ret r /\ api_response r.
Proof. eapply failed_api_response; [lia | left; reflexivity]. Qed.

Lemma bad_request_answers {Document : Type} (env : Env Document)
  (d : value) (msg : str) :
  d = error_body msg \/ (exists now, d = failure now msg) ->
  answers_or_raises env (JsonResponse d 400).
Proof. intros Hd. left. eapply failed_api_response; [lia | exact Hd]. Qed.

Lemma runs_on_record (index : Z) (fields : list str) :
  14 <= List.length fields -> (0 <= index <= 6)%Z ->
  runs_on index (train_base (train_summary fields)) = Ret (runs index fields).
Proof.
  intros Hlen Hidx. do 14 (head_field fields Hlen).
  unfold runs_on, runs, train_base, train_summary.
  cbn [value_get get_default get bind nth combine firstn map app].
  change (get_default _ (lit "train_base") (VDict []))
    with (VDict (train_summary
                   (s :: s0 :: s1 :: s2 :: s3 :: s4 :: s5 :: s6 :: s7 :: s8
                      :: s9 :: s10 :: s11 :: s12 :: fields))).
  cbn [value_get bind].
  change (get_default _ (lit "running_days") (VList []))
    with (VList (running_days_of s12)).
  assert (Hpos : (0 <=? index)%Z = true) by (apply Z.leb_le; lia).
  rewrite Hpos. cbn [value_len bind]. unfold running_days_of.
  destruct (List.length s12 =? 7) eqn:H7.
  - apply Nat.eqb_eq in H7. rewrite length_map, H7.
    assert (Hlt : (index <? Z.of_nat 7)%Z = true) by (apply Z.ltb_lt; lia).
    rewrite Hlt. unfold value_index.
    assert (Hneg : (index <? 0)%Z = false) by (apply Z.ltb_ge; lia).
    rewrite Hneg, Hneg.
    rewrite (getitem_lt _ _ (day_bit 0%N))
      by (rewrite length_map; lia).
    cbn [bind andb]. rewrite (map_nth day_bit).
    unfold day_bit, equals_one. destruct (N.eqb _ Y); reflexivity.
  - cbn [List.length andb].
    destruct (index <? Z.of_nat 0)%Z eqn:Hi; [|reflexivity].
    apply Z.ltb_lt in Hi. lia.
Qed.

Lemma filter_trains_records (index : Z) (segments : list str)
  (filtered_trains : list value) :
  (0 <= index <= 6)%Z ->
  filter_trains index (flat_map train_record segments) filtered_trains
  = Ret (filtered_trains ++ flat_map (train_running index) segments).
Proof.
  intros Hidx. revert filtered_trains.
  induction segments as [|segment segments IH]; intros filtered_trains.
  - simpl. rewrite app_nil_r. reflexivity.
  - cbn [flat_map]. unfold train_record at 1, train_running at 1.
    destruct (usable_fields segment) as [fields|] eqn:Hu;
      [|apply IH].
    apply usable_fields_iff in Hu. destruct Hu as [_ [_ [_ [_ Hlen]]]].
    cbn [app filter_trains].
    rewrite (runs_on_record index fields Hlen Hidx). cbn [bind].
    destruct (runs index fields); rewrite IH.
    + rewrite <- app_assoc. reflexivity.
    + reflexivity.
Qed.

Section GetTrainOn.
Context {Document : Type}.
Variable env : Env Document.
Variables dd mm yyyy data_text : str.

Lemma get_train_on_failure (msg : str) :
  between_station_logic (clock env) data_text
  = Ret (failure (clock env) msg) ->
  get_train_on_decoded env dd mm yyyy data_text
  = Ret (mkResponse (failure (clock env) msg) 200).
Proof.
  intros Hdec. unfold get_train_on_decoded. rewrite Hdec. reflexivity.
Qed.

Lemma get_train_on_success :
  between_station_logic (clock env) data_text
  = Ret (success (clock env) (VList (train_records data_text))) ->
  get_train_on_decoded env dd mm yyyy data_text =
  match get_day_on_date_logic (env_decimal env) dd mm yyyy with
  | Raise e => Raise e
  | Ret index =>
      if (index =? -1)%Z then
        Ret (mkResponse
               (failure (time_ms env)
                  (lit "Invalid date provided for processing.")) 400)
      else
        Ret (mkResponse
               (success (time_ms env) (VList (trains_running index data_text)))
               200)
  end.
Proof.
  intros Hdec. unfold get_train_on_decoded. rewrite Hdec.
  cbn [bind].
  change (value_get _ (lit "success") VNone) with (Ret (VBool true)).
  cbn [bind truthy negb].
  destruct (get_day_on_date_logic (env_decimal env) dd mm yyyy)
    as [index|e] eqn:Hday; [|reflexivity].
  cbn [bind]. destruct (index =? -1)%Z eqn:Hminus; [reflexivity|].
  apply Z.eqb_neq in Hminus.
  assert (Hidx : (0 <= index <= 6)%Z).
  { destruct (day_index_range _ _ _ _ _ Hday); [contradiction | assumption]. }
  change (value_get _ (lit "data") VNone)
    with (Ret (VList (train_records data_text))).
  cbn [bind].
  change (value_getitem _ (lit "data"))
    with (Ret (VList (train_records data_text))).
  destruct (train_records data_text) as [|r rs] eqn:Hrec.
  - cbn [truthy bind]. unfold trains_running, train_records in *.
    assert (Hnone : flat_map (train_running index)
                      (drop_empty (split SENTINEL data_text)) = []).
    { pose proof (filter_trains_records index
                    (drop_empty (split SENTINEL data_text)) [] Hidx) as Hf.
      rewrite Hrec in Hf. cbn in Hf. injection Hf as Hf. auto. }
    rewrite Hnone. reflexivity.
  - cbn [truthy bind isinstance_list]. rewrite <- Hrec.
    unfold train_records. rewrite (filter_trains_records _ _ _ Hidx).
    reflexivity.
Qed.
End GetTrainOn.

Lemma decoded_api_response (decoded : result value) (r : response) :
  (exists ok now data, decoded = Ret (envelope [] ok now data)) ->
  lift (v <- decoded ;; JsonResponse v 200) = Done r -> api_response r.
Proof.
  intros [ok [now [data ->]]] E. cbn in E. injection E as <-.
  eexists _, ok. split; [reflexivity|]. split; [reflexivity|].
  intros _. reflexivity.
Qed.

Lemma between_station_envelope (now : Z) (text : str) :
  exists ok now' data,
    between_station_logic now text = Ret (envelope [] ok now' data).
Proof.
  destruct (between_station_returns now text) as [[msg E] | E]; rewrite E;
    eexists _, _, _; reflexivity.
Qed.

Lemma check_train_envelope (isd : char -> bool) (now : Z) (text : str) :
  exists ok now' data,
    check_train_logic isd now text = Ret (envelope [] ok now' data).
Proof.
  destruct (check_train_returns isd now text) as [[msg E] | [E _]];
    rewrite E; eexists _, _, _; reflexivity.
Qed.

Section RouteView.
Context {Document : Type}.
Variable env : Env Document.
Variable details_text : str.

Lemma get_route_decoded_failure (msg : str) :
  check_train_logic (env_isdigit env) (clock env) details_text
  = Ret (failure (clock env) msg) ->
  get_route_decoded env details_text
  = Done (mkResponse (failure (clock env) msg) 200).
Proof.
  intros Hdec. unfold get_route_decoded. rewrite Hdec. reflexivity.
Qed.

Lemma get_route_decoded_success (obj : dict) :
  check_train_logic (env_isdigit env) (clock env) details_text
  = Ret (success (clock env) (VDict obj)) ->
  get obj (lit "train_id")
  = Some (VStr (nth 12 (second_part details_text) [])) /\
  nth 12 (second_part details_text) [] <> [] /\
  get_route_decoded env details_text
  = (route_text <~
       fetch env (route_url (nth 12 (second_part details_text) [])) None 10 ;;
     lift (route_json <- get_route_logic (clock env) route_text ;;
           JsonResponse route_json 200)).
Proof.
  intros Hdec.
  destruct (check_train_returns (env_isdigit env) (clock env) details_text)
    as [[msg E] | [E Hlen]]; rewrite E in Hdec; apply Ret_inj in Hdec.
  - exfalso. exact (failure_not_success _ _ _ _ Hdec).
  - apply success_inj in Hdec. injection Hdec as <-.
    assert (Hid : nth 12 (second_part details_text) [] <> []).
    { unfold second_part. apply drop_empty_nonempty.
      unfold second_part in Hlen. lia. }
    split; [reflexivity|]. split; [exact Hid|].
    unfold get_route_decoded. rewrite E.
    cbn [lift outcome_bind].
    change (value_get _ (lit "success") VNone) with (Ret (VBool true)).
    cbn [lift outcome_bind truthy negb].
    change (value_get _ (lit "data") VNone)
      with (Ret (VDict (train_detail
                          (first_part (isdigit (env_isdigit env)) details_text)
                          (second_part details_text)))).
    cbn [lift outcome_bind].
    change (truthy (VDict (train_detail _ _))) with true.
    cbn [negb].
    change (value_getitem _ (lit "data"))
      with (Ret (VDict (train_detail
                          (first_part (isdigit (env_isdigit env)) details_text)
                          (second_part details_text)))).
    cbn [lift outcome_bind].
    change (value_get (VDict (train_detail _ _)) (lit "train_id") VNone)
      with (Ret (VStr (nth 12 (second_part details_text) []))).
    cbn [lift outcome_bind].
    destruct (nth 12 (second_part details_text) []) as [|c s] eqn:Hn;
      [contradiction|].
    reflexivity.
Qed.

Lemma get_route_decoded_api (r : response) :
  get_route_decoded env details_text = Done r -> api_response r.
Proof.
  destruct (check_train_returns (env_isdigit env) (clock env) details_text)
    as [[msg E] | [E Hlen]].
  - rewrite (get_route_decoded_failure _ E). intros Hr. injection Hr as <-.
    eexists _, false. split; [reflexivity|]. split; [reflexivity|].
    discriminate.
  - destruct (get_route_decoded_success _ E) as [_ [_ ->]].
    destruct (fetch env _ None 10) as [route_text|]; [|discriminate].
    cbn [outcome_bind]. apply decoded_api_response.
    destruct (get_route_returns (clock env) route_text) as [ok [data Hr]].
    eauto.
Qed.

Lemma get_route_decoded_status_error (code : Z) (text : str) :
  get_route_decoded env details_text = Failed (HTTPStatusError code text) ->
  exists url headers timeout,
    fetch env url headers timeout = Failed (HTTPStatusError code text).
Proof.
  destruct (check_train_returns (env_isdigit env) (clock env) details_text)
    as [[msg E] | [E Hlen]].
  - rewrite (get_route_decoded_failure _ E). discriminate.
  - destruct (get_route_decoded_success _ E) as [_ [_ ->]].
    destruct (fetch env _ None 10) as [route_text|r] eqn:Hf.
    + cbn [outcome_bind].
      destruct (get_route_returns (clock env) route_text) as [ok [data ->]].
      discriminate.
    + cbn [outcome_bind]. intros Hr. injection Hr as ->. eauto.
Qed.
End RouteView.

Lemma lift_no_status_error {A : Type} (m : result A) (code : Z) (text : str) :
  lift m <> Failed (HTTPStatusError code text).
Proof. destruct m; discriminate. Qed.

Section ViewsAnswer.
Context {Document Tag : Type} `{Soup Document Tag}.
Variable env : Env Document.

(** The body of a view that fetches once and then decodes. *)
Lemma fetch_then_decode (url : str) (headers : option str) (timeout : Z)
  (decode : str -> result response)
  (unexpected : exception -> result response) :
  (forall text r, decode text = Ret r -> api_response r) ->
  (forall e, exists r, unexpected e = Ret r /\ api_response r) ->
  answers_or_raises env
    (view_except (text <~ fetch env url headers timeout ;; lift (decode text))
       unexpected).
Proof.
  intros Hdecode Hunexpected. apply view_except_returns.
  - intros r. destruct (fetch env url headers timeout) as [text|];
      [|discriminate].
    cbn [outcome_bind]. destruct (decode text) as [r'|] eqn:Hd;
      [|discriminate].
    intros Hr. injection Hr as <-. exact (Hdecode _ _ Hd).
  - exact Hunexpected.
  - intros code text. destruct (fetch env url headers timeout) as [t|r] eqn:Hf.
    + cbn [outcome_bind]. intros Hr.
      exfalso. exact (lift_no_status_error _ _ _ Hr).
    + cbn [outcome_bind]. intros Hr. injection Hr as ->. eauto.
Qed.

Lemma decoded_response (decoded : result value) (r : response) :
  (exists ok now data, decoded = Ret (envelope [] ok now data)) ->
  (v <- decoded ;; JsonResponse v 200) = Ret r -> api_response r.
Proof.
  intros Hdec Hr. apply (decoded_api_response decoded); [exact Hdec|].
  rewrite Hr. reflexivity.
Qed.

Lemma get_train_view_answers : answers_or_raises env (get_train_view env).
Proof.
  unfold get_train_view. destruct (negb _).
  - eapply bad_request_answers. left. reflexivity.
  - apply (fetch_then_decode _ _ _
             (fun data_text =>
                json_response_data <-
                  check_train_logic (env_isdigit env) (clock env) data_text ;;
                JsonResponse json_response_data 200)).
    + intros text r. apply decoded_response, check_train_envelope.
    + intros e. eapply failed_api_response; [lia | left; reflexivity].
Qed.

Lemma between_stations_view_answers :
  answers_or_raises env (between_stations_view env).
Proof.
  unfold between_stations_view. destruct (_ || _).
  - eapply bad_request_answers. left. reflexivity.
  - destruct (user_agent_str env) as [ua|e].
    + cbn [lift outcome_bind].
      apply (fetch_then_decode _ _ _
               (fun data_text =>
                  json_response_data <-
                    between_station_logic (clock env) data_text ;;
                  JsonResponse json_response_data 200)).
      * intros text r. apply decoded_response, between_station_envelope.
      * apply unexpected_error_returns.
    + left. cbn [lift outcome_bind view_except].
      rewrite issubclass_Exception. apply unexpected_error_returns.
Qed.

Lemma get_train_on_decoded_answers (dd mm yyyy data_text : str)
  (r : response) :
  get_train_on_decoded env dd mm yyyy data_text = Ret r -> api_response r.
Proof.
  destruct (between_station_returns (clock env) data_text) as [[msg E] | E].
  - rewrite (get_train_on_failure _ _ _ _ _ _ E). intros Hr.
    injection Hr as <-. eexists _, false.
    split; [reflexivity|]. split; [reflexivity|]. discriminate.
  - rewrite (get_train_on_success _ _ _ _ _ E).
    destruct (get_day_on_date_logic _ dd mm yyyy) as [index|e];
      [|discriminate].
    destruct (index =? -1)%Z; intros Hr; injection Hr as <-.
    + eexists _, false. split; [reflexivity|]. split; [reflexivity|].
      discriminate.
    + eexists _, true. split; [reflexivity|]. split; reflexivity.
Qed.

Lemma get_train_on_view_answers :
  answers_or_raises env (get_train_on_view env).
Proof.
  unfold get_train_on_view. destruct (negb _).
  { eapply bad_request_answers. right. eexists. reflexivity. }
  assert (Hbad : forall msg,
             answers_or_raises env
               (JsonResponse (envelope [] false (time_ms env) (VStr msg))
                  400)).
  { intros msg. eapply bad_request_answers. right. eexists. reflexivity. }
  destruct (split (lit "-") _) as [|dd [|mm [|yyyy [|x l]]]];
    try apply Hbad.
  destruct (user_agent_toString env) as [ua|e].
  - cbn [lift outcome_bind].
    apply (fetch_then_decode _ _ _ (get_train_on_decoded env dd mm yyyy)).
    + intros text r. apply get_train_on_decoded_answers.
    + apply unexpected_error_returns.
  - left. cbn [lift outcome_bind view_except].
    rewrite issubclass_Exception. apply unexpected_error_returns.
Qed.

Lemma get_route_view_answers : answers_or_raises env (get_route_view env).
Proof.
  unfold get_route_view. destruct (negb _).
  - eapply bad_request_answers. left. reflexivity.
  - apply view_except_returns; [| apply unexpected_error_returns |].
    + intros r. destruct (fetch env _ None 10) as [details_text|];
        [|discriminate].
      cbn [outcome_bind]. apply get_route_decoded_api.
    + intros code text.
      destruct (fetch env _ None 10) as [details_text|r] eqn:Hf.
      * cbn [outcome_bind]. apply get_route_decoded_status_error.
      * cbn [outcome_bind]. intros Hr. injection Hr as ->. eauto.
Qed.

Lemma station_live_view_answers :
  answers_or_raises env (station_live_view env).
Proof.
  unfold station_live_view. destruct (negb _).
  - eapply bad_request_answers. left. reflexivity.
  - apply (fetch_then_decode _ _ _
             (fun html_data =>
                soup <- BeautifulSoup env html_data ;;
                json_response_data <- live_station_logic (clock env) soup ;;
                JsonResponse json_response_data 200)).
    + intros text r.
      destruct (BeautifulSoup env text) as [soup|]; [|discriminate].
      cbn [bind]. apply decoded_response.
      destruct (live_station_logic_spec (clock env) soup) as [_ ->].
      eexists _, _, _. reflexivity.
    + apply unexpected_error_returns.
Qed.

Lemma pnr_status_view_answers : answers_or_raises env (pnr_status_view env).
Proof.
  unfold pnr_status_view. destruct (negb _).
  - eapply bad_request_answers. left. reflexivity.
  - apply (fetch_then_decode _ _ _
             (fun data_text =>
                json_response_data <-
                  pnr_status_logic (env_json_loads env) (clock env)
                    data_text ;;
                JsonResponse json_response_data 200)).
    + intros text r. apply decoded_response.
      destruct (pnr_status_returns (env_json_loads env) (clock env) text)
        as [ok [data ->]].
      eexists _, _, _. reflexivity.
    + apply unexpected_error_returns.
Qed.

(** X18.  In every environment each of the six views either answers or
    raises the [ValueError] of [JsonResponse] for a status outside 100 to
    599, and it raises only when a fetch ended in an HTTP status error with
    such a code.  Whatever else the fetch, the user-agent library and the
    HTML parser return or raise, the view returns a response; its content
    is a dict whose [success] is a boolean, and a response whose [success]
    is true has status 200. *)
Theorem views_answer_or_raise :
  Forall
    (fun view =>
       (exists r, view = Ret r /\ api_response r) \/
       (view
        = Raise (mkExc ValueError
                   (lit "HTTP status code must be an integer from 100 to 599."))
        /\
        exists url headers timeout code text,
          fetch env url headers timeout = Failed (HTTPStatusError code text) /\
          ~ (100 <= code <= 599)%Z))
    [ get_train_view env; between_stations_view env; get_train_on_view env;
      get_route_view env; station_live_view env; pnr_status_view env ].
Proof.
  apply Forall_cons; [apply get_train_view_answers|].
  apply Forall_cons; [apply between_stations_view_answers|].
  apply Forall_cons; [apply get_train_on_view_answers|].
  apply Forall_cons; [apply get_route_view_answers|].
  apply Forall_cons; [apply station_live_view_answers|].
  apply Forall_cons; [apply pnr_status_view_answers|].
  apply Forall_nil.
Qed.
End ViewsAnswer.

Lemma views_answer_or_raise_witness :
  let env := with_fetch
               (fun _ _ _ => Failed (HTTPStatusError 600 (lit "upstream")))
               (sample_env [ (lit "trainNo", lit "12345") ] sample_detail) in
  get_train_view env
  = Raise (mkExc ValueError
             (lit "HTTP status code must be an integer from 100 to 599.")) /\
  exists r, between_stations_view env = Ret r /\ status_code r = 400%Z.
Proof.
  intros env. pose proof (views_answer_or_raise env) as Hviews.
  inversion Hviews as [|v1 l1 Htrain Hrest]. subst.
  split.
  - destruct Htrain as [[r [Hr _]] | [Hr _]]; [|exact Hr].
    vm_compute in Hr. discriminate.
  - inversion Hrest as [|v2 l2 Hbetween _]. subst.
    destruct Hbetween as [[r [Hr _]] | [Hr _]].
    + exists r. split; [exact Hr|]. vm_compute in Hr. injection Hr as <-.
      reflexivity.
    + vm_compute in Hr. discriminate.
Defined.

Section GetRouteView.
Context {Document : Type}.
Variable env : Env Document.

Lemma get_route_view_decoded (details_text : str) :
  given (GET env (lit "trainNo")) = true ->
  fetch env (train_url (GET env (lit "trainNo"))) None 10 = Done details_text ->
  get_route_view env
  = view_except (get_route_decoded env details_text) unexpected_error.
Proof.
  intros Hgiven Hfetch. unfold get_route_view. rewrite Hgiven. cbn [negb].
  rewrite Hfetch. reflexivity.
Qed.

(** X19.  When the detail page decodes to a record, [get_route_view] asks
    for the route of the [train_id] of that record, which is field 12 of
    the second part of the detail text and is never empty.  It answers with
    what [get_route_logic] makes of the route text, under status 200
    whether that is a success or a failure.  An HTTP status error of the
    second fetch is answered with the status code of that error when the
    code lies between 100 and 599; for any other code the view raises the
    [ValueError] of [JsonResponse]. *)
Theorem get_route_view_chains (details_text : str) (obj : dict) :
  given (GET env (lit "trainNo")) = true ->
  fetch env (train_url (GET env (lit "trainNo"))) None 10 = Done details_text ->
  check_train_logic (env_isdigit env) (clock env) details_text
  = Ret (success (clock env) (VDict obj)) ->
  exists train_id,
    get obj (lit "train_id") = Some (VStr train_id) /\
    train_id = nth 12 (second_part details_text) [] /\
    train_id <> [] /\
    (forall route_text,
       fetch env (route_url train_id) None 10 = Done route_text ->
       exists ok data,
         get_route_logic (clock env) route_text
         = Ret (envelope [] ok (clock env) data) /\
         get_route_view env
         = Ret (mkResponse (envelope [] ok (clock env) data) 200)) /\
    (forall code text,
       fetch env (route_url train_id) None 10
       = Failed (HTTPStatusError code text) ->
       ((100 <= code <= 599)%Z ->
        get_route_view env
        = Ret (mkResponse
                 (error_body
                    (lit "HTTP error: " ++ str_of_Z code ++ lit " - " ++ text))
                 code)) /\
       (~ (100 <= code <= 599)%Z ->
        get_route_view env
        = Raise
            (mkExc ValueError
               (lit "HTTP status code must be an integer from 100 to 599.")))).
Proof.
  intros Hgiven Hfetch Hdec.
  destruct (get_route_decoded_success env details_text obj Hdec)
    as [Hid [Hne Hroute]].
  exists (nth 12 (second_part details_text) []).
  split; [exact Hid|]. split; [reflexivity|]. split; [exact Hne|].
  rewrite (get_route_view_decoded _ Hgiven Hfetch), Hroute. split.
  - intros route_text Hsecond. rewrite Hsecond. cbn [outcome_bind].
    destruct (get_route_returns (clock env) route_text) as [ok [data Hr]].
    exists ok, data. split; [exact Hr|]. rewrite Hr. reflexivity.
  - intros code text Hsecond. rewrite Hsecond.
    cbn [outcome_bind view_except JsonResponse error_body]. split; intros Hc.
    + rewrite (status_in_range _ Hc). reflexivity.
    + rewrite (status_out_of_range _ Hc). reflexivity.
Qed.

(** X20.  [get_route_view] hands a failure of [check_train_logic] on
    unchanged under status 200, without a second fetch; and its answer
    "Could not extract train_id from initial train data." is never given,
    in any environment. *)
Theorem get_route_view_train_id_found :
  (forall details_text msg,
     given (GET env (lit "trainNo")) = true ->
     fetch env (train_url (GET env (lit "trainNo"))) None 10
     = Done details_text ->
     check_train_logic (env_isdigit env) (clock env) details_text
     = Ret (failure (clock env) msg) ->
     get_route_view env = Ret (mkResponse (failure (clock env) msg) 200)) /\
  (forall r,
     get_route_view env = Ret r ->
     content r
     <> error_body
          (lit "Could not extract train_id from initial train data.")).
Proof.
  split.
  - intros details_text msg Hgiven Hfetch Hdec.
    rewrite (get_route_view_decoded _ Hgiven Hfetch).
    rewrite (get_route_decoded_failure _ _ _ Hdec). reflexivity.
  - intros r. unfold get_route_view. destruct (negb _).
    { intros Hr. apply json_response_content in Hr. rewrite Hr.
      discriminate. }
    destruct (fetch env _ None 10) as [details_text | [code text | m | e]];
      cbn [outcome_bind view_except];
      try rewrite issubclass_Exception;
      try (intros Hr; apply json_response_content in Hr; rewrite Hr;
           discriminate).
    destruct (check_train_returns (env_isdigit env) (clock env) details_text)
      as [[msg E] | [E Hlen]].
    + rewrite (get_route_decoded_failure _ _ _ E). cbn [view_except].
      intros Hr. injection Hr as <-. discriminate.
    + destruct (get_route_decoded_success _ _ _ E) as [_ [_ ->]].
      destruct (fetch env (route_url _) None 10)
        as [route_text | [code text | m | e]];
        cbn [outcome_bind view_except];
        try rewrite issubclass_Exception;
        try (intros Hr; apply json_response_content in Hr; rewrite Hr;
             discriminate).
      destruct (get_route_returns (clock env) route_text) as [ok [data ->]].
      cbn. intros Hr. injection Hr as <-. discriminate.
Qed.
End GetRouteView.

Lemma get_route_view_chains_witness :
  let env := sample_env [ (lit "trainNo", lit "12345") ] sample_detail in
  exists train_id,
    train_id = lit "3867" /\
    exists data,
      get_route_view env
      = Ret (mkResponse (envelope [] true (clock env) data) 200).
Proof.
  intros env.
  assert (Hgiven : given (GET env (lit "trainNo")) = true)
    by (vm_compute; reflexivity).
  assert (Hfetch : fetch env (train_url (GET env (lit "trainNo"))) None 10
                   = Done sample_detail)
    by (vm_compute; reflexivity).
  assert (Hdec : check_train_logic (env_isdigit env) (clock env) sample_detail
                 = Ret (success (clock env)
                          (VDict (train_detail
                                    (first_part (isdigit (env_isdigit env))
                                       sample_detail)
                                    (second_part sample_detail)))))
    by (vm_compute; reflexivity).
  destruct (get_route_view_chains env sample_detail _ Hgiven Hfetch Hdec)
    as [train_id [_ [Hid [_ [Hroute _]]]]].
  exists train_id. split; [rewrite Hid; vm_compute; reflexivity|].
  assert (Hsecond : fetch env (route_url train_id) None 10
                    = Done sample_route)
    by (rewrite Hid; vm_compute; reflexivity).
  destruct (Hroute sample_route Hsecond) as [ok [data [Hr Hview]]].
  assert (Hok : ok = true).
  { vm_compute in Hr. injection Hr as Hok _. symmetry. exact Hok. }
  subst ok. exists data. exact Hview.
Defined.

Lemma get_route_view_train_id_found_witness :
  let env := sample_env [ (lit "trainNo", lit "0") ]
               (lit "~~~~~Train not found") in
  get_route_view env
  = Ret (mkResponse (failure (clock env) (lit "Train not found")) 200).
Proof.
  intros env.
  refine (proj1 (get_route_view_train_id_found env)
            (lit "~~~~~Train not found") (lit "Train not found") _ _ _);
    vm_compute; reflexivity.
Defined.

(** X21.  [get_train_on_view] checks the shape of the date before it
    builds the user agent: a date that does not split at [-] into three
    parts is answered with status 400 and "Invalid date format. Please use
    DD-MM-YYYY."; for a date that does, an exception of the user-agent
    call is answered with status 500 and "An unexpected error occurred.",
    whatever the page would have been. *)
Theorem get_train_on_view_agent_raises {Document : Type}
  (env : Env Document) :
  given (GET env (lit "from")) && given (GET env (lit "to"))
  && given (GET env (lit "date")) = true ->
  (List.length (split (lit "-") (format_param (GET env (lit "date")))) <> 3 ->
   get_train_on_view env
   = Ret (mkResponse
            (failure (time_ms env)
               (lit "Invalid date format. Please use DD-MM-YYYY.")) 400)) /\
  (forall e,
     List.length (split (lit "-") (format_param (GET env (lit "date")))) = 3 ->
     user_agent_toString env = Raise e ->
     get_train_on_view env
     = Ret (mkResponse
              (error_body (lit "An unexpected error occurred.")) 500)).
Proof.
  intros Hgiven. unfold get_train_on_view. rewrite Hgiven. cbn [negb].
  destruct (split (lit "-") _) as [|dd [|mm [|yyyy [|x l]]]];
    cbn [List.length]; split;
    try (intros _; reflexivity); try (intros Hl; exfalso; lia);
    try (intros e Hl; discriminate).
  intros e _ Hagent. rewrite Hagent. cbn [lift outcome_bind view_except].
  rewrite issubclass_Exception. reflexivity.
Qed.

Lemma get_train_on_view_agent_raises_witness :
  let e := mkExc Exception (lit "object has no attribute 'toString'") in
  get_train_on_view
    (sample_env (sample_query (lit "2024-01")) sample_trains)
  = Ret (mkResponse
           (failure 1700000000001
              (lit "Invalid date format. Please use DD-MM-YYYY.")) 400) /\
  get_train_on_view
    (with_toString (Raise e)
       (sample_env (sample_query (lit "03-01-2024")) sample_trains))
  = Ret (mkResponse (error_body (lit "An unexpected error occurred.")) 500).
Proof.
  intros e. split.
  - refine (proj1 (get_train_on_view_agent_raises
                     (sample_env (sample_query (lit "2024-01")) sample_trains)
                     _) _); [vm_compute; reflexivity|].
    vm_compute. discriminate.
  - refine (proj2 (get_train_on_view_agent_raises
                     (with_toString (Raise e)
                        (sample_env (sample_query (lit "03-01-2024"))
                           sample_trains))
                     _) e _ _); vm_compute; reflexivity.
Defined.

(** X22.  [get_train_view] and [get_route_view] fetch the same address for
    the same [trainNo], and answer an exception of that fetch that is
    neither an HTTP status error nor a request error differently: both with
    status 500, [get_train_view] with the text of the exception,
    [get_route_view] with "An unexpected error occurred.". *)
Theorem train_views_unexpected_exception {Document : Type}
  (env : Env Document) (e : exception) :
  given (GET env (lit "trainNo")) = true ->
  fetch env (train_url (GET env (lit "trainNo"))) None 10
  = Failed (Unexpected e) ->
  get_train_view env = Ret (mkResponse (error_body (str_of_exc e)) 500) /\
  get_route_view env
  = Ret (mkResponse (error_body (lit "An unexpected error occurred.")) 500).
Proof.
  intros Hgiven Hfetch. unfold get_train_view, get_route_view.
  rewrite Hgiven, Hfetch. cbn [negb outcome_bind view_except].
  rewrite issubclass_Exception. split; reflexivity.
Qed.

Lemma train_views_unexpected_exception_witness :
  let e := mkExc Exception (lit "Event loop is closed") in
  let env := with_fetch (fun _ _ _ => Failed (Unexpected e))
               (sample_env [ (lit "trainNo", lit "12345") ] sample_detail) in
  get_train_view env
  = Ret (mkResponse (error_body (lit "Event loop is closed")) 500) /\
  get_route_view env
  = Ret (mkResponse (error_body (lit "An unexpected error occurred.")) 500).
Proof.
  intros e env.
  refine (train_views_unexpected_exception env e _ _);
    vm_compute; reflexivity.
Defined.

Section FetchedPages.
Context {Document Tag : Type} `{Soup Document Tag}.
Variable env : Env Document.

End FetchedPages.

